(** * MMSeqs2Runner: a shallow embedding of [scripts/mmseqs2.py]

    The runner submits a sequence to the MMseqs2 server, polls the ticket,
    downloads the archive, selects template structures from the result table
    and fetches them.  The Python methods are embedded as functions in a small
    state-and-exception monad over an explicit [world]: the file system, the
    heap of Python list objects, the two random generators and the trace of
    observable events (HTTP requests, shell commands, sleeps, log records).

    Conventions.
    - Python [str] is [string]; the text handled here is ASCII (bytes above
      127 are treated as neither whitespace nor letters).
    - An uncaught Python exception is [Raise e]; it propagates through
      [bind] exactly as it unwinds the Python call stack.
    - The HTTP servers are one function [server n req]: the response to the
      request [req] issued after [n] earlier requests.
    - Operating-system calls are modelled on their success path: creating or
      removing a directory and writing a file succeed; reading a file that
      does not exist raises [FileNotFoundError].  A text file holds the text
      as Python's text mode delivers it, its line ends being LF; for the
      alignment files, which come out of the archive as bytes, the
      translation of the line ends is written out ([universal_newlines]).
    - The caller's [templates] list holds strings, with possibly a tuple of
      strings in front; a candidate list is a Python list object in the
      heap, so that a callee that mutates it is seen by the caller.
    - The two [while] loops of [_search_mmseqs2] have no bound in the
      source; they are given fuel, and running out of it is [None]. *)

From Stdlib Require Import ZArith Ascii String Floats.
From stdpp Require Import gmap strings.

Open Scope string_scope.

(** ** Python strings *)

Module PyStr.

Definition chars (s : string) : list ascii := list_ascii_of_string s.

Definition code (c : ascii) : nat := nat_of_ascii c.

(** [str.isspace] on ASCII: TAB, LF, VT, FF, CR, the four separators
    FS, GS, RS, US, and the space. *)
Definition isspace (c : ascii) : bool :=
  let n := code c in
  (((9 <=? n) && (n <=? 13)) || ((28 <=? n) && (n <=? 32)))%nat.

Definition is_upper (c : ascii) : bool :=
  let n := code c in ((65 <=? n) && (n <=? 90))%nat.

Definition is_lower (c : ascii) : bool :=
  let n := code c in ((97 <=? n) && (n <=? 122))%nat.

Definition upper_char (c : ascii) : ascii :=
  if is_lower c then ascii_of_nat (code c - 32) else c.

(** [s.upper()] *)
Fixpoint upper (s : string) : string :=
  match s with
  | EmptyString => EmptyString
  | String c s' => String (upper_char c) (upper s')
  end.

(** [re.sub(r"[class]", "", s)]: delete every character of the class. *)
Fixpoint re_sub_class (cls : ascii -> bool) (s : string) : string :=
  match s with
  | EmptyString => EmptyString
  | String c s' =>
      if cls c then re_sub_class cls s' else String c (re_sub_class cls s')
  end.

(** [c in s] for a one-character [c]. *)
Fixpoint contains (c : ascii) (s : string) : bool :=
  match s with
  | EmptyString => false
  | String d s' => Ascii.eqb c d || contains c s'
  end.

(** [sep.join(l)] *)
Fixpoint join (sep : string) (l : list string) : string :=
  match l with
  | [] => EmptyString
  | [x] => x
  | x :: l' => x ++ sep ++ join sep l'
  end.

(** [s.split(sep)] for a one-character separator: the pieces between the
    separators, always at least one piece. *)
Fixpoint split (sep : ascii) (s : string) : list string :=
  match s with
  | EmptyString => [EmptyString]
  | String c s' =>
      if Ascii.eqb c sep then EmptyString :: split sep s'
      else match split sep s' with
           | [] => [String c EmptyString]
           | p :: ps => String c p :: ps
           end
  end.

(** [s.split()]: maximal runs of non-whitespace characters.  [cur] is the
    run being read, in reverse. *)
Fixpoint split_ws_aux (cur : list ascii) (s : string) : list string :=
  let flush := match cur with
               | [] => []
               | _ => [string_of_list_ascii (rev cur)]
               end in
  match s with
  | EmptyString => flush
  | String c s' =>
      if isspace c then (flush ++ split_ws_aux [] s')%list
      else split_ws_aux (c :: cur) s'
  end.

Definition split_ws (s : string) : list string := split_ws_aux [] s.

(** [s.rstrip()]: drop trailing whitespace. *)
Fixpoint rstrip (s : string) : string :=
  match s with
  | EmptyString => EmptyString
  | String c s' =>
      match rstrip s' with
      | EmptyString => if isspace c then EmptyString else String c EmptyString
      | r => String c r
      end
  end.

Definition tab : string := String (ascii_of_nat 9) EmptyString.
Definition newline : string := String (ascii_of_nat 10) EmptyString.

End PyStr.

(** ** JSON values as [json.loads] returns them

    Numbers are doubles; a decoded object is an association list read by
    its first binding of a key. *)

#[local] Set Warnings "-register-all".

Inductive json : Type :=
| JNull
| JBool (b : bool)
| JNum (f : float)
| JStr (s : string)
| JList (l : list json)
| JDict (d : list (string * json)).

(** ** Exceptions, events and the world *)

Inductive exn : Type :=
| RuntimeError (msg : string)
| ValueError
| KeyError (key : string)
| IndexError
| TypeError
| FileNotFoundError (path : string).

Inductive res (A : Type) : Type :=
| Ok (a : A)
| Raise (e : exn).
Arguments Ok {A} a.
Arguments Raise {A} e.

Inductive level : Type := DEBUG | INFO | WARNING.

Inductive request : Type :=
| POST (url : string) (data : list (string * string))
| GET (url : string).

(** What [requests] hands back: [res.json()] is [json_body] ([None] when the
    body is not JSON, where Python raises [ValueError]) and [res.content]. *)
Record response : Type := Response {
  json_body : option json;
  content : string }.

Inductive event : Type :=
| EvHttp (r : request)
| EvShell (cmd : string)
| EvSleep (secs : nat)
| EvLog (lv : level) (msg : string)
| EvPrint (msg : string) (l : list string).

#[global] Instance level_eq_dec : EqDecision level.
Proof. solve_decision. Defined.

#[global] Instance request_eq_dec : EqDecision request.
Proof. solve_decision. Defined.

#[global] Instance event_eq_dec : EqDecision event.
Proof. solve_decision. Defined.

Definition loc := nat.

Record world : Type := World {
  dirs : gset string;                  (* existing directories *)
  files : gmap string string;          (* regular files and their contents *)
  heap : gmap loc (list string);       (* Python list objects *)
  py_random : list nat;                (* entropy of the [random] module *)
  np_random : list nat;                (* entropy of [np.random] *)
  trace : list event }.                (* observable events, oldest first *)

Definition set_dirs (d : gset string) (w : world) : world :=
  World d (files w) (heap w) (py_random w) (np_random w) (trace w).
Definition set_files (f : gmap string string) (w : world) : world :=
  World (dirs w) f (heap w) (py_random w) (np_random w) (trace w).
Definition set_heap (h : gmap loc (list string)) (w : world) : world :=
  World (dirs w) (files w) h (py_random w) (np_random w) (trace w).
Definition set_py_random (g : list nat) (w : world) : world :=
  World (dirs w) (files w) (heap w) g (np_random w) (trace w).
Definition set_np_random (g : list nat) (w : world) : world :=
  World (dirs w) (files w) (heap w) (py_random w) g (trace w).
Definition set_trace (t : list event) (w : world) : world :=
  World (dirs w) (files w) (heap w) (py_random w) (np_random w) t.

(** ** The monad *)

Definition M (A : Type) : Type := world -> res A * world.

Definition ret {A} (a : A) : M A := fun w => (Ok a, w).

Definition raise {A} (e : exn) : M A := fun w => (Raise e, w).

Definition bind {A B} (m : M A) (k : A -> M B) : M B :=
  fun w => match m w with
           | (Ok a, w') => k a w'
           | (Raise e, w') => (Raise e, w')
           end.

Notation "'let*' x ':=' m 'in' k" := (bind m (fun x => k))
  (at level 10, x pattern, m at level 100, k at level 200).

Definition lift {A} (r : res A) : M A := fun w => (r, w).

Definition emit (e : event) : M unit :=
  fun w => (Ok tt, set_trace (trace w ++ [e])%list w).

Definition logging (lv : level) (msg : string) : M unit := emit (EvLog lv msg).

Definition is_http (e : event) : bool :=
  match e with EvHttp _ => true | _ => false end.

Definition http_count (t : list event) : nat := length (filter is_http t).

(** One draw of a generator: the next number of its entropy, zero once
    the entropy is used up. *)
Definition draw (g : list nat) : nat * list nat :=
  match g with
  | [] => (0, [])
  | x :: g' => (x, g')
  end.

(** [random]'s [_randbelow(n)] *)
Definition randbelow (n : nat) : M nat :=
  fun w => let '(x, g) := draw (py_random w) in
           (Ok (x mod n), set_py_random g w).

(** [np.random.randint(lo, hi)] *)
Definition np_randint (lo hi : nat) : M nat :=
  fun w => let '(x, g) := draw (np_random w) in
           (Ok (lo + x mod (hi - lo)), set_np_random g w).

Definition time_sleep (secs : nat) : M unit := emit (EvSleep secs).

(** *** The file system *)

Definition under (root p : string) : bool :=
  String.eqb p root || String.prefix (root ++ "/") p.

Definition os_path_isdir (p : string) : M bool :=
  fun w => (Ok (bool_decide (p ∈ dirs w)), w).

Definition os_path_isfile (p : string) : M bool :=
  fun w => (Ok (bool_decide (is_Some (files w !! p))), w).

Definition remove_tree (root : string) (w : world) : world :=
  set_files (filter (fun kv => under root kv.1 = false) (files w))
    (set_dirs (filter (fun p => under root p = false) (dirs w)) w).

(** [os.system(f"rm -r {path}")] *)
Definition os_system_rm_r (p : string) : M unit :=
  let* _ := emit (EvShell ("rm -r " ++ p)) in
  fun w => (Ok tt, remove_tree p w).

(** [os.system(f"mkdir {path}")] *)
Definition os_system_mkdir (p : string) : M unit :=
  let* _ := emit (EvShell ("mkdir " ++ p)) in
  fun w => (Ok tt, set_dirs ({[ p ]} ∪ dirs w) w).

(** [os.system(cmd)] for the commands whose result on disk depends on data
    outside the model (the fetched archive): only the command is recorded. *)
Definition os_system (cmd : string) : M unit := emit (EvShell cmd).

Definition os_mkdir (p : string) : M unit :=
  fun w => (Ok tt, set_dirs ({[ p ]} ∪ dirs w) w).

(** [open(p, "r").read()] *)
Definition read_file (p : string) : M string :=
  fun w => match files w !! p with
           | Some c => (Ok c, w)
           | None => (Raise (FileNotFoundError p), w)
           end.

(** [open(p, "w")] followed by the writes that produce [c] *)
Definition write_file (p c : string) : M unit :=
  fun w => (Ok tt, set_files (<[ p := c ]> (files w)) w).

(** *** Python list objects *)

Definition alloc (xs : list string) : M loc :=
  fun w => let l := fresh (dom (heap w)) in
           (Ok l, set_heap (<[ l := xs ]> (heap w)) w).

Definition deref (l : loc) : M (list string) :=
  fun w => (Ok (default [] (heap w !! l)), w).

Definition store (l : loc) (xs : list string) : M unit :=
  fun w => (Ok tt, set_heap (<[ l := xs ]> (heap w)) w).

(** ** Subscripting and comparing decoded JSON *)

Module Json.

Fixpoint dict_get (k : string) (d : list (string * json)) : option json :=
  match d with
  | [] => None
  | (k', v) :: d' => if String.eqb k k' then Some v else dict_get k d'
  end.

(** [j[k]] for a string key *)
Definition getitem (j : json) (k : string) : res json :=
  match j with
  | JDict d => match dict_get k d with
               | Some v => Ok v
               | None => Raise (KeyError k)
               end
  | _ => Raise TypeError
  end.

(** [j[0]] *)
Definition first (j : json) : res json :=
  match j with
  | JList (x :: _) => Ok x
  | JList [] => Raise IndexError
  | JStr (String c _) => Ok (JStr (String c EmptyString))
  | JStr EmptyString => Raise IndexError
  | JDict _ => Raise (KeyError "0")
  | _ => Raise TypeError
  end.

(** [k in j] *)
Definition has_key (k : string) (j : json) : res bool :=
  match j with
  | JDict d => Ok (bool_decide (is_Some (dict_get k d)))
  | JList l => Ok (existsb (fun x => match x with
                                     | JStr s => String.eqb s k
                                     | _ => false
                                     end) l)
  | JStr s => Ok (bool_decide (is_Some (String.index 0 k s)))
  | _ => Raise TypeError
  end.

(** [j == s] for a string [s] *)
Definition eq_str (j : json) (s : string) : bool :=
  match j with
  | JStr t => String.eqb t s
  | _ => false
  end.

(** [j != 400] *)
Definition ne_400 (j : json) : bool :=
  match j with
  | JNum f => negb (PrimFloat.eqb f 400%float)
  | _ => true
  end.

Definition is_dict (j : json) : bool :=
  match j with JDict _ => true | _ => false end.

(** [j in l] for a list of strings [l] *)
Definition in_strs (j : json) (l : list string) : bool :=
  existsb (eq_str j) l.

End Json.

(** ** The runner *)

Record runner : Type := Runner {
  job : string;
  seq : string;
  host_url : string;
  t_url : string;
  n_templates : Z;
  shuffling_templates : bool;
  path : string;
  tarfile : string }.

Definition set_shuffling_templates (b : bool) (self : runner) : runner :=
  Runner (job self) (seq self) (host_url self) (t_url self) (n_templates self)
         b (path self) (tarfile self).

(** [any([aa in seq for aa in "BJOUXZ"])] *)
Definition has_noncanonical (seq : string) : bool :=
  existsb (fun aa => PyStr.contains aa seq) (PyStr.chars "BJOUXZ").

Definition warn_noncanonical : string :=
  "Sequence contains non-canonical amino acids!".
Definition warn_removing : string :=
  "Removing B, J, O, U, X, and Z from sequence".

Definition _cleanseq (seq : string) : M string :=
  let* seq :=
    (if has_noncanonical seq then
       let* _ := logging WARNING warn_noncanonical in
       let* _ := logging WARNING warn_removing in
       ret (PyStr.re_sub_class (fun c => PyStr.contains c "BJOUXZ") seq)
     else ret seq) in
  ret (PyStr.re_sub_class (fun c => negb (PyStr.is_upper c))
         (PyStr.join EmptyString (PyStr.split_ws seq))).

(** The partial monad of the polling loops: [None] when the fuel runs out
    before the loop ends. *)
Definition P (A : Type) : Type := world -> option (res A * world).

Definition pbind {A B} (m : P A) (k : A -> P B) : P B :=
  fun w => match m w with
           | Some (Ok a, w') => k a w'
           | Some (Raise e, w') => Some (Raise e, w')
           | None => None
           end.

Definition total {A} (m : M A) : P A := fun w => Some (m w).

Notation "'let+' x ':=' m 'in' k" := (pbind m (fun x => k))
  (at level 10, x pattern, m at level 100, k at level 200).

(** [try: m  except ValueError: h] *)
Definition except_ValueError {A} (m h : M A) : M A :=
  fun w => match m w with
           | (Raise ValueError, w') => h w'
           | r => r
           end.

(** [l[i]] on a Python list of strings *)
Definition list_item (l : list string) (i : nat) : res string :=
  match l !! i with
  | Some x => Ok x
  | None => Raise IndexError
  end.

(** [l[:n]] *)
Definition slice_to (l : list string) (n : Z) : list string :=
  if (0 <=? n)%Z then take (Z.to_nat n) l
  else take (length l - Z.to_nat (- n)) l.

(** The caller's [templates] argument: strings, or a tuple of strings in
    front. *)
Inductive pyval : Type :=
| PStr (s : string)
| PTuple (l : list string).

#[global] Instance pyval_eq_dec : EqDecision pyval.
Proof. solve_decision. Defined.

Definition pyval_len (t : pyval) : nat :=
  match t with
  | PStr s => String.length s
  | PTuple l => length l
  end.

(** [t[i]] *)
Definition pyval_item (t : pyval) (i : nat) : res string :=
  match t with
  | PStr s => match String.get i s with
              | Some c => Ok (String c EmptyString)
              | None => Raise IndexError
              end
  | PTuple l => list_item l i
  end.

(** [t in l] for a list of strings [l] *)
Definition pyval_in_strs (t : pyval) (l : list string) : bool :=
  match t with
  | PStr s => bool_decide (s ∈ l)
  | PTuple _ => false
  end.

(** The text of [t] where the code has established that it is a string. *)
Definition pyval_str (t : pyval) : string :=
  match t with
  | PStr s => s
  | PTuple _ => EmptyString
  end.

(** [[t.upper() for t in templates if isinstance(t, str)]] *)
Definition upper_strs (templates : list pyval) : list string :=
  omap (fun t => match t with
                 | PStr s => Some (PyStr.upper s)
                 | PTuple _ => None
                 end) templates.

(** The lines a text file yields when iterated, without their newline. *)
Definition file_lines (c : string) : list string :=
  let ps := PyStr.split (ascii_of_nat 10) c in
  match last ps with
  | Some EmptyString => removelast ps
  | _ => ps
  end.

(** [pdb.split("_")[0].upper()]; [split] never returns an empty list. *)
Definition pdb_id (pdb : string) : string :=
  PyStr.upper (hd EmptyString (PyStr.split "_" pdb)).

(** The loop state of [process_templates]: [pdbs] and [check_duplicates]. *)
Definition selection : Type := list string * list string.

Definition accept (pdb pdbid : string) (st : selection) : selection :=
  ((st.1 ++ [pdb])%list, (st.2 ++ [pdbid])%list).

Definition activation_states : list string :=
  ["Active"; "Inactive"; "Intermediate"; "G protein"; "Arrestin"].

(** [a and b] on conditions that may raise: [b] is evaluated only when
    [a] holds. *)
Definition and_then (a b : M bool) : M bool :=
  let* x := a in if x then b else ret false.

(** [x[i], x[j] = x[j], x[i]], for indices within the list, as the shuffle
    has them. *)
Definition swap (x : list string) (i j : nat) : list string :=
  match x !! i, x !! j with
  | Some a, Some b => <[ j := a ]> (<[ i := b ]> x)
  | _, _ => x
  end.

(** [random.shuffle(x)] as CPython has it: for [i] from [len(x) - 1] down
    to 1, exchange [x[i]] with [x[randbelow(i + 1)]], in place. *)
Fixpoint shuffle_from (i : nat) (x : loc) : M unit :=
  match i with
  | 0 => ret tt
  | S i' =>
      let* j := randbelow (S i) in
      let* xs := deref x in
      let* _ := store x (swap xs i j) in
      shuffle_from i' x
  end.

Definition random_shuffle (x : loc) : M unit :=
  let* xs := deref x in
  shuffle_from (length xs - 1) x.

Section Runner.

(** The servers: the response to a request issued after [n] others. *)
Variable server : nat -> request -> response.
(** [hashlib.sha1(s.encode()).hexdigest()] *)
Variable sha1_hexdigest : string -> string.
(** [float(s)] on a string; [None] where Python raises [ValueError]. *)
Variable float_of_str : string -> option float.
(** [str(j)] of a decoded JSON value that is not a string. *)
Variable repr : json -> string.

Definition py_str (j : json) : string :=
  match j with
  | JStr s => s
  | _ => repr j
  end.

(** [float(j)] *)
Definition py_float (j : json) : res float :=
  match j with
  | JNum f => Ok f
  | JBool b => Ok (if b then 1%float else 0%float)
  | JStr s => match float_of_str s with
              | Some f => Ok f
              | None => Raise ValueError
              end
  | _ => Raise TypeError
  end.

Definition requests (req : request) : M response :=
  fun w => (Ok (server (http_count (trace w)) req),
            set_trace (trace w ++ [EvHttp req])%list w).

(** [res.json()] *)
Definition res_json (r : response) : M json :=
  match json_body r with
  | Some j => ret j
  | None => raise ValueError
  end.

(** *** Construction *)

Definition is_word (c : ascii) : bool :=
  let n := PyStr.code c in
  PyStr.is_upper c || PyStr.is_lower c
  || ((48 <=? n) && (n <=? 57))%nat || Ascii.eqb c "_"%char.

Definition _define_jobname (seq job : string) : string :=
  PyStr.join "_"
    [ PyStr.re_sub_class (fun c => negb (is_word c))
        (PyStr.join EmptyString (PyStr.split_ws job));
      String.substring 0 5 (sha1_hexdigest seq) ].

Definition __init__ (job seq host_url t_url path_suffix : string)
    (n_templates : Z) (shuffling_templates : bool) : M runner :=
  let* seq := _cleanseq (PyStr.upper seq) in
  let job := _define_jobname seq job in
  let path := PyStr.join "_" [job; path_suffix] in
  let* d := os_path_isdir path in
  let* _ := (if negb d then os_system_mkdir path else ret tt) in
  ret (Runner job seq host_url t_url n_templates shuffling_templates
         path (path ++ "/out.tar.gz")).

(** *** The search job *)

Definition status_unknown : json := JDict [("status", JStr "UNKNOWN")].

Definition _submit (self : runner) : M json :=
  let data := [("q", ">101" ++ PyStr.newline ++ seq self); ("mode", "env")] in
  let* res := requests (POST (host_url self ++ "/ticket/msa") data) in
  except_ValueError (res_json res) (ret status_unknown).

Definition _status (self : runner) (idx : json) : M json :=
  let* res := requests (GET (host_url self ++ "/ticket/" ++ py_str idx)) in
  except_ValueError (res_json res) (ret status_unknown).

Definition _download (self : runner) (idx : json) (path : string) : M unit :=
  let* res :=
    requests (GET (host_url self ++ "/result/download/" ++ py_str idx)) in
  write_file path (content res).

(** [time.sleep(5 + np.random.randint(0, 5))] *)
Definition nap : M unit :=
  let* r := np_randint 0 5 in
  time_sleep (5 + r).

(** [out["status"] in l] *)
Definition status_in (out : json) (l : list string) : M bool :=
  let* s := lift (Json.getitem out "status") in
  ret (Json.in_strs s l).

(** The first [while]: resubmit while the ticket is unknown or rate
    limited. *)
Fixpoint resubmit_loop (fuel : nat) (self : runner) (out : json) : P json :=
  let+ again := total (status_in out ["UNKNOWN"; "RATELIMIT"]) in
  if again then
    match fuel with
    | 0 => fun _ => None
    | S fuel' =>
        let+ out' := total (let* _ := nap in _submit self) in
        resubmit_loop fuel' self out'
    end
  else total (ret out).

(** The second [while]: poll while the job is not finished. *)
Fixpoint poll_loop (fuel : nat) (self : runner) (out : json) : P json :=
  let+ again := total (status_in out ["UNKNOWN"; "RUNNING"; "PENDING"]) in
  if again then
    match fuel with
    | 0 => fun _ => None
    | S fuel' =>
        let+ out' := total (let* _ := nap in
                            let* idx := lift (Json.getitem out "id") in
                            _status self idx) in
        poll_loop fuel' self out'
    end
  else total (ret out).

Definition api_error : string :=
  PyStr.join " "
    [ "MMseqs2 API is giving errors.";
      "Please confirm your input is a valid protein sequence.";
      "If error persists, please try again in an hour." ].

Definition _search_mmseqs2 (fuel : nat) (self : runner) : P unit :=
  let+ present := total (os_path_isfile (tarfile self)) in
  if present then total (ret tt)
  else
    let+ out := total (_submit self) in
    let+ _ := total nap in
    let+ out := resubmit_loop fuel self out in
    let+ _ := total (let* idx := lift (Json.getitem out "id") in
                     logging DEBUG ("ID: " ++ py_str idx)) in
    let+ out := poll_loop fuel self out in
    total (let* s := lift (Json.getitem out "status") in
           if Json.eq_str s "COMPLETE" then
             let* idx := lift (Json.getitem out "id") in
             _download self idx (tarfile self)
           else
             let* s := lift (Json.getitem out "status") in
             if Json.eq_str s "ERROR" then raise (RuntimeError api_error)
             else ret tt).

(** *** Template selection *)

(** Lines 278-288: the activation state of [pdbid] asked from GPCRdb. *)
Definition activation_branch (activation_state pdb pdbid : string)
    (st : selection) : M selection :=
  let url := "http://gpcrdb.org/services/structure/" ++ pdbid in
  let* r := requests (GET url) in
  let* rj := res_json r in
  let* same_state :=
    and_then (ret (Json.is_dict rj))
      (let* s := lift (Json.getitem rj "state") in
       ret (Json.eq_str s activation_state)) in
  if same_state then ret (accept pdb pdbid st)
  else
    let* signalling :=
      and_then (ret (Json.is_dict rj))
        (lift (Json.has_key "signalling_protein" rj)) in
    if signalling then
      let* sp := lift (Json.getitem rj "signalling_protein") in
      let* ty := lift (Json.getitem sp "type") in
      if Json.eq_str ty activation_state then ret (accept pdb pdbid st)
      else ret st
    else ret st.

(** Lines 291-306: the three criteria fields, checked in this order. *)
Definition check_criteria (t0 : pyval) : M (string * string * string) :=
  let* x0 := lift (pyval_item t0 0) in
  let* dfg :=
    (if bool_decide (x0 ∈ ["in"; "out"; "out-like"]) then ret x0
     else if String.eqb x0 "all" then ret "all"
     else raise (RuntimeError "DFG value invalid")) in
  let* x1 := lift (pyval_item t0 1) in
  let* ac_helix :=
    (if bool_decide (x1 ∈ ["in"; "out"]) then ret x1
     else if String.eqb x1 "all" then ret "all"
     else raise (RuntimeError "ac_helix value invalid")) in
  let* x2 := lift (pyval_item t0 2) in
  let* salt_bridge :=
    (if bool_decide (x2 ∈ ["yes"; "no"; "all"]) then ret x2
     else raise (RuntimeError "salt_bridge value invalid")) in
  ret (dfg, ac_helix, salt_bridge).

(** [rj[0][key] == v] *)
Definition observed (rj0 : json) (key v : string) : M bool :=
  let* x := lift (Json.getitem rj0 key) in
  ret (Json.eq_str x v).

(** Lines 318-321: the salt bridge is formed when the distance is in
    (0, 4.5]. *)
Definition salt_bridge_class (rj0 : json) : M string :=
  let* d := lift (Json.getitem rj0 "salt_bridge_17_24") in
  let* f := lift (py_float d) in
  let* close :=
    and_then (ret (PrimFloat.ltb 0%float f))
      (let* d := lift (Json.getitem rj0 "salt_bridge_17_24") in
       let* f := lift (py_float d) in
       ret (PrimFloat.leb f 4.5%float)) in
  ret (if close then "yes" else "no").

(** Lines 322-352: the eight cases on which fields are ["all"]. *)
Definition conformation_match (dfg ac_helix salt_bridge ref_sb : string)
    (rj0 : json) : M bool :=
  let d := negb (String.eqb dfg "all") in
  let h := negb (String.eqb ac_helix "all") in
  let s := negb (String.eqb salt_bridge "all") in
  let sb := ret (String.eqb salt_bridge ref_sb) in
  if d && h && s then
    and_then (observed rj0 "DFG" dfg)
      (and_then (observed rj0 "ac_helix" ac_helix) sb)
  else if d && h && negb s then
    and_then (observed rj0 "DFG" dfg) (observed rj0 "ac_helix" ac_helix)
  else if d && negb h && s then
    and_then (observed rj0 "DFG" dfg) sb
  else if d && negb h && negb s then
    observed rj0 "DFG" dfg
  else if negb d && h && s then
    and_then (observed rj0 "ac_helix" ac_helix) sb
  else if negb d && h && negb s then
    observed rj0 "ac_helix" ac_helix
  else if negb d && negb h && s then
    sb
  else if negb d && negb h && negb s then
    ret true
  else ret false.

(** Lines 291-352: the conformation of [pdbid] asked from KLIFS. *)
Definition conformation_branch (t0 : pyval) (pdb pdbid : string)
    (st : selection) : M selection :=
  let* (dfg, ac_helix, salt_bridge) := check_criteria t0 in
  let url :=
    "https://klifs.net/api_v2/structures_pdb_list?pdb-codes=" ++ pdbid in
  let* r := requests (GET url) in
  let* rj := res_json r in
  let* rj0 := lift (Json.first rj) in
  if Json.ne_400 rj0 then
    let* structure_ID := lift (Json.getitem rj0 "structure_ID") in
    let url :=
      "https://klifs.net/api_v2/structure_conformation?structure_ID="
      ++ py_str structure_ID in
    let* r := requests (GET url) in
    let* rj := res_json r in
    let* rj0 := lift (Json.first rj) in
    let* ref_sb := salt_bridge_class rj0 in
    let* ok := conformation_match dfg ac_helix salt_bridge ref_sb rj0 in
    if ok then ret (accept pdb pdbid st) else ret st
  else ret st.

(** Lines 354-356: a row whose target is listed verbatim. *)
Definition literal_branch (sl : list string) (st : selection) : M selection :=
  let* x := lift (list_item sl 1) in
  let st' := ((st.1 ++ [x])%list, st.2) in
  let* c0 := lift (list_item sl 0) in
  let* c1 := lift (list_item sl 1) in
  let* c2 := lift (list_item sl 2) in
  let* c10 := lift (list_item sl 10) in
  let* _ := logging INFO (c0 ++ PyStr.tab ++ c1 ++ PyStr.tab ++ c2
                          ++ PyStr.tab ++ c10) in
  ret st'.

(** Lines 271-356: the body of the loop over the result table. *)
Definition process_line (templates : list pyval) (templates_upper : list string)
    (line : string) (st : selection) : M selection :=
  let sl := PyStr.split_ws (PyStr.rstrip line) in
  let* pdb := lift (list_item sl 1) in
  let pdbid := pdb_id pdb in
  match templates with
  | [] => ret st
  | t0 :: _ =>
      let* st :=
        (if pyval_in_strs t0 activation_states
            && negb (bool_decide (pdbid ∈ st.2))
            && negb (bool_decide (pdbid ∈ templates_upper))
         then activation_branch (pyval_str t0) pdb pdbid st
         else ret st) in
      if (pyval_len t0 =? 3)%nat
         && negb (bool_decide (pdbid ∈ st.2))
         && negb (bool_decide (PStr pdbid ∈ templates))
      then conformation_branch t0 pdb pdbid st
      else if bool_decide (PStr pdb ∈ templates) then literal_branch sl st
      else ret st
  end.

(** Lines 269-356: the loop. *)
Fixpoint process_lines (templates : list pyval) (templates_upper : list string)
    (lines : list string) (st : selection) : M selection :=
  match lines with
  | [] => ret st
  | line :: rest =>
      let* st' := process_line templates templates_upper line st in
      process_lines templates templates_upper rest st'
  end.

(** Lines 359-361: every code followed by a comma. *)
Fixpoint sidecar_text (pdbs : list string) : string :=
  match pdbs with
  | [] => EmptyString
  | pdb :: rest => (pdb ++ ",") ++ sidecar_text rest
  end.

Definition write_sidecar (self : runner) (pdbs : list string) : M unit :=
  write_file (path self ++ "/template_pdbs.txt") (sidecar_text pdbs).

(** Lines 462-467: split on commas, drop a trailing empty piece. *)
Definition read_sidecar (self : runner) : M (list string) :=
  let* text := read_file (path self ++ "/template_pdbs.txt") in
  let pdbs := PyStr.split "," text in
  ret (match last pdbs with
       | Some EmptyString => removelast pdbs
       | _ => pdbs
       end).

(** *** Fetching *)

Definition templates_path (self : runner) : string :=
  job self ++ "_env/templates_101".

Definition wget_command (self : runner) (pdbs path : string) : string :=
  "wget -q -O - " ++ t_url self ++ "/" ++ pdbs
  ++ " |tar xzf - -C " ++ path ++ "/".

(** [pdbs] is the caller's list object. *)
Definition download_templates (self : runner) (pdbs : loc) : M string :=
  let path := templates_path self in
  let* d := os_path_isdir path in
  let* _ := (if d then os_system_rm_r path else ret tt) in
  let* xs := deref pdbs in
  if (length xs =? 0)%nat then
    let* _ := logging WARNING "No templates found." in
    ret EmptyString
  else
    let* d := os_path_isdir path in
    let* _ := (if negb d then os_mkdir path else ret tt) in
    let* _ := (if (1 <? length xs)%nat && shuffling_templates self
               then random_shuffle pdbs else ret tt) in
    let* xs := deref pdbs in
    let pdbs := PyStr.join "," (slice_to xs (n_templates self)) in
    let* _ := logging INFO ("TEMPLATE PDBS USED: " ++ pdbs) in
    let* _ := os_system (wget_command self pdbs path) in
    let* _ := os_system ("cp " ++ path ++ "/pdb70_a3m.ffindex "
                         ++ path ++ "/pdb70_cs219.ffindex") in
    let* _ := os_system ("touch " ++ path ++ "/pdb70_cs219.ffdata") in
    ret path.

Definition process_templates (self : runner) (templates : list pyval)
    : M string :=
  let dir := templates_path self in
  let* d := os_path_isdir dir in
  let* _ := (if d then os_system_rm_r dir else ret tt) in
  let* _ := logging INFO (PyStr.join PyStr.tab ["seq"; "pdb"; "cid"; "evalue"]) in
  let templates_upper := upper_strs templates in
  let* table := read_file (path self ++ "/pdb70.m8") in
  let* st := process_lines templates templates_upper (file_lines table)
               ([], []) in
  let* _ := write_sidecar self st.1 in
  let* pdbs := alloc st.1 in
  download_templates self pdbs.

(** The runner is mutable: the result carries it as the call leaves it. *)
Definition shuffle_templates (self : runner) : M (runner * string) :=
  let* pdbs := read_sidecar self in
  let* _ := emit (EvPrint "READ_LIST: " pdbs) in
  let* self :=
    (if (1 <? length pdbs)%nat then ret (set_shuffling_templates true self)
     else
       let* _ := logging WARNING
                   "Impossible to shuffle with 1 template only." in
       ret self) in
  let* l := alloc pdbs in
  let* p := download_templates self l in
  ret (self, p).

End Runner.

(** ** The alignments *)

Fixpoint ends_with (c : ascii) (s : string) : bool :=
  match s with
  | EmptyString => false
  | String d EmptyString => Ascii.eqb d c
  | String _ s' => ends_with c s'
  end.

(** [os.path.join(a, b)] of [posixpath] *)
Definition os_path_join (a b : string) : string :=
  if String.prefix "/" b then b
  else if String.eqb a EmptyString || ends_with "/" a then a ++ b
  else a ++ "/" ++ b.

(** The lines a text file yields when iterated, each with its newline (the
    last one may lack it).  [cur] is the line being read, in reverse. *)
Fixpoint readlines_aux (cur : list ascii) (s : string) : list string :=
  match s with
  | EmptyString =>
      match cur with
      | [] => []
      | _ => [string_of_list_ascii (rev cur)]
      end
  | String c s' =>
      if Ascii.eqb c (ascii_of_nat 10)
      then string_of_list_ascii (rev (c :: cur)) :: readlines_aux [] s'
      else readlines_aux (c :: cur) s'
  end.

(** What reading in text mode makes of the line ends: a carriage return,
    with the line feed after it if there is one, becomes a line feed. *)
Fixpoint universal_newlines (s : string) : string :=
  match s with
  | EmptyString => EmptyString
  | String c s' =>
      if Ascii.eqb c (ascii_of_nat 13) then
        match s' with
        | String d s'' =>
            if Ascii.eqb d (ascii_of_nat 10)
            then String (ascii_of_nat 10) (universal_newlines s'')
            else String (ascii_of_nat 10) (universal_newlines s')
        | EmptyString => String (ascii_of_nat 10) EmptyString
        end
      else String c (universal_newlines s')
  end.

(** [for line in open(p, "r")] on a file of content [s] *)
Definition readlines (s : string) : list string :=
  readlines_aux [] (universal_newlines s).

(** [line.replace("\x00", "")] *)
Definition remove_nul (line : string) : string :=
  PyStr.re_sub_class (fun c => Ascii.eqb c Ascii.zero) line.

(** Lines 415-417: the lines of one file appended to [a3m_lines]. *)
Definition append_lines (a3m_lines : string) (lines : list string) : string :=
  fold_left (fun acc line =>
               if (0 <? String.length line)%nat then acc ++ remove_nul line
               else acc)
    lines a3m_lines.

(** [tar_gz.extractall(dest)]: the regular files of the archive, given by
    their path below the destination, are written there. *)
Definition extractall (dest : string) (members : list (string * string))
    : M unit :=
  fun w =>
    (Ok tt,
     set_files (fold_left (fun fs m => <[ os_path_join dest m.1 := m.2 ]> fs)
                  members (files w)) w).

Definition a3m_files : list string :=
  ["uniref.a3m"; "bfd.mgnify30.metaeuk30.smag30.a3m"].

Section Alignment.

Variable server : nat -> request -> response.
Variable float_of_str : string -> option float.
Variable repr : json -> string.
(** What [tarfile] finds in the bytes of an archive: its regular files, or
    the exception it raises on bytes that are no archive. *)
Variable tarfile_members : string -> res (list (string * string)).

(** Lines 414-417: the loop over the files. *)
Fixpoint read_a3m_files (self : runner) (files : list string)
    (a3m_lines : string) : M string :=
  match files with
  | [] => ret a3m_lines
  | a3m_file :: rest =>
      let* text := read_file (os_path_join (path self) a3m_file) in
      read_a3m_files self rest (append_lines a3m_lines (readlines text))
  end.

Definition _process_alignment (self : runner) (files : list string)
    (templates : list pyval) : M (string * string) :=
  let* a3m_lines := read_a3m_files self files EmptyString in
  let* dir := process_templates server float_of_str repr self templates in
  ret (a3m_lines, dir).

Definition run_job (fuel : nat) (self : runner) (templates : list pyval)
    : P (string * string) :=
  let+ _ := _search_mmseqs2 server repr fuel self in
  total
    (let* first := lift (list_item a3m_files 0) in
     let* extracted := os_path_isfile (os_path_join (path self) first) in
     let* _ :=
       (if negb extracted then
          let* archive := read_file (tarfile self) in
          let* members := lift (tarfile_members archive) in
          extractall (path self) members
        else ret tt) in
     _process_alignment self a3m_files templates).

End Alignment.

(** * The vocabulary of the properties *)

(** ** The sanitizer and the bundle directory *)

(** The letters A to Z without B, J, O, U, X and Z. *)
Definition canonical (c : ascii) : Prop :=
  PyStr.is_upper c = true /\ PyStr.contains c "BJOUXZ" = false.

(** What lines 368-370 leave of the world: the bundle directory, when there
    is one, is removed with everything below it. *)
Definition cleanup (p : string) (w : world) : world :=
  if bool_decide (p ∈ dirs w)
  then remove_tree p (set_trace (trace w ++ [EvShell ("rm -r " ++ p)]) w)
  else w.

(** The events of lines 384-390 once the list object holds [ys]. *)
Definition fetch_events (self : runner) (ys : list string) : list event :=
  let p := templates_path self in
  let pdbs := PyStr.join "," (slice_to ys (n_templates self)) in
  [ EvLog INFO ("TEMPLATE PDBS USED: " ++ pdbs);
    EvShell (wget_command self pdbs p);
    EvShell ("cp " ++ p ++ "/pdb70_a3m.ffindex " ++ p ++ "/pdb70_cs219.ffindex");
    EvShell ("touch " ++ p ++ "/pdb70_cs219.ffdata") ].

(** The world in which the loop of [process_templates] starts: the bundle
    directory removed and the header logged (lines 256-261). *)
Definition selection_start (self : runner) (w : world) : world :=
  let w1 := cleanup (templates_path self) w in
  set_trace (trace w1
             ++ [EvLog INFO (PyStr.join PyStr.tab ["seq"; "pdb"; "cid"; "evalue"])])
    w1.

(** ** Rows of the result table *)

(** The second column of a row of the table, [sl[1]]. *)
Definition target (line : string) : res string :=
  list_item (PyStr.split_ws (PyStr.rstrip line)) 1.

(** A row with the columns of the table. *)
Definition full_row (line : string) : Prop :=
  11 <= length (PyStr.split_ws (PyStr.rstrip line)).

#[export] Instance full_row_dec (line : string) : Decision (full_row line).
Proof. unfold full_row. apply _. Defined.

(** The rows of the table whose target is not, verbatim, an entry of the
    caller's list. *)
Definition unlisted (templates : list pyval) (line : string) : Prop :=
  forall pdb, target line = Ok pdb -> PStr pdb ∉ templates.


(** The invariant of the loop as long as no row is taken by the literal
    branch: [check_duplicates] lists the PDB ids of [pdbs], none twice. *)
Definition dedup_inv (st : selection) : Prop :=
  st.2 = map pdb_id st.1 /\ NoDup st.2.

(** ** Conformation criteria *)

(** The observed salt bridge: formed when the distance is in (0, 4.5]. *)
Definition salt_bridge_observed (dist : float) : string :=
  if PrimFloat.ltb 0%float dist && PrimFloat.leb dist 4.5%float
  then "yes" else "no".

(** A criteria field matches when it is ["all"] or equals what was
    observed. *)
Definition field_matches (criterion : string) (same : bool) : bool :=
  String.eqb criterion "all" || same.

(** The conjunction over the three fields, as the specification words it. *)
Definition criteria_match (dfg ac_helix salt_bridge : string)
    (oD oH : json) (dist : float) : bool :=
  field_matches dfg (Json.eq_str oD dfg)
  && field_matches ac_helix (Json.eq_str oH ac_helix)
  && field_matches salt_bridge
       (String.eqb salt_bridge (salt_bridge_observed dist)).

(** The structure record [obs] carries the three observed values. *)
Definition observes (float_of_str : string -> option float)
    (obs oD oH : json) (dist : float) : Prop :=
  Json.getitem obs "DFG" = Ok oD
  /\ Json.getitem obs "ac_helix" = Ok oH
  /\ exists d, Json.getitem obs "salt_bridge_17_24" = Ok d
               /\ py_float float_of_str d = Ok dist.

(** The PDB id resolves: the list request, issued in world [w], returns a
    record with a structure id, and the conformation request that follows
    returns the record [obs]. *)
Definition resolves (server : nat -> request -> response)
    (repr : json -> string) (w : world) (pdbid : string) (obs : json) : Prop :=
  exists rj rj0 sid rj',
    json_body (server (http_count (trace w))
                 (GET ("https://klifs.net/api_v2/structures_pdb_list?pdb-codes="
                       ++ pdbid))) = Some rj
    /\ Json.first rj = Ok rj0
    /\ Json.ne_400 rj0 = true
    /\ Json.getitem rj0 "structure_ID" = Ok sid
    /\ json_body (server (S (http_count (trace w)))
                    (GET ("https://klifs.net/api_v2/structure_conformation?structure_ID="
                          ++ py_str repr sid))) = Some rj'
    /\ Json.first rj' = Ok obs.

(** The allowed values of the three fields. *)
Definition valid_dfg (x : string) : bool :=
  bool_decide (x ∈ ["in"; "out"; "out-like"; "all"]).

Definition valid_ac_helix (x : string) : bool :=
  bool_decide (x ∈ ["in"; "out"; "all"]).

Definition valid_salt_bridge (x : string) : bool :=
  bool_decide (x ∈ ["yes"; "no"; "all"]).

(** The message of the first field that is not valid, if any. *)
Definition criteria_error (dfg ac_helix salt_bridge : string) : option string :=
  if negb (valid_dfg dfg) then Some "DFG value invalid"
  else if negb (valid_ac_helix ac_helix) then Some "ac_helix value invalid"
  else if negb (valid_salt_bridge salt_bridge)
       then Some "salt_bridge value invalid"
  else None.

(** ** What the loop selects *)

(** The targets of the rows of a table. *)
Definition targets (lines : list string) : list string :=
  omap (fun line => match target line with
                    | Ok pdb => Some pdb
                    | Raise _ => None
                    end) lines.

(** [w'] is [w] with records of level INFO added to the log. *)
Definition logged (w w' : world) : Prop :=
  exists msgs, w' = set_trace (trace w ++ map (EvLog INFO) msgs) w.

(** The type of the signalling protein that a GPCRdb record names, if it
    names one. *)
Definition signalling (rj : json) (ty : option json) : Prop :=
  match ty with
  | Some t => exists sp, Json.getitem rj "signalling_protein" = Ok sp
                         /\ Json.getitem sp "type" = Ok t
  | None => Json.has_key "signalling_protein" rj = Ok false
  end.

(** The GPCRdb record of a structure matches an activation state by its
    state or by the type of its signalling protein. *)
Definition state_match (state : string) (s : json) (ty : option json) : bool :=
  Json.eq_str s state
  || match ty with
     | Some t => Json.eq_str t state
     | None => false
     end.

(** The events of the loop: questions to the two services and records of
    level INFO. *)
Definition selection_event (e : event) : Prop :=
  match e with
  | EvHttp (GET url) =>
      String.prefix "http://gpcrdb.org/services/structure/" url = true
      \/ String.prefix "https://klifs.net/api_v2/" url = true
  | EvLog INFO _ => True
  | _ => False
  end.

(** [w'] is [w] with events of the loop added to the trace. *)
Definition asks (w w' : world) : Prop :=
  exists t, w' = set_trace (trace w ++ t) w /\ Forall selection_event t.

(** A command that, however it ends, only adds such events. *)
Definition asking {A} (m : M A) : Prop :=
  forall w r w', m w = (r, w') -> asks w w'.

(** ** The bundle and the stored selection *)

(** The file in which [process_templates] stores its selection. *)
Definition sidecar (self : runner) : string :=
  path self ++ "/template_pdbs.txt".

(** The command that removes the bundle directory, when there is one. *)
Definition cleanup_events (self : runner) (w : world) : list event :=
  if bool_decide (templates_path self ∈ dirs w)
  then [EvShell ("rm -r " ++ templates_path self)] else [].

(** The runner as [shuffle_templates] leaves it, and the events of the
    call once the list object holds [ys]. *)
Definition reshuffling (self : runner) (pdbs : list string) : runner :=
  if (1 <? length pdbs)%nat then set_shuffling_templates true self else self.

Definition shuffle_events (self : runner) (w : world)
    (pdbs ys : list string) : list event :=
  ([EvPrint "READ_LIST: " pdbs]
   ++ (if (1 <? length pdbs)%nat then []
       else [EvLog WARNING "Impossible to shuffle with 1 template only."])
   ++ cleanup_events self w
   ++ (if (length pdbs =? 0)%nat
       then [EvLog WARNING "No templates found."]
       else fetch_events (reshuffling self pdbs) ys))%list.

(** A code that can be stored: it holds no comma. *)
Definition storable (pdb : string) : Prop := ","%char ∉ PyStr.chars pdb.

#[export] Instance storable_dec (pdb : string) : Decision (storable pdb).
Proof. unfold storable. apply _. Defined.

(** ** The alignment *)

(** The text of files of contents [cs] read one after the other. *)
Definition text_of (cs : list string) : string :=
  foldr String.append EmptyString (map universal_newlines cs).

(** ** The search job *)

#[export] Instance canonical_dec (c : ascii) : Decision (canonical c).
Proof. unfold canonical. apply _. Defined.

(** The three requests of the job. *)
Definition submit_request (self : runner) : request :=
  POST (host_url self ++ "/ticket/msa")
    [("q", ">101" ++ PyStr.newline ++ seq self); ("mode", "env")].

Definition status_request (repr : json -> string) (self : runner)
    (idx : json) : request :=
  GET (host_url self ++ "/ticket/" ++ py_str repr idx).

Definition download_request (repr : json -> string) (self : runner)
    (idx : json) : request :=
  GET (host_url self ++ "/result/download/" ++ py_str repr idx).

(** The ticket [_submit] and [_status] make of a response. *)
Definition ticket (r : response) : json :=
  default status_unknown (json_body r).

Definition is_shell (e : event) : bool :=
  match e with EvShell _ => true | _ => false end.

(** The states in which the job is submitted again, and those in which it
    is polled again. *)
Definition retry_states : list string := ["UNKNOWN"; "RATELIMIT"].
Definition poll_states : list string := ["UNKNOWN"; "RUNNING"; "PENDING"].

(** [out["status"] in l] evaluates to [b]. *)
Definition has_status (out : json) (l : list string) (b : bool) : Prop :=
  exists s, Json.getitem out "status" = Ok s /\ Json.in_strs s l = b.

(** The server answers the requests of [l], in this order, from its
    [n]-th request on. *)
Fixpoint served (server : nat -> request -> response) (n : nat)
    (l : list (request * response)) : Prop :=
  match l with
  | [] => True
  | (req, resp) :: l' => server n req = resp /\ served server (S n) l'
  end.

(** The submissions of a job: all but the last answered by a ticket to be
    retried, the last one accepted. *)
Definition submit_script (server : nat -> request -> response)
    (self : runner) (n : nat) (rs : list response) (acc : response) : Prop :=
  Forall (fun r => has_status (ticket r) retry_states true) rs
  /\ has_status (ticket acc) retry_states false
  /\ served server n (map (pair (submit_request self)) (rs ++ [acc])).

(** A run of the job up to its last ticket [fin]: the POSTs are answered
    by [posts], all but the last to be retried, the last one accepted with
    the id [idx]; the polls are answered by [polls], the tickets before the
    last still pending under that id, the last ticket [fin] not. *)
Definition job_script (server : nat -> request -> response)
    (repr : json -> string) (self : runner) (n : nat)
    (posts polls : list response) (idx fin : json) : Prop :=
  exists rs acc,
    posts = (rs ++ [acc])%list
    /\ Forall (fun r => has_status (ticket r) retry_states true) rs
    /\ has_status (ticket acc) retry_states false
    /\ Json.getitem (ticket acc) "id" = Ok idx
    /\ Forall (fun t => has_status t poll_states true
                        /\ Json.getitem t "id" = Ok idx)
         (removelast (ticket acc :: map ticket polls))
    /\ fin = List.last (map ticket polls) (ticket acc)
    /\ has_status fin poll_states false
    /\ served server n
         (map (pair (submit_request self)) posts
          ++ map (pair (status_request repr self idx)) polls).

(** The requests of such a run. *)
Definition job_requests (repr : json -> string) (self : runner)
    (posts polls : list response) (idx : json) : list event :=
  (repeat (EvHttp (submit_request self)) (length posts)
   ++ repeat (EvHttp (status_request repr self idx)) (length polls))%list.

(** Lines 227-239: what is done with the last ticket. *)
Definition finish (server : nat -> request -> response)
    (repr : json -> string) (self : runner) (out : json) : M unit :=
  let* s := lift (Json.getitem out "status") in
  if Json.eq_str s "COMPLETE" then
    let* idx := lift (Json.getitem out "id") in
    _download server repr self idx (tarfile self)
  else
    let* s := lift (Json.getitem out "status") in
    if Json.eq_str s "ERROR" then raise (RuntimeError api_error)
    else ret tt.

(** The events of the search job: requests, sleeps of five to nine
    seconds, and the debug record of the ticket. *)
Definition search_event (e : event) : Prop :=
  match e with
  | EvHttp _ => True
  | EvSleep n => 5 <= n < 10
  | EvLog DEBUG _ => True
  | _ => False
  end.

(** [w'] comes after [w] by events of the search job only. *)
Definition between (w w' : world) : Prop :=
  dirs w' = dirs w /\ files w' = files w /\ heap w' = heap w
  /\ py_random w' = py_random w
  /\ exists t, trace w' = (trace w ++ t)%list /\ Forall search_event t.

(** The same, except for the archive file. *)
Definition search_frame (self : runner) (w w' : world) : Prop :=
  dirs w' = dirs w /\ heap w' = heap w /\ py_random w' = py_random w
  /\ (forall p, p <> tarfile self -> files w' !! p = files w !! p)
  /\ exists t, trace w' = (trace w ++ t)%list /\ Forall search_event t.

(** The world after a sleep and a request. *)
Definition after (req : request) (w : world) : world :=
  set_trace (trace w
             ++ [EvSleep (5 + (draw (np_random w)).1 mod 5); EvHttp req])
    (set_np_random (draw (np_random w)).2 w).

(** * Inputs to evaluate the code on *)

(** A runner and a world to evaluate the code on: a job directory, no
    archive yet, and one list object at address 0. *)
Definition demo_runner (limit : Z) (shuffle : bool) : runner :=
  Runner "job_1a2b3" "MKV" "https://a3m.mmseqs.com"
    "https://a3m-templates.mmseqs.com/template" limit shuffle
    "job_1a2b3_env" "job_1a2b3_env/out.tar.gz".

Definition demo_world (pdbs : list string) (entropy : list nat) : world :=
  World {[ "job_1a2b3_env"; "job_1a2b3_env/templates_101" ]}
    {[ "job_1a2b3_env/templates_101/pdb70_a3m.ffindex" := "old" ]}
    {[ 0 := pdbs ]} entropy [] [].

(** A row of [pdb70.m8]: query, target, identity, length, mismatches, gaps,
    the four alignment bounds, e-value, bit score. *)
Definition m8_row (pdb : string) : string :=
  "101 " ++ pdb ++ " 0.512 153 70 2 5 155 11 162 3.1e-42 171".

Fixpoint m8_table (pdbs : list string) : string :=
  match pdbs with
  | [] => EmptyString
  | pdb :: rest => m8_row pdb ++ PyStr.newline ++ m8_table rest
  end.

Definition table_world (table : string) : world :=
  World {[ "job_1a2b3_env" ]} {[ "job_1a2b3_env/pdb70.m8" := table ]}
    ∅ [] [] [].

Definition silent_server (n : nat) (req : request) : response :=
  Response None EmptyString.

Definition no_float (s : string) : option float := None.

Definition no_repr (j : json) : string := "?".

(** A server that accepts the job and then answers the first poll with a
    page that is not JSON. *)
Definition bad_gateway_server (n : nat) (req : request) : response :=
  match n with
  | 0 => Response (Some (JDict [("id", JStr "T1"); ("status", JStr "PENDING")]))
           EmptyString
  | _ => Response None "<html>502 Bad Gateway</html>"
  end.

(** A server that answers its [n]-th request with the [n]-th response of a
    list, and with an empty body after that. *)
Definition scripted_server (l : list response) (n : nat) (req : request)
    : response :=
  nth n l (Response None EmptyString).

Definition ticket_response (status : string) : response :=
  Response (Some (JDict [("id", JStr "T1"); ("status", JStr status)]))
    EmptyString.

(** A job that is rate limited, accepted, seen running and then complete;
    the fifth answer is the archive. *)
Definition complete_job : list response :=
  [ ticket_response "RATELIMIT"; ticket_response "PENDING";
    ticket_response "RUNNING"; ticket_response "COMPLETE";
    Response None "archive" ].

(** A job that is accepted and fails; a server under maintenance; and a
    server whose ticket has no id. *)
Definition failed_job : list response :=
  [ ticket_response "PENDING"; ticket_response "ERROR" ].

Definition maintenance : list response := [ ticket_response "MAINTENANCE" ].

Definition anonymous_ticket : response :=
  Response (Some (JDict [("status", JStr "PENDING")])) EmptyString.

(** The world a run ends in. *)
Definition run_world {A} (m : P A) (w : world) : world :=
  match m w with
  | Some (_, w') => w'
  | None => w
  end.

(** Two alignment files, the first with a NUL and a line ending in
    carriage return and line feed. *)
Definition uniref_text : string :=
  ">101" ++ PyStr.newline ++ "MK" ++ String Ascii.zero "V"
  ++ String (ascii_of_nat 13) PyStr.newline.

Definition bfd_text : string :=
  ">hit" ++ PyStr.newline ++ "MRV" ++ PyStr.newline.

(** What the archive of a job holds. *)
Definition demo_tar (archive : string) : res (list (string * string)) :=
  Ok [ ("uniref.a3m", uniref_text);
       ("bfd.mgnify30.metaeuk30.smag30.a3m", bfd_text);
       ("pdb70.m8", m8_table ["1abc_A"]) ].

(** A job directory after a run. *)
Definition a3m_world : world :=
  World {[ "job_1a2b3_env" ]}
    {[ "job_1a2b3_env/out.tar.gz" := "archive";
       "job_1a2b3_env/uniref.a3m" := uniref_text;
       "job_1a2b3_env/bfd.mgnify30.metaeuk30.smag30.a3m" := bfd_text;
       "job_1a2b3_env/pdb70.m8" := m8_table ["1abc_A"] ]}
    ∅ [] [] [].


(** A server on which every job is running. *)
Definition busy_server (n : nat) (req : request) : response :=
  ticket_response "RUNNING".

(** GPCRdb knowing three structures. *)
Definition gpcrdb_demo_server (n : nat) (req : request) : response :=
  let coupled :=
    JDict [("state", JStr "Active");
           ("signalling_protein", JDict [("type", JStr "G protein")])] in
  match req with
  | GET url =>
      if String.eqb url "http://gpcrdb.org/services/structure/1ABC"
      then Response (Some coupled) EmptyString
      else if String.eqb url "http://gpcrdb.org/services/structure/2XYZ"
      then Response (Some (JDict [("state", JStr "Inactive")])) EmptyString
      else if String.eqb url "http://gpcrdb.org/services/structure/3DEF"
      then Response (Some coupled) EmptyString
      else Response (Some (JList [])) EmptyString
  | POST _ _ => Response None EmptyString
  end.

(** KLIFS knowing one structure, with DFG in, helix out and a salt bridge
    of 3.5. *)
Definition klifs_demo_server (n : nat) (req : request) : response :=
  match req with
  | GET url =>
      if String.eqb url
           "https://klifs.net/api_v2/structures_pdb_list?pdb-codes=1ABC"
      then Response (Some (JList [JDict [("structure_ID", JNum 7)]]))
             EmptyString
      else if String.eqb url
           "https://klifs.net/api_v2/structure_conformation?structure_ID=7"
      then Response
             (Some (JList [JDict [("DFG", JStr "in");
                                  ("ac_helix", JStr "out");
                                  ("salt_bridge_17_24", JStr "3.5")]]))
             EmptyString
      else Response (Some (JList [JNum 400])) EmptyString
  | POST _ _ => Response None EmptyString
  end.

Definition demo_float (s : string) : option float :=
  if String.eqb s "3.5" then Some 3.5%float else None.

Definition demo_repr (j : json) : string :=
  match j with
  | JNum _ => "7"
  | _ => "?"
  end.

(** * Properties *)

(** ** Strings *)

Module PyStrFacts.
Import PyStr.

Lemma append_cons (c : ascii) (a b : string) :
  String c a ++ b = String c (a ++ b).
Proof. reflexivity. Qed.

Lemma append_nil (b : string) : EmptyString ++ b = b.
Proof. reflexivity. Qed.

Lemma append_assoc (a b c : string) : (a ++ b) ++ c = a ++ (b ++ c).
Proof.
  induction a as [|x a IH]; [done |].
  rewrite !append_cons. by f_equal.
Qed.

Lemma chars_app (a b : string) : chars (a ++ b) = (chars a ++ chars b)%list.
Proof. induction a as [|c a IH]; simpl; [done | by rewrite <- IH]. Qed.

Lemma chars_of_list (l : list ascii) : chars (string_of_list_ascii l) = l.
Proof. apply list_ascii_of_string_of_list_ascii. Qed.

Lemma contains_elem (c : ascii) (s : string) :
  contains c s = true <-> c ∈ chars s.
Proof.
  induction s as [|d s IH]; simpl.
  - split; [done | by intros ?%elem_of_nil].
  - rewrite orb_true_iff, IH, elem_of_cons, Ascii.eqb_eq. done.
Qed.

Lemma chars_re_sub_class (cls : ascii -> bool) (s : string) :
  chars (re_sub_class cls s) = filter (fun c => cls c = false) (chars s).
Proof.
  induction s as [|c s IH]; simpl; [done |].
  destruct (cls c) eqn:E.
  - rewrite filter_cons_False; [done | by rewrite E].
  - rewrite filter_cons_True by done. simpl. by rewrite IH.
Qed.

Lemma join_empty_cons (x : string) (l : list string) :
  join EmptyString (x :: l) = x ++ join EmptyString l.
Proof.
  destruct l as [|y l]; [| done].
  cbn [join]. induction x as [|c x IH]; [done |].
  rewrite append_cons. f_equal. exact IH.
Qed.

(** Joining the pieces of [split()] gives back the text without its
    whitespace. *)
Lemma chars_join_split_ws_aux (cur : list ascii) (s : string) :
  chars (join EmptyString (split_ws_aux cur s))
  = (rev cur ++ filter (fun c => isspace c = false) (chars s))%list.
Proof.
  assert (Hflush : forall cur,
    chars (join EmptyString
      match cur with [] => [] | _ :: _ => [string_of_list_ascii (rev cur)] end)
    = rev cur).
  { intros [|c l]; [done |]. cbn [join]. by rewrite chars_of_list. }
  revert cur. induction s as [|c s IH]; intros cur.
  - cbn [split_ws_aux chars list_ascii_of_string].
    rewrite filter_nil, app_nil_r. apply Hflush.
  - cbn [split_ws_aux]. destruct (isspace c) eqn:E.
    + simpl chars at 2. rewrite filter_cons_False by (simpl; congruence).
      specialize (IH []). simpl in IH. rewrite <- IH.
      destruct cur as [|a cur]; [done |].
      change ([string_of_list_ascii (rev (a :: cur))] ++ split_ws_aux [] s)%list
        with (string_of_list_ascii (rev (a :: cur)) :: split_ws_aux [] s).
      by rewrite join_empty_cons, chars_app, chars_of_list.
    + simpl chars at 2. rewrite filter_cons_True by done.
      rewrite IH. simpl rev. by rewrite <- app_assoc.
Qed.

Lemma chars_join_split_ws (s : string) :
  chars (join EmptyString (split_ws s))
  = filter (fun c => isspace c = false) (chars s).
Proof. apply (chars_join_split_ws_aux []). Qed.

(** A piece with no separator in it is split off whole. *)
Lemma split_piece (sep : ascii) (p rest : string) :
  sep ∉ chars p ->
  split sep (p ++ String sep rest) = p :: split sep rest.
Proof.
  induction p as [|c p IH]; intros Hp.
  - rewrite append_nil. simpl. by rewrite Ascii.eqb_refl.
  - simpl in Hp. apply not_elem_of_cons in Hp as [Hc Hp].
    rewrite append_cons. simpl.
    destruct (Ascii.eqb c sep) eqn:E; [by apply Ascii.eqb_eq in E |].
    by rewrite IH.
Qed.

End PyStrFacts.

(** ** The monad and the world *)

Lemma bind_ok {A B} (m : M A) (k : A -> M B) (w w' : world) (a : A) :
  m w = (Ok a, w') -> bind m k w = k a w'.
Proof. unfold bind. by intros ->. Qed.

Lemma bind_raise {A B} (m : M A) (k : A -> M B) (w w' : world) (e : exn) :
  m w = (Raise e, w') -> bind m k w = (Raise e, w').
Proof. unfold bind. by intros ->. Qed.

Lemma deref_ok (l : loc) (xs : list string) (w : world) :
  heap w !! l = Some xs -> deref l w = (Ok xs, w).
Proof. unfold deref. by intros ->. Qed.

(** Run the first command of a sequence, its outcome being found by [tac]. *)
Ltac step_by tac := erewrite bind_ok by tac.
Ltac step := step_by ltac:(reflexivity).

Lemma world_eta (w : world) :
  World (dirs w) (files w) (heap w) (py_random w) (np_random w) (trace w) = w.
Proof. by destruct w. Qed.

Lemma cleanup_run {A} (p : string) (k : M A) (w : world) :
  (let* d := os_path_isdir p in
   let* _ := (if d then os_system_rm_r p else ret tt) in k) w
  = k (cleanup p w).
Proof.
  unfold cleanup, bind, os_path_isdir. cbn.
  by destruct (bool_decide (p ∈ dirs w)).
Qed.

Lemma under_refl (p : string) : under p p = true.
Proof. unfold under. by rewrite String.eqb_refl. Qed.

Lemma cleanup_removes (p : string) (w : world) : p ∉ dirs (cleanup p w).
Proof.
  unfold cleanup. case_bool_decide as Hp; [| done].
  cbn. rewrite elem_of_filter, under_refl. by intros [? _].
Qed.

Lemma cleanup_dirs (p : string) (w : world) : dirs (cleanup p w) ⊆ dirs w.
Proof.
  unfold cleanup. case_bool_decide; [| done].
  cbn. intros q. rewrite elem_of_filter. by intros [_ ?].
Qed.

Lemma cleanup_heap (p : string) (w : world) : heap (cleanup p w) = heap w.
Proof. unfold cleanup. by case_bool_decide. Qed.

Lemma cleanup_py_random (p : string) (w : world) :
  py_random (cleanup p w) = py_random w.
Proof. unfold cleanup. by case_bool_decide. Qed.

Lemma cleanup_np_random (p : string) (w : world) :
  np_random (cleanup p w) = np_random w.
Proof. unfold cleanup. by case_bool_decide. Qed.

(** ** The sanitizer *)

Lemma has_noncanonical_spec (seq : string) :
  has_noncanonical seq = true
  <-> exists aa, aa ∈ PyStr.chars "BJOUXZ" /\ aa ∈ PyStr.chars seq.
Proof.
  unfold has_noncanonical. rewrite existsb_exists.
  split; intros (aa & H1 & H2); exists aa.
  - split; [by apply list_elem_of_In | by apply PyStrFacts.contains_elem].
  - split; [by apply list_elem_of_In | by apply PyStrFacts.contains_elem].
Qed.

Lemma strip_canonical (seq : string) :
  (forall c, c ∈ PyStr.chars seq -> PyStr.contains c "BJOUXZ" = false) ->
  Forall canonical
    (PyStr.chars (PyStr.re_sub_class (fun c => negb (PyStr.is_upper c))
                    (PyStr.join EmptyString (PyStr.split_ws seq)))).
Proof.
  intros Hseq. apply Forall_forall. intros c.
  rewrite PyStrFacts.chars_re_sub_class, list_elem_of_filter.
  rewrite PyStrFacts.chars_join_split_ws, list_elem_of_filter.
  intros (Hup & _ & Hc). split.
  - by apply negb_false_iff.
  - by apply Hseq.
Qed.

(** What [_cleanseq] returns and what it logs. *)
Lemma cleanseq_run (seq : string) (w : world) :
  exists out,
    _cleanseq seq w
    = (Ok out,
       set_trace (if has_noncanonical seq
                  then trace w ++ [EvLog WARNING warn_noncanonical;
                                   EvLog WARNING warn_removing]
                  else trace w) w)
    /\ Forall canonical (PyStr.chars out).
Proof.
  unfold _cleanseq, bind. destruct (has_noncanonical seq) eqn:E.
  - cbn. eexists. split; [by rewrite <- app_assoc |].
    apply strip_canonical. intros c.
    rewrite PyStrFacts.chars_re_sub_class, list_elem_of_filter.
    by intros [? _].
  - cbn. eexists. split; [by destruct w |].
    apply strip_canonical. intros c Hc.
    destruct (PyStr.contains c "BJOUXZ") eqn:Hb; [| done].
    assert (has_noncanonical seq = true) as Ht; [| congruence].
    apply has_noncanonical_spec. exists c.
    by rewrite <- PyStrFacts.contains_elem.
Qed.

(** C9.  For every input string, [_cleanseq] returns a string made of the
    upper-case letters A-Z only, with none of B, J, O, U, X, Z among them;
    and whenever the input (which the constructor has already upper-cased)
    contains one of B, J, O, U, X, Z, the two warnings are logged, and only
    then. *)
Theorem cleanseq_canonical (seq : string) (w : world) :
  exists out w',
    _cleanseq seq w = (Ok out, w')
    /\ Forall canonical (PyStr.chars out)
    /\ trace w' =
         (if has_noncanonical seq
          then trace w ++ [EvLog WARNING warn_noncanonical;
                           EvLog WARNING warn_removing]
          else trace w)%list.
Proof.
  destruct (cleanseq_run seq w) as (out & Hrun & Hout).
  by eexists _, _.
Qed.

(** The constructor stores the sanitized sequence: the runner's [seq] is
    canonical, and the warnings are logged exactly when the upper-cased
    input has one of the six letters. *)
Lemma init_sequence_canonical (sha1_hexdigest : string -> string)
    (name raw host_url t_url path_suffix : string) (limit : Z)
    (shuffle : bool) (w : world) :
  exists self w',
    __init__ sha1_hexdigest name raw host_url t_url path_suffix limit shuffle w
    = (Ok self, w')
    /\ Forall canonical (PyStr.chars (seq self))
    /\ filter (fun e => e = EvLog WARNING warn_noncanonical) (trace w')
       = (filter (fun e => e = EvLog WARNING warn_noncanonical) (trace w)
          ++ (if has_noncanonical (PyStr.upper raw)
              then [EvLog WARNING warn_noncanonical] else []))%list.
Proof.
  destruct (cleanseq_run (PyStr.upper raw) w) as (out & Hrun & Hout).
  unfold __init__. rewrite (bind_ok _ _ _ _ _ Hrun). step.
  set (w1 := set_trace _ w).
  assert (Hw1 : filter (fun e => e = EvLog WARNING warn_noncanonical) (trace w1)
    = (filter (fun e => e = EvLog WARNING warn_noncanonical) (trace w)
       ++ (if has_noncanonical (PyStr.upper raw)
           then [EvLog WARNING warn_noncanonical] else []))%list).
  { subst w1. cbn [trace set_trace].
    destruct (has_noncanonical (PyStr.upper raw)); [| by rewrite app_nil_r].
    by rewrite filter_app. }
  case_bool_decide; cbn [negb].
  - step. eexists _, _. split; [reflexivity |]. by split.
  - step. eexists _, _. split; [reflexivity |]. split; [done |].
    cbn [trace set_trace set_dirs]. rewrite filter_app, Hw1.
    by rewrite filter_cons_False, filter_nil, app_nil_r.
Qed.

(** ** The sidecar file *)

Lemma split_sidecar_text (pdbs : list string) :
  Forall (fun pdb => ","%char ∉ PyStr.chars pdb) pdbs ->
  PyStr.split "," (sidecar_text pdbs) = (pdbs ++ [EmptyString])%list.
Proof.
  induction 1 as [|pdb rest Hpdb _ IH]; [done |].
  cbn [sidecar_text]. rewrite PyStrFacts.append_assoc.
  change ("," ++ sidecar_text rest) with (String "," (sidecar_text rest)).
  rewrite PyStrFacts.split_piece by done. by rewrite IH.
Qed.

(** C8.  Writing an ordered list of non-empty, comma-free codes to the
    sidecar file as [process_templates] does, and reading the file back as
    [shuffle_templates] does, gives exactly the list that was written, in
    its order. *)
Theorem sidecar_roundtrip (self : runner) (pdbs : list string) (w : world) :
  Forall (fun pdb => pdb <> EmptyString /\ ","%char ∉ PyStr.chars pdb) pdbs ->
  (let* _ := write_sidecar self pdbs in read_sidecar self) w
  = (Ok pdbs,
     set_files (<[ path self ++ "/template_pdbs.txt" := sidecar_text pdbs ]>
                  (files w)) w).
Proof.
  intros Hpdbs.
  unfold write_sidecar, read_sidecar, write_file, read_file, bind, ret. cbn.
  rewrite lookup_insert_eq, split_sidecar_text.
  - by rewrite last_snoc, removelast_last.
  - eapply Forall_impl; [exact Hpdbs | by intros ? [_ ?]].
Qed.

(** ** Shuffling *)

Lemma swap_perm (x : list string) (i j : nat) : swap x i j ≡ₚ x.
Proof.
  unfold swap. destruct (x !! i) as [a|] eqn:Hi; [| done].
  destruct (x !! j) as [b|] eqn:Hj; [| done].
  by apply Permutation_insert_swap.
Qed.

(** The shuffle only rearranges the list object it is given, and draws from
    the generator. *)
Lemma shuffle_from_spec (i : nat) (l : loc) (xs : list string) (w : world) :
  heap w !! l = Some xs ->
  exists ys g,
    shuffle_from i l w
    = (Ok tt, World (dirs w) (files w) (<[ l := ys ]> (heap w)) g
                (np_random w) (trace w))
    /\ ys ≡ₚ xs.
Proof.
  revert xs w. induction i as [|i IH]; intros xs w Hl.
  - exists xs, (py_random w). split; [| done].
    cbn. unfold ret. by rewrite insert_id, world_eta.
  - cbn [shuffle_from]. unfold bind at 1, randbelow.
    destruct (draw (py_random w)) as [x g] eqn:Hd.
    unfold bind at 1, deref. cbn. rewrite Hl. cbn.
    set (xs' := swap xs (S i) _).
    set (w' := set_heap _ _).
    destruct (IH xs' w') as (ys & g' & -> & Hperm).
    { subst w'. cbn. by rewrite lookup_insert_eq. }
    exists ys, g'. split.
    + subst w'. cbn. by rewrite insert_insert_eq.
    + rewrite Hperm. apply swap_perm.
Qed.

(** ** Fetching the templates *)

Lemma download_templates_empty_eq (self : runner) (l : loc) (w : world) :
  heap w !! l = Some [] ->
  download_templates self l w
  = (Ok EmptyString,
     set_trace (trace (cleanup (templates_path self) w)
                ++ [EvLog WARNING "No templates found."])
       (cleanup (templates_path self) w)).
Proof.
  intros Hl. unfold download_templates. rewrite cleanup_run.
  step_by ltac:(apply deref_ok; by rewrite cleanup_heap).
  reflexivity.
Qed.

Lemma fetch_run (self : runner) (l : loc) (ys : list string) (w : world) :
  heap w !! l = Some ys ->
  (let* xs := deref l in
   let pdbs := PyStr.join "," (slice_to xs (n_templates self)) in
   let* _ := logging INFO ("TEMPLATE PDBS USED: " ++ pdbs) in
   let* _ := os_system (wget_command self pdbs (templates_path self)) in
   let* _ := os_system ("cp " ++ templates_path self ++ "/pdb70_a3m.ffindex "
                        ++ templates_path self ++ "/pdb70_cs219.ffindex") in
   let* _ := os_system ("touch " ++ templates_path self
                        ++ "/pdb70_cs219.ffdata") in
   ret (templates_path self)) w
  = (Ok (templates_path self),
     set_trace (trace w ++ fetch_events self ys) w).
Proof.
  intros Hl. step_by ltac:(by apply deref_ok).
  unfold bind, logging, os_system, emit, ret, fetch_events. cbn.
  by rewrite <- !app_assoc.
Qed.

Lemma download_templates_nonempty_eq (self : runner) (l : loc)
    (xs : list string) (w : world) :
  heap w !! l = Some xs ->
  xs <> [] ->
  exists ys g,
    ys ≡ₚ xs
    /\ ((1 <? length xs)%nat && shuffling_templates self = false -> ys = xs)
    /\ download_templates self l w
       = (Ok (templates_path self),
          let w1 := cleanup (templates_path self) w in
          World ({[ templates_path self ]} ∪ dirs w1) (files w1)
            (<[ l := ys ]> (heap w)) g (np_random w)
            (trace w1 ++ fetch_events self ys)).
Proof.
  intros Hl Hne. unfold download_templates. rewrite cleanup_run.
  set (p := templates_path self). set (w1 := cleanup p w).
  assert (Hl1 : heap w1 !! l = Some xs) by (by subst w1; rewrite cleanup_heap).
  step_by ltac:(by apply deref_ok).
  destruct xs as [|x0 xs0]; [done |]. cbn [length Nat.eqb].
  step. rewrite bool_decide_eq_false_2 by apply cleanup_removes. cbn [negb].
  step.
  set (w2 := set_dirs _ w1).
  assert (Hl2 : heap w2 !! l = Some (x0 :: xs0)) by done.
  fold p.
  destruct ((1 <? S (length xs0))%nat && shuffling_templates self) eqn:Hsh.
  - destruct (shuffle_from_spec (length (x0 :: xs0) - 1) l _ w2 Hl2)
      as (ys & g & Hrun & Hperm).
    exists ys, g. split; [done |]. split; [done |].
    step_by ltac:(unfold random_shuffle;
                  step_by ltac:(by apply deref_ok); exact Hrun).
    etrans; [apply (fetch_run self l ys); cbn; apply lookup_insert_eq |].
    cbn. subst w1. by rewrite cleanup_heap, cleanup_np_random.
  - exists (x0 :: xs0), (py_random w). split; [done |]. split; [done |].
    step. etrans; [by apply (fetch_run self l (x0 :: xs0)) |].
    subst w2 w1. unfold set_trace, set_dirs. cbn.
    rewrite cleanup_heap, cleanup_np_random, cleanup_py_random.
    by rewrite insert_id.
Qed.

(** C10.  Called with an empty candidate list, [download_templates] logs the
    warning, returns the empty string and creates no directory; a bundle
    directory that was there before the call is removed first, so it is not
    there afterwards. *)
Theorem download_templates_empty (self : runner) (l : loc) (w : world) :
  heap w !! l = Some [] ->
  exists w',
    download_templates self l w = (Ok EmptyString, w')
    /\ trace w' =
         (trace w
          ++ (if bool_decide (templates_path self ∈ dirs w)
              then [EvShell ("rm -r " ++ templates_path self)] else [])
          ++ [EvLog WARNING "No templates found."])%list
    /\ dirs w' ⊆ dirs w
    /\ bool_decide (templates_path self ∈ dirs w') = false.
Proof.
  intros Hl. eexists. split; [by apply download_templates_empty_eq |].
  split; [| split].
  - unfold cleanup. case_bool_decide; cbn; [| done].
    by rewrite <- app_assoc.
  - apply cleanup_dirs.
  - apply bool_decide_eq_false_2, cleanup_removes.
Qed.

(** The same on a world with an old bundle directory. *)
Lemma download_templates_empty_witness :
  exists w',
    download_templates (demo_runner 20 false) 0 (demo_world [] []) = (Ok EmptyString, w')
    /\ trace w' =
         [EvShell "rm -r job_1a2b3_env/templates_101";
          EvLog WARNING "No templates found."]
    /\ dirs w' ⊆ dirs (demo_world [] [])
    /\ bool_decide ("job_1a2b3_env/templates_101" ∈ dirs w') = false.
Proof.
  exact (download_templates_empty (demo_runner 20 false) 0 (demo_world [] [])
           eq_refl).
Defined.

(** C3, as stated, fails: [random.shuffle] works in place on the list object
    the caller passed.  With shuffling on and a draw of 0, the caller's list
    of two codes comes back in the other order. *)
Lemma download_templates_reorders_caller_list :
  let w := demo_world ["1abc_A"; "2xyz_B"] [0] in
  heap w !! 0 = Some ["1abc_A"; "2xyz_B"]
  /\ heap (download_templates (demo_runner 20 true) 0 w).2 !! 0
     = Some ["2xyz_B"; "1abc_A"].
Proof. split; vm_compute; reflexivity. Qed.

(** C3, amended.  After [download_templates] returns, the caller's list
    object holds the same codes as before, none lost to the truncation
    (which is done on a copy); their order is unchanged unless shuffling is
    on and there are at least two codes, in which case the list is a
    permutation of what it was. *)
Theorem download_templates_caller_list (self : runner) (l : loc)
    (xs : list string) (w : world) :
  heap w !! l = Some xs ->
  exists r w' ys,
    download_templates self l w = (r, w')
    /\ heap w' !! l = Some ys
    /\ ys ≡ₚ xs
    /\ (ys = xs \/ (shuffling_templates self = true /\ 1 < length xs)).
Proof.
  intros Hl. destruct xs as [|x0 xs0].
  - eexists _, _, []. split; [by apply download_templates_empty_eq |].
    cbn. rewrite cleanup_heap. auto.
  - destruct (download_templates_nonempty_eq self l (x0 :: xs0) w Hl)
      as (ys & g & Hperm & Hsame & ->); [done |].
    eexists _, _, ys. split; [reflexivity |].
    cbn. rewrite lookup_insert_eq. split; [done |]. split; [done |].
    destruct ((1 <? length (x0 :: xs0))%nat && shuffling_templates self)
      eqn:Hsh; [| by left; apply Hsame].
    right. apply andb_true_iff in Hsh as [Hlen ->].
    apply Nat.ltb_lt in Hlen. done.
Qed.

(** The same for three codes, shuffling on. *)
Lemma download_templates_caller_list_witness :
  exists r w' ys,
    download_templates (demo_runner 20 true) 0
      (demo_world ["1abc_A"; "2xyz_B"; "3def_C"] [1; 0]) = (r, w')
    /\ heap w' !! 0 = Some ys
    /\ ys ≡ₚ ["1abc_A"; "2xyz_B"; "3def_C"]
    /\ (ys = ["1abc_A"; "2xyz_B"; "3def_C"]
        \/ (shuffling_templates (demo_runner 20 true) = true /\ 1 < 3)).
Proof.
  exact (download_templates_caller_list (demo_runner 20 true) 0
           ["1abc_A"; "2xyz_B"; "3def_C"]
           (demo_world ["1abc_A"; "2xyz_B"; "3def_C"] [1; 0]) eq_refl).
Defined.

(** ** Truncation *)





(** ** The search job *)

Lemma nap_eq (w : world) :
  nap w
  = (Ok tt,
     set_trace (trace w ++ [EvSleep (5 + (draw (np_random w)).1 mod 5)])
       (set_np_random (draw (np_random w)).2 w)).
Proof.
  unfold nap, bind, np_randint. by destruct (draw (np_random w)).
Qed.

Section SearchJob.

Variable server : nat -> request -> response.
Variable repr : json -> string.

(** C5.  When the archive [out.tar.gz] is already on disk, [_search_mmseqs2]
    returns at once and leaves the world as it found it: its trace gains no
    event, so no request is posted, no ticket is polled and nothing is
    downloaded. *)
Theorem search_skips_existing_archive (fuel : nat) (self : runner) (w : world) :
  is_Some (files w !! tarfile self) ->
  _search_mmseqs2 server repr fuel self w = Some (Ok tt, w).
Proof.
  intros Hfile. unfold _search_mmseqs2, pbind, total, os_path_isfile.
  by rewrite bool_decide_eq_true_2.
Qed.

(** A body that is not JSON makes [_submit] return the UNKNOWN ticket. *)
Lemma submit_unparseable (self : runner) (w : world) (req : request) :
  req = POST (host_url self ++ "/ticket/msa")
          [("q", ">101" ++ PyStr.newline ++ seq self); ("mode", "env")] ->
  json_body (server (http_count (trace w)) req) = None ->
  _submit server self w
  = (Ok status_unknown, set_trace (trace w ++ [EvHttp req]) w).
Proof.
  intros -> Hbody. unfold _submit. step.
  unfold except_ValueError, res_json. by rewrite Hbody.
Qed.

(** The same for [_status]. *)
Lemma status_unparseable (self : runner) (idx : json) (w : world)
    (req : request) :
  req = GET (host_url self ++ "/ticket/" ++ py_str repr idx) ->
  json_body (server (http_count (trace w)) req) = None ->
  _status server repr self idx w
  = (Ok status_unknown, set_trace (trace w ++ [EvHttp req]) w).
Proof.
  intros -> Hbody. unfold _status. step.
  unfold except_ValueError, res_json. by rewrite Hbody.
Qed.

(** The first loop takes the UNKNOWN ticket for a transient state: it sleeps
    and submits again. *)
Lemma resubmit_loop_unknown (fuel : nat) (self : runner) (w : world) :
  resubmit_loop server (S fuel) self status_unknown w
  = (let+ out := total (let* _ := nap in _submit server self) in
     resubmit_loop server fuel self out) w.
Proof. reflexivity. Qed.

(** The second loop means to do the same, but asks the UNKNOWN ticket for
    its ["id"], which it does not have. *)
Lemma poll_loop_unknown (fuel : nat) (self : runner) (w : world) :
  exists w',
    poll_loop server repr (S fuel) self status_unknown w
    = Some (Raise (KeyError "id"), w')
    /\ filter is_http (trace w') = filter is_http (trace w).
Proof.
  cbn [poll_loop]. unfold pbind at 1, total at 1. cbn.
  unfold pbind, total. rewrite (bind_ok _ _ _ _ _ (nap_eq w)).
  eexists. split; [reflexivity |]. cbn.
  by rewrite filter_app, app_nil_r.
Qed.

End SearchJob.

(** The same with an archive in the job directory. *)
Lemma search_skips_existing_archive_witness :
  let self := demo_runner 20 false in
  let w := set_files {[ "job_1a2b3_env/out.tar.gz" := "archive" ]}
             (demo_world [] []) in
  _search_mmseqs2 silent_server no_repr 7 self w = Some (Ok tt, w).
Proof.
  refine (search_skips_existing_archive silent_server no_repr 7
            (demo_runner 20 false) _ _).
  vm_compute. eexists. reflexivity.
Defined.

(** C6, on [bad_gateway_server], which accepts the job and answers the
    first poll with a page that is not JSON: the response becomes the
    UNKNOWN ticket, the loop goes round once more, and [out["id"]] raises
    [KeyError]; the job fails after one POST and one GET, whatever fuel is
    left. *)
Theorem search_fails_after_unparseable_poll (repr : json -> string)
    (fuel : nat) :
  let self := demo_runner 20 false in
  let run := _search_mmseqs2 bad_gateway_server repr (S (S fuel)) self
               (demo_world [] []) in
  fst <$> run = Some (Raise (KeyError "id"))
  /\ (trace ∘ snd) <$> run
     = Some [ EvHttp (POST "https://a3m.mmseqs.com/ticket/msa"
                        [("q", ">101" ++ PyStr.newline ++ "MKV");
                         ("mode", "env")]);
              EvSleep 5;
              EvLog DEBUG "ID: T1";
              EvSleep 5;
              EvHttp (GET "https://a3m.mmseqs.com/ticket/T1");
              EvSleep 5 ].
Proof. split; vm_compute; reflexivity. Qed.

(** ** Template selection *)

Lemma bind_inv_ok {A B} (m : M A) (k : A -> M B) (w w' : world) (b : B) :
  bind m k w = (Ok b, w') ->
  exists a w1, m w = (Ok a, w1) /\ k a w1 = (Ok b, w').
Proof.
  unfold bind. destruct (m w) as [[a|e] w1]; [eauto | done].
Qed.

Lemma lift_inv_ok {A} (r : res A) (w w' : world) (a : A) :
  lift r w = (Ok a, w') -> r = Ok a /\ w' = w.
Proof. unfold lift. by intros [= -> ->]. Qed.

(** Split a run that ended normally into the runs of its commands. *)
Ltac inv_bind H :=
  let a := fresh "a" in
  let w := fresh "w" in
  let H1 := fresh "Hrun" in
  apply bind_inv_ok in H as (a & w & H1 & H).

Section Selection.

Variable server : nat -> request -> response.
Variable float_of_str : string -> option float.
Variable repr : json -> string.

(** A branch that asks a service either leaves the selection alone or
    accepts the row it was given. *)
Lemma activation_branch_outcome (s pdb pdbid : string) (st st' : selection)
    (w w' : world) :
  activation_branch server s pdb pdbid st w = (Ok st', w') ->
  st' = st \/ st' = accept pdb pdbid st.
Proof.
  unfold activation_branch. intros H.
  inv_bind H. inv_bind H. inv_bind H.
  destruct a1.
  - injection H as <- _. by right.
  - inv_bind H. destruct a1; [| injection H as <- _; by left].
    inv_bind H. inv_bind H.
    destruct (Json.eq_str a2 s); injection H as <- _; auto.
Qed.

Lemma conformation_branch_outcome (t0 : pyval) (pdb pdbid : string)
    (st st' : selection) (w w' : world) :
  conformation_branch server float_of_str repr t0 pdb pdbid st w = (Ok st', w') ->
  st' = st \/ st' = accept pdb pdbid st.
Proof.
  unfold conformation_branch. intros H.
  inv_bind H. destruct a as [[dfg ac_helix] salt_bridge].
  inv_bind H. inv_bind H. inv_bind H.
  destruct (Json.ne_400 a1); [| injection H as <- _; by left].
  do 6 inv_bind H.
  destruct a7; injection H as <- _; auto.
Qed.

Lemma dedup_inv_accept (pdb : string) (st : selection) :
  dedup_inv st -> pdb_id pdb ∉ st.2 -> dedup_inv (accept pdb (pdb_id pdb) st).
Proof.
  intros [Hmap Hnd] Hnew. split; cbn.
  - by rewrite map_app, Hmap.
  - apply NoDup_app. split; [done |]. split; [| apply NoDup_singleton].
    intros x Hx ->%list_elem_of_singleton. done.
Qed.

Lemma process_line_dedup (templates : list pyval) (tu : list string)
    (line : string) (st st' : selection) (w w' : world) :
  unlisted templates line ->
  dedup_inv st ->
  process_line server float_of_str repr templates tu line st w = (Ok st', w') ->
  dedup_inv st'.
Proof.
  intros Hline Hinv H. unfold process_line in H.
  inv_bind H. rename a into pdb.
  apply lift_inv_ok in Hrun as [Hpdb ->]. fold (target line) in Hpdb.
  destruct templates as [|t0 rest]; [by injection H as <- _ |].
  inv_bind H. rename a into st1.
  assert (Hinv1 : dedup_inv st1).
  { destruct (pyval_in_strs t0 activation_states
              && negb (bool_decide (pdb_id pdb ∈ st.2))
              && negb (bool_decide (pdb_id pdb ∈ tu))) eqn:Hc.
    - apply andb_true_iff in Hc as [[_ Hc]%andb_true_iff _].
      apply negb_true_iff, bool_decide_eq_false in Hc.
      apply activation_branch_outcome in Hrun as [-> | ->]; [done |].
      by apply dedup_inv_accept.
    - by injection Hrun as <- _. }
  destruct ((pyval_len t0 =? 3)%nat
            && negb (bool_decide (pdb_id pdb ∈ st1.2))
            && negb (bool_decide (PStr (pdb_id pdb) ∈ t0 :: rest))) eqn:Hc.
  - apply andb_true_iff in Hc as [[_ Hc]%andb_true_iff _].
    apply negb_true_iff, bool_decide_eq_false in Hc.
    apply conformation_branch_outcome in H as [-> | ->]; [done |].
    by apply dedup_inv_accept.
  - rewrite bool_decide_eq_false_2 in H by (by apply Hline).
    by injection H as <- _.
Qed.

Lemma process_lines_dedup (templates : list pyval) (tu : list string)
    (lines : list string) (st st' : selection) (w w' : world) :
  Forall (unlisted templates) lines ->
  dedup_inv st ->
  process_lines server float_of_str repr templates tu lines st w = (Ok st', w') ->
  dedup_inv st'.
Proof.
  intros Hlines. revert st w.
  induction Hlines as [|line lines Hline _ IH]; intros st w Hinv H.
  - by injection H as <- _.
  - cbn [process_lines] in H. inv_bind H.
    eapply IH; [| exact H]. by eapply process_line_dedup.
Qed.

(** C1, amended.  For an activation-state filter and for a conformation
    tuple (indeed for any criteria), as long as no row of the table has its
    target listed verbatim by the caller, the candidate list that the loop
    of [process_templates] builds never holds two entries with the same PDB
    id, upper-cased and without the chain. *)
Theorem process_lines_distinct_ids (templates : list pyval)
    (lines : list string) (pdbs dups : list string) (w w' : world) :
  Forall (unlisted templates) lines ->
  process_lines server float_of_str repr templates (upper_strs templates)
    lines ([], []) w = (Ok (pdbs, dups), w') ->
  NoDup (map pdb_id pdbs).
Proof.
  intros Hlines H.
  apply process_lines_dedup in H as [Hmap Hnd]; [| done |].
  - cbn in Hmap, Hnd. by rewrite <- Hmap.
  - split; [done | apply NoDup_nil_2].
Qed.

(** *** Matching a conformation *)

Lemma http_count_request (t : list event) (req : request) :
  http_count (t ++ [EvHttp req]) = S (http_count t).
Proof.
  unfold http_count.
  rewrite filter_app, length_app, filter_cons_True by done. cbn. lia.
Qed.

Lemma check_field (x : string) (first : list string) (msg : string) (w : world) :
  (if bool_decide (x ∈ first) then ret x
   else if String.eqb x "all" then ret "all"
   else raise (RuntimeError msg)) w
  = (if bool_decide (x ∈ (first ++ ["all"])%list) then Ok x
     else Raise (RuntimeError msg), w).
Proof.
  case_bool_decide as H1.
  - rewrite bool_decide_eq_true_2; [done |]. apply elem_of_app. by left.
  - destruct (String.eqb_spec x "all") as [-> | H2].
    + rewrite bool_decide_eq_true_2; [done |]. apply elem_of_app. right.
      apply list_elem_of_singleton. done.
    + rewrite bool_decide_eq_false_2; [done |].
      intros [? | ?%list_elem_of_singleton]%elem_of_app; done.
Qed.

Lemma check_criteria_eq (dfg ac_helix salt_bridge : string) (w : world) :
  check_criteria (PTuple [dfg; ac_helix; salt_bridge]) w
  = (match criteria_error dfg ac_helix salt_bridge with
     | Some msg => Raise (RuntimeError msg)
     | None => Ok (dfg, ac_helix, salt_bridge)
     end, w).
Proof.
  unfold check_criteria, criteria_error. step.
  unfold bind at 1. rewrite check_field. cbn [app]. fold (valid_dfg dfg).
  destruct (valid_dfg dfg); [| done]. cbn [negb]. step.
  unfold bind at 1. rewrite check_field. cbn [app].
  fold (valid_ac_helix ac_helix).
  destruct (valid_ac_helix ac_helix); [| done]. cbn [negb]. step.
  unfold bind at 1. fold (valid_salt_bridge salt_bridge).
  by destruct (valid_salt_bridge salt_bridge).
Qed.

Lemma salt_bridge_class_eq (obs oD oH : json) (dist : float) (w : world) :
  observes float_of_str obs oD oH dist ->
  salt_bridge_class float_of_str obs w = (Ok (salt_bridge_observed dist), w).
Proof.
  intros (_ & _ & d & Hd & Hf).
  unfold salt_bridge_class, salt_bridge_observed, and_then, bind, lift, ret.
  rewrite Hd, Hf. by destruct (PrimFloat.ltb 0 dist).
Qed.

(** The eight cases of the code are the conjunction of the specification. *)
Lemma conformation_match_eq (dfg ac_helix salt_bridge : string)
    (obs oD oH : json) (dist : float) (w : world) :
  observes float_of_str obs oD oH dist ->
  conformation_match dfg ac_helix salt_bridge (salt_bridge_observed dist) obs w
  = (Ok (criteria_match dfg ac_helix salt_bridge oD oH dist), w).
Proof.
  intros (HD & HH & _).
  unfold conformation_match, criteria_match, field_matches, and_then,
    observed, bind, lift, ret.
  rewrite HD, HH.
  destruct (String.eqb dfg "all"), (String.eqb ac_helix "all"),
    (String.eqb salt_bridge "all"); cbn;
    destruct (Json.eq_str oD dfg), (Json.eq_str oH ac_helix); cbn;
    try reflexivity;
    by destruct (String.eqb salt_bridge (salt_bridge_observed dist)).
Qed.

Lemma conformation_branch_eq (dfg ac_helix salt_bridge pdb pdbid : string)
    (st : selection) (w : world) (obs oD oH : json) (dist : float) :
  criteria_error dfg ac_helix salt_bridge = None ->
  resolves server repr w pdbid obs ->
  observes float_of_str obs oD oH dist ->
  exists w',
    conformation_branch server float_of_str repr
      (PTuple [dfg; ac_helix; salt_bridge]) pdb pdbid st w
    = (Ok (if criteria_match dfg ac_helix salt_bridge oD oH dist
           then accept pdb pdbid st else st), w')
    /\ http_count (trace w') = S (S (http_count (trace w))).
Proof.
  intros Hvalid (rj & rj0 & sid & rj' & H1 & H2 & H3 & H4 & H5 & H6) Hobs.
  unfold conformation_branch.
  step_by ltac:(rewrite check_criteria_eq, Hvalid; reflexivity).
  cbv beta iota.
  step. unfold res_json at 1. cbn [trace set_trace]. rewrite H1.
  step. rewrite H2. step. rewrite H3, H4. step.
  step. unfold res_json at 1. cbn [trace set_trace].
  rewrite http_count_request, H5.
  step. rewrite H6. step.
  step_by ltac:(by eapply salt_bridge_class_eq).
  step_by ltac:(by eapply conformation_match_eq).
  eexists. split.
  - by destruct (criteria_match _ _ _ _ _ _).
  - cbn [trace set_trace]. by rewrite !http_count_request.
Qed.

Lemma criteria_valid (dfg ac_helix salt_bridge : string) :
  dfg ∈ ["in"; "out"; "out-like"; "all"] ->
  ac_helix ∈ ["in"; "out"; "all"] ->
  salt_bridge ∈ ["yes"; "no"; "all"] ->
  criteria_error dfg ac_helix salt_bridge = None.
Proof.
  intros H1 H2 H3.
  unfold criteria_error, valid_dfg, valid_ac_helix, valid_salt_bridge.
  by rewrite !bool_decide_eq_true_2.
Qed.

(** The loop body on a row that reaches the conformation branch. *)
Lemma process_line_conformation (t0 : pyval) (rest : list pyval)
    (tu : list string) (line pdb : string) (st : selection) (w : world) :
  pyval_len t0 = 3 ->
  pyval_in_strs t0 activation_states = false ->
  target line = Ok pdb ->
  pdb_id pdb ∉ st.2 ->
  PStr (pdb_id pdb) ∉ t0 :: rest ->
  process_line server float_of_str repr (t0 :: rest) tu line st w
  = conformation_branch server float_of_str repr t0 pdb (pdb_id pdb) st w.
Proof.
  intros Hlen Hstr Ht Hdup Hex. unfold process_line.
  change (list_item (PyStr.split_ws (PyStr.rstrip line)) 1) with (target line).
  rewrite Ht. step. rewrite Hstr. cbn [andb]. step.
  rewrite Hlen, (bool_decide_eq_false_2 _ Hdup), (bool_decide_eq_false_2 _ Hex).
  reflexivity.
Qed.

(** C2.  Take a conformation tuple with valid fields and a row that reaches
    the conformation branch (its PDB id is neither accepted already nor in
    the caller's list) and resolves in the service.  The row is accepted
    exactly when every field that is not ["all"] equals the observed value,
    the observed salt bridge being ["yes"] when the distance is in (0, 4.5]
    and ["no"] otherwise.  So ("in","all","all") accepts exactly the rows
    whose observed DFG is ["in"], and ("all","all","all") accepts every such
    row. *)
Theorem conformation_accept_iff (dfg ac_helix salt_bridge : string)
    (rest : list pyval) (line pdb : string) (st : selection) (w : world)
    (obs oD oH : json) (dist : float) :
  let templates := PTuple [dfg; ac_helix; salt_bridge] :: rest in
  dfg ∈ ["in"; "out"; "out-like"; "all"] ->
  ac_helix ∈ ["in"; "out"; "all"] ->
  salt_bridge ∈ ["yes"; "no"; "all"] ->
  target line = Ok pdb ->
  pdb_id pdb ∉ st.2 ->
  PStr (pdb_id pdb) ∉ templates ->
  resolves server repr w (pdb_id pdb) obs ->
  observes float_of_str obs oD oH dist ->
  exists w',
    process_line server float_of_str repr templates (upper_strs templates)
      line st w
    = (Ok (if criteria_match dfg ac_helix salt_bridge oD oH dist
           then accept pdb (pdb_id pdb) st else st), w')
    /\ (dfg = "in" -> ac_helix = "all" -> salt_bridge = "all" ->
        criteria_match dfg ac_helix salt_bridge oD oH dist
        = Json.eq_str oD "in")
    /\ (dfg = "all" -> ac_helix = "all" -> salt_bridge = "all" ->
        criteria_match dfg ac_helix salt_bridge oD oH dist = true).
Proof.
  intros templates Hd Hh Hs Ht Hdup Hex Hres Hobs.
  destruct (conformation_branch_eq dfg ac_helix salt_bridge pdb (pdb_id pdb)
              st w obs oD oH dist) as (w' & Hrun & _);
    [by apply criteria_valid | done | done |].
  exists w'. split; [| split].
  - subst templates.
    by rewrite (process_line_conformation _ _ _ _ pdb).
  - intros -> -> ->. unfold criteria_match, field_matches. cbn.
    by rewrite !andb_true_r.
  - by intros -> -> ->.
Qed.

(** *** Invalid criteria *)


Lemma full_row_target (line : string) :
  full_row line -> exists pdb, target line = Ok pdb.
Proof.
  unfold full_row, target, list_item. intros Hlen.
  destruct (lookup_lt_is_Some_2 (PyStr.split_ws (PyStr.rstrip line)) 1)
    as [pdb ->]; [lia | eauto].
Qed.


End Selection.

(** *** The whole of [process_templates] *)

Lemma http_count_other (t : list event) (e : event) :
  is_http e = false -> http_count (t ++ [e]) = http_count t.
Proof.
  intros He. unfold http_count.
  rewrite filter_app, filter_cons_False by (simpl; rewrite He; exact id).
  by rewrite filter_nil, app_nil_r.
Qed.


Lemma cleanup_files (p q : string) (w : world) :
  under p q = false -> files (cleanup p w) !! q = files w !! q.
Proof.
  intros Hq. unfold cleanup. case_bool_decide; [| done]. cbn.
  destruct (files w !! q) as [c|] eqn:Hc.
  - by apply map_lookup_filter_Some_2.
  - apply map_lookup_filter_None. by left.
Qed.



(** [process_templates] is its loop run on the lines of the table, then the
    sidecar written, then the fetch. *)
Lemma process_templates_selection (server : nat -> request -> response)
    (float_of_str : string -> option float) (repr : json -> string)
    (self : runner) (templates : list pyval) (table : string) (w : world) :
  files w !! (path self ++ "/pdb70.m8") = Some table ->
  under (templates_path self) (path self ++ "/pdb70.m8") = false ->
  process_templates server float_of_str repr self templates w
  = (let* st := process_lines server float_of_str repr templates
                  (upper_strs templates) (file_lines table) ([], []) in
     let* _ := write_sidecar self st.1 in
     let* pdbs := alloc st.1 in
     download_templates self pdbs) (selection_start self w).
Proof.
  intros Hfile Hout. unfold process_templates. rewrite cleanup_run. step.
  fold (selection_start self w).
  step_by ltac:(unfold read_file, selection_start; cbn [files set_trace];
                rewrite cleanup_files, Hfile; done).
  reflexivity.
Qed.

Lemma download_templates_files (self : runner) (l : loc) (xs : list string)
    (w w' : world) (r : res string) (q : string) :
  heap w !! l = Some xs ->
  under (templates_path self) q = false ->
  download_templates self l w = (r, w') ->
  files w' !! q = files w !! q.
Proof.
  intros Hl Hq Hrun. destruct xs as [|x0 xs0].
  - rewrite download_templates_empty_eq in Hrun by done.
    injection Hrun as _ <-. cbn. by apply cleanup_files.
  - destruct (download_templates_nonempty_eq self l (x0 :: xs0) w Hl)
      as (ys & g & _ & _ & Heq); [done |].
    rewrite Heq in Hrun. injection Hrun as _ <-. cbn.
    by apply cleanup_files.
Qed.

(** When [process_templates] returns, the sidecar file holds the codes its
    loop selected, in the order of selection, whatever the fetch did to the
    list afterwards. *)
Lemma process_templates_sidecar (server : nat -> request -> response)
    (float_of_str : string -> option float) (repr : json -> string)
    (self : runner) (templates : list pyval) (table : string) (w w' : world)
    (p : string) :
  files w !! (path self ++ "/pdb70.m8") = Some table ->
  under (templates_path self) (path self ++ "/pdb70.m8") = false ->
  under (templates_path self) (path self ++ "/template_pdbs.txt") = false ->
  process_templates server float_of_str repr self templates w = (Ok p, w') ->
  exists pdbs dups w1,
    process_lines server float_of_str repr templates (upper_strs templates)
      (file_lines table) ([], []) (selection_start self w)
    = (Ok (pdbs, dups), w1)
    /\ files w' !! (path self ++ "/template_pdbs.txt")
       = Some (sidecar_text pdbs).
Proof.
  intros Hfile Hout Hside Hrun.
  rewrite (process_templates_selection _ _ _ _ _ table) in Hrun by done.
  inv_bind Hrun. destruct a as [pdbs dups]. exists pdbs, dups, w0.
  split; [done |].
  inv_bind Hrun. inv_bind Hrun.
  unfold write_sidecar, write_file in Hrun1. injection Hrun1 as _ <-.
  unfold alloc in Hrun2. injection Hrun2 as <- <-.
  erewrite download_templates_files; [| | done | exact Hrun].
  - cbn. apply lookup_insert_eq.
  - cbn. apply lookup_insert_eq.
Qed.

(** ** The code on concrete tables *)

(** C1, as stated, fails on the literal-list path, which keeps no record of
    the ids it has taken: two chains of one structure, both listed by the
    caller, are both selected, and the sidecar file shows them. *)
Lemma literal_list_keeps_both_chains :
  let templates := [PStr "1abc_A"; PStr "1abc_B"] in
  let w := table_world (m8_table ["1abc_A"; "1abc_B"]) in
  (process_lines silent_server no_float no_repr templates
     (upper_strs templates) (file_lines (m8_table ["1abc_A"; "1abc_B"]))
     ([], []) w).1
  = Ok (["1abc_A"; "1abc_B"], [])
  /\ map pdb_id ["1abc_A"; "1abc_B"] = ["1ABC"; "1ABC"]
  /\ files (process_templates silent_server no_float no_repr
              (demo_runner 20 false) templates w).2
     !! "job_1a2b3_env/template_pdbs.txt"
     = Some "1abc_A,1abc_B,".
Proof. repeat split; vm_compute; reflexivity. Qed.

(** The G-protein filter, with one excluded id, on a table with two chains
    of the same coupled structure: the selection is the first chain and the
    other coupled structure. *)
Lemma process_lines_distinct_ids_witness :
  NoDup (map pdb_id ["1abc_A"; "3def_C"]).
Proof.
  pose (templates := [PStr "G protein"; PStr "4GHI"]).
  pose (lines := file_lines
                   (m8_table ["1abc_A"; "1abc_B"; "2xyz_A"; "3def_C"; "4ghi_A"])).
  pose (run := process_lines gpcrdb_demo_server no_float no_repr templates
                 (upper_strs templates) lines ([], [])
                 (table_world EmptyString)).
  refine (process_lines_distinct_ids gpcrdb_demo_server no_float no_repr
            templates lines ["1abc_A"; "3def_C"] ["1ABC"; "3DEF"]
            (table_world EmptyString) run.2 _ _).
  - repeat constructor; intros pdb Ht; vm_compute in Ht;
      injection Ht as <-; apply (bool_decide_unpack _); vm_compute; exact I.
  - vm_compute. reflexivity.
Defined.

(** The criteria (in, all, yes) on the structure KLIFS knows. *)
Lemma conformation_accept_iff_witness :
  exists w',
    process_line klifs_demo_server demo_float demo_repr
      [PTuple ["in"; "all"; "yes"]] [] (m8_row "1abc_A") ([], [])
      (table_world EmptyString)
    = (Ok (["1abc_A"], ["1ABC"]), w')
    /\ ("in" = "in" -> "all" = "all" -> "yes" = "all" ->
        criteria_match "in" "all" "yes" (JStr "in") (JStr "out") 3.5
        = Json.eq_str (JStr "in") "in")
    /\ ("in" = "all" -> "all" = "all" -> "yes" = "all" ->
        criteria_match "in" "all" "yes" (JStr "in") (JStr "out") 3.5 = true).
Proof.
  refine (conformation_accept_iff klifs_demo_server demo_float demo_repr
            "in" "all" "yes" [] (m8_row "1abc_A") "1abc_A" ([], [])
            (table_world EmptyString)
            (JDict [("DFG", JStr "in"); ("ac_helix", JStr "out");
                    ("salt_bridge_17_24", JStr "3.5")])
            (JStr "in") (JStr "out") 3.5 _ _ _ _ _ _ _ _).
  - repeat constructor.
  - repeat constructor.
  - repeat constructor.
  - vm_compute. reflexivity.
  - apply (bool_decide_unpack _). vm_compute. exact I.
  - apply (bool_decide_unpack _). vm_compute. exact I.
  - eexists _, _, _, _. repeat split; vm_compute; reflexivity.
  - split; [| split]; [reflexivity | reflexivity |].
    eexists. split; vm_compute; reflexivity.
Defined.



(** The round trip of two codes. *)
Lemma sidecar_roundtrip_witness :
  (let* _ := write_sidecar (demo_runner 20 false) ["1abc_A"; "2xyz_B"] in
   read_sidecar (demo_runner 20 false)) (table_world EmptyString)
  = (Ok ["1abc_A"; "2xyz_B"],
     set_files (<[ "job_1a2b3_env/template_pdbs.txt" := "1abc_A,2xyz_B," ]>
                  (files (table_world EmptyString)))
       (table_world EmptyString)).
Proof.
  refine (sidecar_roundtrip (demo_runner 20 false) ["1abc_A"; "2xyz_B"]
            (table_world EmptyString) _).
  repeat constructor; try discriminate;
    apply (bool_decide_unpack _); vm_compute; exact I.
Defined.

(** * Further properties *)

(** ** The sanitizer and the job name *)

Lemma filter_ext_Forall {A} (P Q : A -> Prop) `{!forall x, Decision (P x)}
    `{!forall x, Decision (Q x)} (l : list A) :
  Forall (fun x => P x <-> Q x) l -> filter P l = filter Q l.
Proof.
  induction 1 as [|x l Hx _ IH]; [done |].
  destruct (decide (P x)).
  - rewrite !filter_cons_True by tauto. by rewrite IH.
  - rewrite !filter_cons_False by tauto. by rewrite IH.
Qed.

Lemma upper_not_space (c : ascii) :
  PyStr.is_upper c = true -> PyStr.isspace c = false.
Proof.
  unfold PyStr.is_upper, PyStr.isspace.
  intros [H1 H2]%andb_true_iff.
  apply Nat.leb_le in H1, H2.
  apply orb_false_iff. split; apply andb_false_iff.
  - right. apply Nat.leb_gt. lia.
  - right. apply Nat.leb_gt. lia.
Qed.

(** X2.  The letters that [_cleanseq] keeps are the canonical letters of its
    input, each of them, in their order. *)
Theorem cleanseq_keeps_canonical_letters (seq : string) (w : world) :
  exists out w',
    _cleanseq seq w = (Ok out, w')
    /\ PyStr.chars out = filter canonical (PyStr.chars seq).
Proof.
  unfold _cleanseq, bind. destruct (has_noncanonical seq) eqn:E; cbn.
  - eexists _, _. split; [reflexivity |].
    rewrite PyStrFacts.chars_re_sub_class, PyStrFacts.chars_join_split_ws,
      PyStrFacts.chars_re_sub_class.
    rewrite list_filter_filter_l.
    + rewrite list_filter_filter. apply list_filter_iff. intros c.
      unfold canonical. by rewrite negb_false_iff.
    + intros c Hc. apply upper_not_space. by apply negb_false_iff.
  - eexists _, _. split; [reflexivity |].
    rewrite PyStrFacts.chars_re_sub_class, PyStrFacts.chars_join_split_ws.
    rewrite list_filter_filter_l.
    + apply filter_ext_Forall, Forall_forall. intros c Hc.
      unfold canonical. rewrite negb_false_iff.
      assert (PyStr.contains c "BJOUXZ" = false); [| tauto].
      destruct (PyStr.contains c "BJOUXZ") eqn:Hb; [| done].
      assert (has_noncanonical seq = true) as Ht; [| congruence].
      apply has_noncanonical_spec. exists c.
      by rewrite <- PyStrFacts.contains_elem.
    + intros c Hc. apply upper_not_space. by apply negb_false_iff.
Qed.




(** ** Requests of the search job *)

Lemma submit_eq (server : nat -> request -> response) (self : runner)
    (w : world) :
  _submit server self w
  = (Ok (ticket (server (http_count (trace w)) (submit_request self))),
     set_trace (trace w ++ [EvHttp (submit_request self)]) w).
Proof.
  unfold _submit. fold (submit_request self). step.
  unfold except_ValueError, res_json, ticket.
  by destruct (json_body _).
Qed.

Lemma status_eq (server : nat -> request -> response) (repr : json -> string)
    (self : runner) (idx : json) (w : world) :
  _status server repr self idx w
  = (Ok (ticket (server (http_count (trace w)) (status_request repr self idx))),
     set_trace (trace w ++ [EvHttp (status_request repr self idx)]) w).
Proof.
  unfold _status. fold (status_request repr self idx). step.
  unfold except_ValueError, res_json, ticket.
  by destruct (json_body _).
Qed.

Lemma download_eq (server : nat -> request -> response)
    (repr : json -> string) (self : runner) (idx : json) (p : string)
    (w : world) :
  _download server repr self idx p w
  = (Ok tt,
     set_files
       (<[ p := content (server (http_count (trace w))
                           (download_request repr self idx)) ]> (files w))
       (set_trace (trace w ++ [EvHttp (download_request repr self idx)]) w)).
Proof. reflexivity. Qed.

(** [_submit] and [_status] never raise: each sends its one request and
    returns the decoded body, or the UNKNOWN ticket when the body is not
    JSON; nothing but the trace changes. *)
Lemma submit_status_never_raise (server : nat -> request -> response)
    (repr : json -> string) (self : runner) (idx : json) (w : world) :
  let answer req :=
    match json_body (server (http_count (trace w)) req) with
    | Some out => out
    | None => JDict [("status", JStr "UNKNOWN")]
    end in
  _submit server self w
  = (Ok (answer (POST (host_url self ++ "/ticket/msa")
                   [("q", ">101" ++ PyStr.newline ++ seq self);
                    ("mode", "env")])),
     set_trace (trace w
                ++ [EvHttp (POST (host_url self ++ "/ticket/msa")
                              [("q", ">101" ++ PyStr.newline ++ seq self);
                               ("mode", "env")])]) w)
  /\ _status server repr self idx w
     = (Ok (answer (GET (host_url self ++ "/ticket/" ++ py_str repr idx))),
        set_trace (trace w
                   ++ [EvHttp (GET (host_url self ++ "/ticket/"
                                    ++ py_str repr idx))]) w).
Proof.
  intros answer. split.
  - rewrite submit_eq. unfold ticket, submit_request, answer.
    by destruct (json_body _).
  - rewrite status_eq. unfold ticket, status_request, answer.
    by destruct (json_body _).
Qed.

(** ** The life of a search job *)

Section Lifecycle.

Variable server : nat -> request -> response.
Variable repr : json -> string.

Lemma status_in_eq (out : json) (l : list string) (b : bool) (w : world) :
  has_status out l b -> status_in out l w = (Ok b, w).
Proof.
  intros (s & Hs & <-). unfold status_in, bind, lift, ret. by rewrite Hs.
Qed.

Lemma nap_then {A} (m : M A) (w : world) :
  (let* _ := nap in m) w
  = m (set_trace (trace w ++ [EvSleep (5 + (draw (np_random w)).1 mod 5)])
         (set_np_random (draw (np_random w)).2 w)).
Proof. unfold bind at 1. by rewrite nap_eq. Qed.

Lemma nap_submit (self : runner) (w : world) :
  (let* _ := nap in _submit server self) w
  = (Ok (ticket (server (http_count (trace w)) (submit_request self))),
     after (submit_request self) w).
Proof.
  rewrite nap_then, submit_eq. cbn [trace set_trace set_np_random].
  rewrite http_count_other by done. unfold after.
  cbn [set_trace set_np_random dirs files heap py_random np_random trace].
  by rewrite <- app_assoc.
Qed.

Lemma nap_status (self : runner) (out idx : json) (w : world) :
  Json.getitem out "id" = Ok idx ->
  (let* _ := nap in
   let* idx := lift (Json.getitem out "id") in
   _status server repr self idx) w
  = (Ok (ticket (server (http_count (trace w))
                   (status_request repr self idx))),
     after (status_request repr self idx) w).
Proof.
  intros Hid. rewrite nap_then. unfold bind at 1, lift. rewrite Hid.
  rewrite status_eq. cbn [trace set_trace set_np_random].
  rewrite http_count_other by done. unfold after.
  cbn [set_trace set_np_random dirs files heap py_random np_random trace].
  by rewrite <- app_assoc.
Qed.

Lemma http_count_after (req : request) (w : world) :
  http_count (trace (after req w)) = S (http_count (trace w)).
Proof.
  unfold after. cbn [trace set_trace].
  change [EvSleep (5 + (draw (np_random w)).1 mod 5); EvHttp req]
    with ([EvSleep (5 + (draw (np_random w)).1 mod 5)] ++ [EvHttp req])%list.
  rewrite app_assoc, http_count_request. by rewrite http_count_other.
Qed.

Lemma resubmit_done (fuel : nat) (self : runner) (out : json) (w : world) :
  has_status out retry_states false ->
  resubmit_loop server fuel self out w = Some (Ok out, w).
Proof.
  intros Hs. destruct fuel; cbn [resubmit_loop];
    unfold pbind, total; fold retry_states;
    by rewrite (status_in_eq _ _ _ _ Hs).
Qed.

Lemma resubmit_step (fuel : nat) (self : runner) (out : json) (w : world) :
  has_status out retry_states true ->
  resubmit_loop server (S fuel) self out w
  = resubmit_loop server fuel self
      (ticket (server (http_count (trace w)) (submit_request self)))
      (after (submit_request self) w).
Proof.
  intros Hs. cbn [resubmit_loop]. unfold pbind at 1, total at 1.
  fold retry_states. rewrite (status_in_eq _ _ _ _ Hs).
  unfold pbind at 1, total at 1. by rewrite nap_submit.
Qed.

Lemma poll_done (fuel : nat) (self : runner) (out : json) (w : world) :
  has_status out poll_states false ->
  poll_loop server repr fuel self out w = Some (Ok out, w).
Proof.
  intros Hs. destruct fuel; cbn [poll_loop];
    unfold pbind, total; fold poll_states;
    by rewrite (status_in_eq _ _ _ _ Hs).
Qed.

Lemma poll_step (fuel : nat) (self : runner) (out idx : json) (w : world) :
  has_status out poll_states true ->
  Json.getitem out "id" = Ok idx ->
  poll_loop server repr (S fuel) self out w
  = poll_loop server repr fuel self
      (ticket (server (http_count (trace w)) (status_request repr self idx)))
      (after (status_request repr self idx) w).
Proof.
  intros Hs Hid. cbn [poll_loop]. unfold pbind at 1, total at 1.
  fold poll_states. rewrite (status_in_eq _ _ _ _ Hs).
  unfold pbind at 1, total at 1. by rewrite (nap_status _ _ idx).
Qed.

Lemma served_app (n : nat) (l1 l2 : list (request * response)) :
  served server n (l1 ++ l2)
  <-> served server n l1 /\ served server (n + length l1) l2.
Proof.
  revert n. induction l1 as [|[req resp] l1 IH]; intros n; cbn [served app].
  - rewrite Nat.add_0_r. tauto.
  - rewrite IH. cbn [length]. rewrite Nat.add_succ_r. cbn. tauto.
Qed.

Lemma between_refl (w : world) : between w w.
Proof.
  do 4 (split; [done |]). exists []. by rewrite app_nil_r.
Qed.

Lemma between_trans (w1 w2 w3 : world) :
  between w1 w2 -> between w2 w3 -> between w1 w3.
Proof.
  intros (Hd & Hf & Hh & Hr & t & Ht & HF) (Hd' & Hf' & Hh' & Hr' & t' & Ht' & HF').
  do 4 (split; [congruence |]).
  exists (t ++ t')%list. split.
  - by rewrite Ht', Ht, app_assoc.
  - by apply Forall_app.
Qed.

Lemma sleep_bounds (x : nat) : 5 <= 5 + x mod 5 < 10.
Proof. pose proof (Nat.mod_upper_bound x 5). lia. Qed.

Lemma between_after (req : request) (w : world) : between w (after req w).
Proof.
  do 4 (split; [done |]). eexists. split; [reflexivity |].
  constructor; [apply sleep_bounds |]. by constructor.
Qed.

Lemma http_after (req : request) (w : world) :
  filter is_http (trace (after req w))
  = (filter is_http (trace w) ++ [EvHttp req])%list.
Proof.
  unfold after. cbn [trace set_trace]. rewrite filter_app.
  rewrite filter_cons_False by (simpl; exact id).
  by rewrite filter_cons_True.
Qed.

Lemma http_count_filter (w w' : world) (l : list event) :
  filter is_http (trace w') = (filter is_http (trace w) ++ l)%list ->
  http_count (trace w') = http_count (trace w) + length l.
Proof. unfold http_count. intros ->. by rewrite length_app. Qed.

(** The first loop, along the answers it gets. *)
Lemma resubmit_run (self : runner) (rs : list response) (acc : response) :
  forall (fuel : nat) (out : json) (w : world),
  has_status out retry_states true ->
  Forall (fun r => has_status (ticket r) retry_states true) rs ->
  has_status (ticket acc) retry_states false ->
  length rs < fuel ->
  served server (http_count (trace w))
    (map (pair (submit_request self)) (rs ++ [acc])) ->
  exists w',
    resubmit_loop server fuel self out w = Some (Ok (ticket acc), w')
    /\ between w w'
    /\ filter is_http (trace w')
       = (filter is_http (trace w)
          ++ repeat (EvHttp (submit_request self)) (S (length rs)))%list.
Proof.
  induction rs as [|r rs IH]; intros fuel out w Hout Hrs Hacc Hfuel Hserved.
  - destruct fuel as [|fuel]; [cbn in Hfuel; lia |].
    destruct Hserved as [Hresp _].
    rewrite resubmit_step by done. rewrite Hresp.
    rewrite resubmit_done by done.
    eexists. split; [reflexivity |]. split; [apply between_after |].
    apply http_after.
  - destruct fuel as [|fuel]; [cbn in Hfuel; lia |].
    cbn [app map served] in Hserved. destruct Hserved as [Hresp Hserved].
    apply Forall_cons in Hrs as [Hr Hrs].
    rewrite resubmit_step by done. rewrite Hresp.
    destruct (IH fuel (ticket r) (after (submit_request self) w))
      as (w' & Hrun & Hbetween & Hhttp); try done.
    + cbn [length] in Hfuel. lia.
    + by rewrite http_count_after.
    + exists w'. split; [done |]. split.
      * eapply between_trans; [apply between_after | done].
      * rewrite Hhttp, http_after. by rewrite <- app_assoc.
Qed.

Lemma last_cons_default {A} (a d : A) (l : list A) :
  List.last (a :: l) d = List.last l a.
Proof.
  revert a d. induction l as [|b l IH]; intros a d; [done |].
  change (List.last (a :: b :: l) d) with (List.last (b :: l) d).
  by rewrite (IH b d), (IH b a).
Qed.

(** The second loop, along the answers it gets. *)
Lemma poll_run (self : runner) (idx : json) (polls : list response) :
  forall (fuel : nat) (out : json) (w : world),
  Forall (fun t => has_status t poll_states true
                   /\ Json.getitem t "id" = Ok idx)
    (removelast (out :: map ticket polls)) ->
  has_status (List.last (map ticket polls) out) poll_states false ->
  length polls <= fuel ->
  served server (http_count (trace w))
    (map (pair (status_request repr self idx)) polls) ->
  exists w',
    poll_loop server repr fuel self out w
    = Some (Ok (List.last (map ticket polls) out), w')
    /\ between w w'
    /\ filter is_http (trace w')
       = (filter is_http (trace w)
          ++ repeat (EvHttp (status_request repr self idx)) (length polls))%list.
Proof.
  induction polls as [|p polls IH]; intros fuel out w Hpend Hfin Hfuel Hserved.
  - cbn in Hfin. rewrite poll_done by done.
    eexists. split; [reflexivity |]. split; [apply between_refl |].
    cbn. by rewrite app_nil_r.
  - destruct fuel as [|fuel]; [cbn in Hfuel; lia |].
    cbn [map served] in Hserved. destruct Hserved as [Hresp Hserved].
    change (removelast (out :: map ticket (p :: polls)))
      with (out :: removelast (ticket p :: map ticket polls)) in Hpend.
    apply Forall_cons in Hpend as [[Hout Hid] Hpend].
    cbn [map] in Hfin |- *. rewrite last_cons_default in Hfin |- *.
    rewrite (poll_step _ _ _ idx) by done. rewrite Hresp.
    destruct (IH fuel (ticket p) (after (status_request repr self idx) w))
      as (w' & Hrun & Hbetween & Hhttp); try done.
    + cbn [length] in Hfuel. lia.
    + by rewrite http_count_after.
    + exists w'. split; [done |]. split.
      * eapply between_trans; [apply between_after | done].
      * rewrite Hhttp, http_after. by rewrite <- app_assoc.
Qed.

Lemma pbind_total {A B} (m : M A) (k : A -> P B) (w w' : world) (a : A) :
  m w = (Ok a, w') -> pbind (total m) k w = k a w'.
Proof. unfold pbind, total. by intros ->. Qed.

Lemma pbind_ok {A B} (m : P A) (k : A -> P B) (w w' : world) (a : A) :
  m w = Some (Ok a, w') -> pbind m k w = k a w'.
Proof. unfold pbind. by intros ->. Qed.

Lemma search_unfold (fuel : nat) (self : runner) (w : world) :
  files w !! tarfile self = None ->
  _search_mmseqs2 server repr fuel self w
  = (let+ out := resubmit_loop server fuel self
                   (ticket (server (http_count (trace w)) (submit_request self))) in
     let+ _ := total (let* idx := lift (Json.getitem out "id") in
                      logging DEBUG ("ID: " ++ py_str repr idx)) in
     let+ out := poll_loop server repr fuel self out in
     total (finish server repr self out))
      (set_trace (trace w
                  ++ [EvHttp (submit_request self);
                      EvSleep (5 + (draw (np_random w)).1 mod 5)])
         (set_np_random (draw (np_random w)).2 w)).
Proof.
  intros Hfile. unfold _search_mmseqs2.
  rewrite (pbind_total _ _ w w false).
  2:{ unfold os_path_isfile. rewrite bool_decide_eq_false_2; [done |].
      rewrite Hfile. by intros [? ?]. }
  rewrite (pbind_total _ _ _ _ _ (submit_eq server self w)).
  rewrite (pbind_total _ _ _ _ _ (nap_eq _)).
  cbn [set_trace set_np_random dirs files heap py_random np_random trace].
  by rewrite <- app_assoc.
Qed.

(** The job up to the accepted ticket. *)
Lemma search_submitted (fuel : nat) (self : runner) (w : world)
    (rs : list response) (acc : response) :
  files w !! tarfile self = None ->
  submit_script server self (http_count (trace w)) rs acc ->
  length rs <= fuel ->
  exists w1,
    _search_mmseqs2 server repr fuel self w
    = (let+ _ := total (let* idx := lift (Json.getitem (ticket acc) "id") in
                        logging DEBUG ("ID: " ++ py_str repr idx)) in
       let+ out := poll_loop server repr fuel self (ticket acc) in
       total (finish server repr self out)) w1
    /\ between w w1
    /\ filter is_http (trace w1)
       = (filter is_http (trace w)
          ++ repeat (EvHttp (submit_request self)) (S (length rs)))%list.
Proof.
  intros Hfile (Hrs & Hacc & Hserved) Hfuel.
  rewrite search_unfold by done.
  set (w0 := set_trace _ _).
  assert (Hb0 : between w w0).
  { do 4 (split; [done |]). eexists. split; [reflexivity |].
    constructor; [done |]. constructor; [apply sleep_bounds | constructor]. }
  assert (Hh0 : filter is_http (trace w0)
                = (filter is_http (trace w) ++ [EvHttp (submit_request self)])%list).
  { subst w0. cbn [trace set_trace]. rewrite filter_app.
    rewrite filter_cons_True by done.
    by rewrite filter_cons_False by (simpl; exact id). }
  destruct rs as [|r rs].
  - destruct Hserved as [-> _].
    rewrite (pbind_ok _ _ _ _ _ (resubmit_done _ _ _ _ Hacc)).
    by exists w0.
  - cbn [app map served] in Hserved. destruct Hserved as [-> Hserved].
    apply Forall_cons in Hrs as [Hr Hrs].
    destruct (resubmit_run self rs acc fuel (ticket r) w0)
      as (w1 & Hrun & Hb1 & Hh1); try done.
    + by rewrite (http_count_filter _ _ _ Hh0), Nat.add_1_r.
    + rewrite (pbind_ok _ _ _ _ _ Hrun). exists w1.
      split; [done |]. split; [by eapply between_trans |].
      rewrite Hh1, Hh0. by rewrite <- app_assoc.
Qed.

(** The job up to its last ticket. *)
Lemma search_run (fuel : nat) (self : runner) (w : world)
    (posts polls : list response) (idx fin : json) :
  files w !! tarfile self = None ->
  job_script server repr self (http_count (trace w)) posts polls idx fin ->
  length posts <= S fuel ->
  length polls <= fuel ->
  exists w1,
    _search_mmseqs2 server repr fuel self w
    = Some (finish server repr self fin w1)
    /\ between w w1
    /\ filter is_http (trace w1)
       = (filter is_http (trace w)
          ++ job_requests repr self posts polls idx)%list.
Proof.
  intros Hfile (rs & acc & -> & Hrs & Hacc & Hid & Hpend & -> & Hfin & Hserved)
    Hposts Hpolls.
  rewrite length_app in Hposts. cbn [length] in Hposts.
  apply served_app in Hserved as [Hposted Hpolled].
  rewrite length_map, length_app in Hpolled. cbn [length] in Hpolled.
  destruct (search_submitted fuel self w rs acc) as (w1 & -> & Hb1 & Hh1);
    [done | done | lia |].
  set (w2 := set_trace (trace w1 ++ [EvLog DEBUG ("ID: " ++ py_str repr idx)]) w1).
  rewrite (pbind_total _ _ w1 w2 tt).
  2:{ unfold bind, lift. by rewrite Hid. }
  assert (Hb2 : between w1 w2).
  { do 4 (split; [done |]). eexists. split; [reflexivity |].
    by repeat constructor. }
  assert (Hh2 : filter is_http (trace w2) = filter is_http (trace w1)).
  { subst w2. cbn [trace set_trace]. rewrite filter_app.
    rewrite filter_cons_False by (simpl; exact id).
    by rewrite filter_nil, app_nil_r. }
  destruct (poll_run self idx polls fuel (ticket acc) w2)
    as (w3 & Hrun & Hb3 & Hh3); try done.
  { unfold http_count. rewrite Hh2, Hh1, length_app, repeat_length.
    fold (http_count (trace w)).
    by replace (http_count (trace w) + S (length rs))
      with (http_count (trace w) + (length rs + 1)) by lia. }
  rewrite (pbind_ok _ _ _ _ _ Hrun). exists w3. split; [done |].
  split; [eauto using between_trans |].
  rewrite Hh3, Hh2, Hh1. unfold job_requests.
  rewrite length_app. cbn [length]. rewrite Nat.add_1_r.
  by rewrite <- app_assoc.
Qed.

(** X4.  A job that is accepted, perhaps after some submissions, and whose
    last ticket is COMPLETE: the archive is downloaded once, under the id of
    that ticket, after the POSTs and the polls and nothing else; and a
    second call finds the archive and does nothing. *)
Theorem search_downloads_archive (fuel : nat) (self : runner) (w : world)
    (posts polls : list response) (idx fin idx' : json) :
  files w !! tarfile self = None ->
  job_script server repr self (http_count (trace w)) posts polls idx fin ->
  length posts <= S fuel ->
  length polls <= fuel ->
  Json.getitem fin "status" = Ok (JStr "COMPLETE") ->
  Json.getitem fin "id" = Ok idx' ->
  exists w',
    _search_mmseqs2 server repr fuel self w = Some (Ok tt, w')
    /\ files w'
       = <[ tarfile self :=
              content (server (http_count (trace w) + length posts
                               + length polls)
                         (download_request repr self idx')) ]> (files w)
    /\ dirs w' = dirs w
    /\ filter is_http (trace w')
       = (filter is_http (trace w)
          ++ job_requests repr self posts polls idx
          ++ [EvHttp (download_request repr self idx')])%list
    /\ forall fuel', _search_mmseqs2 server repr fuel' self w' = Some (Ok tt, w').
Proof.
  intros Hfile Hscript Hposts Hpolls Hstatus Hid.
  destruct (search_run fuel self w posts polls idx fin)
    as (w1 & -> & (Hd & Hf & _) & Hh); try done.
  unfold finish. unfold bind at 1, lift at 1. rewrite Hstatus.
  cbn [Json.eq_str String.eqb Ascii.eqb Bool.eqb].
  unfold bind at 1, lift at 1. rewrite Hid. rewrite download_eq.
  eexists. split; [reflexivity |].
  cbn [files dirs trace set_files set_trace].
  rewrite (http_count_filter _ _ _ Hh). unfold job_requests at 1.
  rewrite length_app, !repeat_length, Nat.add_assoc.
  split; [by rewrite Hf |]. split; [done |]. split.
  - by rewrite filter_app, Hh, filter_cons_True, <- app_assoc.
  - intros fuel'. unfold _search_mmseqs2, pbind, total, os_path_isfile.
    rewrite bool_decide_eq_true_2; [done |].
    cbn [files set_files]. by rewrite lookup_insert_eq.
Qed.

(** X5.  The same job when its last ticket is ERROR: [RuntimeError] with the
    advice to the user, and no archive. *)
Theorem search_error_raises (fuel : nat) (self : runner) (w : world)
    (posts polls : list response) (idx fin : json) :
  files w !! tarfile self = None ->
  job_script server repr self (http_count (trace w)) posts polls idx fin ->
  length posts <= S fuel ->
  length polls <= fuel ->
  Json.getitem fin "status" = Ok (JStr "ERROR") ->
  exists w',
    _search_mmseqs2 server repr fuel self w
    = Some (Raise (RuntimeError api_error), w')
    /\ files w' = files w
    /\ filter is_http (trace w')
       = (filter is_http (trace w)
          ++ job_requests repr self posts polls idx)%list.
Proof.
  intros Hfile Hscript Hposts Hpolls Hstatus.
  destruct (search_run fuel self w posts polls idx fin)
    as (w1 & -> & (Hd & Hf & _) & Hh); try done.
  unfold finish, bind, lift, raise. rewrite Hstatus.
  cbn [Json.eq_str String.eqb Ascii.eqb Bool.eqb]. by exists w1.
Qed.

(** X6.  The same job when its last ticket has a status that is none of the
    known ones: the call returns normally, without an archive. *)
Theorem search_unknown_status_returns (fuel : nat) (self : runner)
    (w : world) (posts polls : list response) (idx fin s : json) :
  files w !! tarfile self = None ->
  job_script server repr self (http_count (trace w)) posts polls idx fin ->
  length posts <= S fuel ->
  length polls <= fuel ->
  Json.getitem fin "status" = Ok s ->
  Json.eq_str s "COMPLETE" = false ->
  Json.eq_str s "ERROR" = false ->
  exists w',
    _search_mmseqs2 server repr fuel self w = Some (Ok tt, w')
    /\ files w' !! tarfile self = None
    /\ filter is_http (trace w')
       = (filter is_http (trace w)
          ++ job_requests repr self posts polls idx)%list.
Proof.
  intros Hfile Hscript Hposts Hpolls Hstatus Hc He.
  destruct (search_run fuel self w posts polls idx fin)
    as (w1 & -> & (Hd & Hf & _) & Hh); try done.
  unfold finish, bind, lift, ret. rewrite Hstatus, Hc, He.
  exists w1. by rewrite Hf.
Qed.

(** X7.  An accepted ticket without an ["id"] ends the job with [KeyError],
    whatever its status, before any poll. *)
Theorem search_ticket_without_id (fuel : nat) (self : runner) (w : world)
    (rs : list response) (acc : response) :
  files w !! tarfile self = None ->
  submit_script server self (http_count (trace w)) rs acc ->
  length rs <= fuel ->
  Json.getitem (ticket acc) "id" = Raise (KeyError "id") ->
  exists w',
    _search_mmseqs2 server repr fuel self w = Some (Raise (KeyError "id"), w')
    /\ files w' = files w
    /\ filter is_http (trace w')
       = (filter is_http (trace w)
          ++ repeat (EvHttp (submit_request self)) (S (length rs)))%list.
Proof.
  intros Hfile Hscript Hfuel Hid.
  destruct (search_submitted fuel self w rs acc)
    as (w1 & -> & (Hd & Hf & _) & Hh); try done.
  unfold pbind, total, bind, lift. rewrite Hid. by exists w1.
Qed.

(** *** What the job leaves alone *)

Lemma pbind_inv {A B} (m : P A) (k : A -> P B) (w w' : world) (r : res B) :
  pbind m k w = Some (r, w') ->
  (exists e, m w = Some (Raise e, w') /\ r = Raise e)
  \/ exists a w1, m w = Some (Ok a, w1) /\ k a w1 = Some (r, w').
Proof.
  unfold pbind. destruct (m w) as [[[a|e] w1]|]; intros H.
  - right. eauto.
  - left. injection H as <- <-. eauto.
  - done.
Qed.

Lemma status_in_run (out : json) (l : list string) (w : world) :
  status_in out l w
  = (match Json.getitem out "status" with
     | Ok s => Ok (Json.in_strs s l)
     | Raise e => Raise e
     end, w).
Proof. unfold status_in, bind, lift, ret. by destruct (Json.getitem _ _). Qed.

Lemma between_event (e : event) (w : world) :
  search_event e -> between w (set_trace (trace w ++ [e]) w).
Proof.
  intros He. do 4 (split; [done |]). exists [e]. split; [done |].
  by constructor.
Qed.

Lemma between_frame (self : runner) (w w' : world) :
  between w w' -> search_frame self w w'.
Proof.
  intros (Hd & Hf & Hh & Hr & Ht). do 3 (split; [done |]).
  split; [| done]. intros p _. by rewrite Hf.
Qed.

Lemma resubmit_between (self : runner) (fuel : nat) :
  forall (out : json) (w w' : world) (r : res json),
  resubmit_loop server fuel self out w = Some (r, w') -> between w w'.
Proof.
  induction fuel as [|fuel IH]; intros out w w' r; cbn [resubmit_loop];
    unfold pbind at 1, total at 1; rewrite status_in_run;
    destruct (Json.getitem out "status") as [s|e];
    try (intros [= <- <-]; apply between_refl);
    destruct (Json.in_strs s _);
    try (intros [= <- <-]; apply between_refl); try done.
  unfold pbind at 1, total at 1. rewrite nap_submit. intros H.
  eapply between_trans; [apply between_after | eapply IH, H].
Qed.

Lemma poll_between (self : runner) (fuel : nat) :
  forall (out : json) (w w' : world) (r : res json),
  poll_loop server repr fuel self out w = Some (r, w') -> between w w'.
Proof.
  induction fuel as [|fuel IH]; intros out w w' r; cbn [poll_loop];
    unfold pbind at 1, total at 1; rewrite status_in_run;
    destruct (Json.getitem out "status") as [s|e];
    try (intros [= <- <-]; apply between_refl);
    destruct (Json.in_strs s _);
    try (intros [= <- <-]; apply between_refl); try done.
  unfold pbind at 1, total at 1.
  destruct (Json.getitem out "id") as [idx|e] eqn:Hid.
  - pose proof (nap_status self out idx w Hid) as Hnap.
    rewrite Hid in Hnap. rewrite Hnap. intros H.
    eapply between_trans; [apply between_after | eapply IH, H].
  - rewrite nap_then. unfold bind at 1, lift.
    intros [= <- <-].
    do 4 (split; [done |]). eexists. split; [reflexivity |].
    constructor; [apply sleep_bounds | done].
Qed.

Lemma finish_frame (self : runner) (out : json) (w w' : world)
    (r : res unit) :
  finish server repr self out w = (r, w') -> search_frame self w w'.
Proof.
  unfold finish. unfold bind at 1, lift at 1.
  destruct (Json.getitem out "status") as [s|e] eqn:Hs.
  2:{ intros [= <- <-]. apply between_frame, between_refl. }
  destruct (Json.eq_str s "COMPLETE").
  - unfold bind at 1, lift at 1.
    destruct (Json.getitem out "id") as [idx|e].
    2:{ intros [= <- <-]. apply between_frame, between_refl. }
    rewrite download_eq. intros [= <- <-].
    do 3 (split; [done |]). split.
    + intros p Hp. cbn [files set_files set_trace].
      by rewrite lookup_insert_ne.
    + eexists. split; [reflexivity |]. by constructor.
  - unfold bind at 1, lift at 1.
    destruct (Json.eq_str s "ERROR"); intros [= <- <-];
      apply between_frame, between_refl.
Qed.

Lemma frame_trans (self : runner) (w1 w2 w3 : world) :
  between w1 w2 -> search_frame self w2 w3 -> search_frame self w1 w3.
Proof.
  intros (Hd & Hf & Hh & Hr & t & Ht & HF)
         (Hd' & Hh' & Hr' & Hf' & t' & Ht' & HF').
  do 3 (split; [congruence |]). split.
  - intros p Hp. by rewrite Hf', Hf.
  - exists (t ++ t')%list. split.
    + by rewrite Ht', Ht, app_assoc.
    + by apply Forall_app.
Qed.

(** X8.  Whatever the server answers and however the job ends, it leaves the
    directories, every file but the archive, the lists and the state of
    [random] as they were, and adds to the trace only requests, sleeps of
    five to nine seconds and the debug record of the ticket. *)
Theorem search_leaves_the_rest (fuel : nat) (self : runner) (w w' : world)
    (r : res unit) :
  _search_mmseqs2 server repr fuel self w = Some (r, w') ->
  search_frame self w w'.
Proof.
  destruct (files w !! tarfile self) as [c|] eqn:Hfile.
  - unfold _search_mmseqs2, pbind, total, os_path_isfile.
    rewrite bool_decide_eq_true_2 by (by rewrite Hfile).
    intros [= <- <-]. apply between_frame, between_refl.
  - rewrite search_unfold by done. intros H.
    set (w0 := set_trace _ _) in H.
    apply (frame_trans self w w0).
    { do 4 (split; [done |]). eexists. split; [reflexivity |].
      constructor; [done |]. constructor; [apply sleep_bounds | done]. }
    apply pbind_inv in H as [(e & H & _)|(out & w1 & H1 & H)].
    { apply between_frame. eapply resubmit_between, H. }
    eapply frame_trans; [eapply resubmit_between, H1 |].
    apply pbind_inv in H as [(e & H & _)|([] & w2 & H2 & H)].
    { apply between_frame. unfold total, bind, lift in H.
      destruct (Json.getitem out "id"); [done |].
      injection H as _ <-. apply between_refl. }
    apply (frame_trans self w1 w2).
    { unfold total, bind, lift in H2.
      destruct (Json.getitem out "id"); [| done].
      injection H2 as <-. by apply between_event. }
    apply pbind_inv in H as [(e & H & _)|(fin & w3 & H3 & H)].
    { apply between_frame. eapply poll_between, H. }
    eapply frame_trans; [eapply poll_between, H3 |].
    injection H as H. eapply finish_frame, H.
Qed.

(** *** A job that never finishes *)

Lemma poll_loop_pending (self : runner) (idx : json) :
  (forall n, has_status (ticket (server n (status_request repr self idx)))
               poll_states true
             /\ Json.getitem (ticket (server n (status_request repr self idx)))
                  "id" = Ok idx) ->
  forall (fuel : nat) (out : json) (w : world),
  has_status out poll_states true ->
  Json.getitem out "id" = Ok idx ->
  poll_loop server repr fuel self out w = None.
Proof.
  intros Hserver. induction fuel as [|fuel IH]; intros out w Hout Hid.
  - cbn [poll_loop]. unfold pbind, total. fold poll_states.
    by rewrite (status_in_eq _ _ _ _ Hout).
  - rewrite (poll_step _ _ _ idx) by done.
    by apply IH; apply Hserver.
Qed.

(** X26.  The job has no time limit: when the job is accepted and the server
    keeps answering the polls with a ticket that is pending, the search goes
    round the second loop more often than any given number of times. *)
Theorem search_polls_forever (self : runner) (w : world) (idx : json) :
  let accepted := ticket (server (http_count (trace w)) (submit_request self)) in
  files w !! tarfile self = None ->
  has_status accepted retry_states false ->
  has_status accepted poll_states true ->
  Json.getitem accepted "id" = Ok idx ->
  (forall n, has_status (ticket (server n (status_request repr self idx)))
               poll_states true
             /\ Json.getitem (ticket (server n (status_request repr self idx)))
                  "id" = Ok idx) ->
  forall fuel, _search_mmseqs2 server repr fuel self w = None.
Proof.
  intros accepted Hfile Hretry Hpoll Hid Hserver fuel.
  rewrite search_unfold by done. fold accepted.
  erewrite pbind_ok; [| by apply resubmit_done].
  erewrite pbind_total;
    [| unfold bind, lift; rewrite Hid; reflexivity].
  unfold pbind at 1.
  by rewrite (poll_loop_pending self idx Hserver).
Qed.

End Lifecycle.

(** *** Jobs to run *)

Lemma search_downloads_archive_witness :
  exists w',
    _search_mmseqs2 (scripted_server complete_job) no_repr 2
      (demo_runner 20 false) (demo_world [] []) = Some (Ok tt, w')
    /\ files w' !! "job_1a2b3_env/out.tar.gz" = Some "archive"
    /\ http_count (trace w') = 5.
Proof.
  destruct (search_downloads_archive (scripted_server complete_job) no_repr
              2 (demo_runner 20 false) (demo_world [] [])
              [ticket_response "RATELIMIT"; ticket_response "PENDING"]
              [ticket_response "RUNNING"; ticket_response "COMPLETE"]
              (JStr "T1") (ticket (ticket_response "COMPLETE")) (JStr "T1"))
    as (w' & Hrun & Hfiles & _ & Hhttp & _).
  - reflexivity.
  - exists [ticket_response "RATELIMIT"], (ticket_response "PENDING").
    split; [reflexivity |].
    split; [repeat constructor; by eexists |].
    split; [by eexists |]. split; [reflexivity |].
    split; [repeat constructor; by eexists |].
    split; [reflexivity |]. split; [by eexists |]. by repeat split.
  - cbn. lia.
  - cbn. lia.
  - reflexivity.
  - reflexivity.
  - exists w'. split; [exact Hrun |]. split.
    + rewrite Hfiles. apply lookup_insert_eq.
    + unfold http_count. rewrite Hhttp. reflexivity.
Defined.

Lemma search_error_raises_witness :
  exists w',
    _search_mmseqs2 (scripted_server failed_job) no_repr 1
      (demo_runner 20 false) (demo_world [] [])
    = Some (Raise (RuntimeError api_error), w')
    /\ files w' = files (demo_world [] []).
Proof.
  destruct (search_error_raises (scripted_server failed_job) no_repr
              1 (demo_runner 20 false) (demo_world [] [])
              [ticket_response "PENDING"] [ticket_response "ERROR"]
              (JStr "T1") (ticket (ticket_response "ERROR")))
    as (w' & Hrun & Hfiles & _).
  - reflexivity.
  - exists [], (ticket_response "PENDING").
    split; [reflexivity |]. split; [constructor |].
    split; [by eexists |]. split; [reflexivity |].
    split; [repeat constructor; by eexists |].
    split; [reflexivity |]. split; [by eexists |]. by repeat split.
  - cbn. lia.
  - cbn. lia.
  - reflexivity.
  - by exists w'.
Defined.

Lemma search_unknown_status_returns_witness :
  exists w',
    _search_mmseqs2 (scripted_server maintenance) no_repr 0
      (demo_runner 20 false) (demo_world [] []) = Some (Ok tt, w')
    /\ files w' !! "job_1a2b3_env/out.tar.gz" = None.
Proof.
  destruct (search_unknown_status_returns (scripted_server maintenance)
              no_repr 0 (demo_runner 20 false) (demo_world [] [])
              [ticket_response "MAINTENANCE"] []
              (JStr "T1") (ticket (ticket_response "MAINTENANCE"))
              (JStr "MAINTENANCE"))
    as (w' & Hrun & Hfiles & _).
  - reflexivity.
  - exists [], (ticket_response "MAINTENANCE").
    split; [reflexivity |]. split; [constructor |].
    split; [by eexists |]. split; [reflexivity |].
    split; [constructor |].
    split; [reflexivity |]. split; [by eexists |]. by repeat split.
  - cbn. lia.
  - cbn. lia.
  - reflexivity.
  - reflexivity.
  - reflexivity.
  - by exists w'.
Defined.

Lemma search_ticket_without_id_witness :
  exists w',
    _search_mmseqs2 (scripted_server [anonymous_ticket]) no_repr 0
      (demo_runner 20 false) (demo_world [] [])
    = Some (Raise (KeyError "id"), w')
    /\ http_count (trace w') = 1.
Proof.
  destruct (search_ticket_without_id (scripted_server [anonymous_ticket])
              no_repr 0 (demo_runner 20 false) (demo_world [] [])
              [] anonymous_ticket)
    as (w' & Hrun & _ & Hhttp).
  - reflexivity.
  - split; [constructor |]. split; [by eexists |]. by repeat split.
  - cbn. lia.
  - reflexivity.
  - exists w'. split; [exact Hrun |].
    unfold http_count. rewrite Hhttp. reflexivity.
Defined.

Lemma search_polls_forever_witness :
  _search_mmseqs2 busy_server no_repr 1000 (demo_runner 20 false)
    (demo_world [] []) = None.
Proof.
  refine (search_polls_forever busy_server no_repr (demo_runner 20 false)
            (demo_world [] []) (JStr "T1") _ _ _ _ _ 1000).
  - reflexivity.
  - by eexists.
  - by eexists.
  - reflexivity.
  - intros n. split; [by eexists | reflexivity].
Defined.

Lemma search_leaves_the_rest_witness :
  search_frame (demo_runner 20 false) (demo_world [] [])
    (run_world (_search_mmseqs2 bad_gateway_server no_repr 2
                  (demo_runner 20 false))
               (demo_world [] [])).
Proof.
  apply (search_leaves_the_rest bad_gateway_server no_repr 2
           (demo_runner 20 false) (demo_world [] []) _
           (Raise (KeyError "id"))).
  vm_compute. reflexivity.
Defined.

(** ** What the loop selects *)

Section Choice.

Variable server : nat -> request -> response.
Variable float_of_str : string -> option float.
Variable repr : json -> string.

Lemma literal_branch_outcome (sl : list string) (st st' : selection)
    (w w' : world) :
  literal_branch sl st w = (Ok st', w') ->
  exists x, list_item sl 1 = Ok x /\ st' = ((st.1 ++ [x])%list, st.2).
Proof.
  unfold literal_branch. intros H. inv_bind H.
  apply lift_inv_ok in Hrun as [Hx ->].
  do 5 inv_bind H. injection H as <- _. eauto.
Qed.

Lemma process_line_outcome (templates : list pyval) (tu : list string)
    (line : string) (st st' : selection) (w w' : world) :
  process_line server float_of_str repr templates tu line st w = (Ok st', w') ->
  exists pdb new,
    target line = Ok pdb /\ st'.1 = (st.1 ++ new)%list /\ Forall (eq pdb) new.
Proof.
  intros H. unfold process_line in H.
  inv_bind H. rename a into pdb.
  apply lift_inv_ok in Hrun as [Hpdb ->]. fold (target line) in Hpdb.
  exists pdb.
  destruct templates as [|t0 rest].
  { injection H as <- _. exists []. by rewrite app_nil_r. }
  inv_bind H. rename a into st1.
  assert (H1 : exists n1, st1.1 = (st.1 ++ n1)%list /\ Forall (eq pdb) n1).
  { destruct (pyval_in_strs t0 activation_states && _ && _).
    - apply activation_branch_outcome in Hrun as [-> | ->].
      + exists []. by rewrite app_nil_r.
      + exists [pdb]. by repeat constructor.
    - injection Hrun as <- _. exists []. by rewrite app_nil_r. }
  destruct H1 as (n1 & Hn1 & HF1).
  assert (H2 : exists n2, st'.1 = (st1.1 ++ n2)%list /\ Forall (eq pdb) n2).
  { destruct ((pyval_len t0 =? 3)%nat && _ && _).
    - apply conformation_branch_outcome in H as [-> | ->].
      + exists []. by rewrite app_nil_r.
      + exists [pdb]. by repeat constructor.
    - destruct (bool_decide (PStr pdb ∈ t0 :: rest)).
      + apply literal_branch_outcome in H as (x & Hx & ->).
        fold (target line) in Hx. exists [pdb].
        split; [cbn; congruence | by repeat constructor].
      + injection H as <- _. exists []. by rewrite app_nil_r. }
  destruct H2 as (n2 & Hn2 & HF2).
  exists (n1 ++ n2)%list. split; [done |]. split.
  - by rewrite Hn2, Hn1, app_assoc.
  - by apply Forall_app.
Qed.

Lemma targets_cons (line : string) (lines : list string) (pdb : string) :
  target line = Ok pdb -> targets (line :: lines) = pdb :: targets lines.
Proof. unfold targets. simpl. by intros ->. Qed.

(** X9.  Whatever the criteria and whatever the services answer, the loop
    only ever adds targets of the table's rows to the candidate list, each
    after those of the rows before it. *)
Theorem selection_from_table (templates : list pyval) (tu : list string)
    (lines : list string) (st st' : selection) (w w' : world) :
  process_lines server float_of_str repr templates tu lines st w
  = (Ok st', w') ->
  exists new,
    st'.1 = (st.1 ++ new)%list
    /\ Forall (fun pdb => pdb ∈ targets lines) new.
Proof.
  revert st w. induction lines as [|line lines IH]; intros st w H.
  - injection H as <- _. exists []. by rewrite app_nil_r.
  - cbn [process_lines] in H. inv_bind H.
    apply process_line_outcome in Hrun as (pdb & n1 & Hpdb & Hn1 & HF1).
    apply IH in H as (n2 & Hn2 & HF2).
    exists (n1 ++ n2)%list. split; [by rewrite Hn2, Hn1, app_assoc |].
    rewrite (targets_cons _ _ _ Hpdb). apply Forall_app. split.
    + eapply Forall_impl; [exact HF1 |]. intros ? <-. apply list_elem_of_here.
    + eapply Forall_impl; [exact HF2 |]. intros ? ?.
      by apply list_elem_of_further.
Qed.

(** *** A list of codes *)

Lemma logged_refl (w : world) : logged w w.
Proof. exists []. destruct w. cbn. by rewrite app_nil_r. Qed.

Lemma logged_trans (w1 w2 w3 : world) :
  logged w1 w2 -> logged w2 w3 -> logged w1 w3.
Proof.
  intros [m1 ->] [m2 ->]. exists (m1 ++ m2)%list.
  cbn [trace set_trace]. by rewrite map_app, app_assoc.
Qed.

Lemma literal_branch_run (sl : list string) (x : string) (st : selection)
    (w : world) :
  list_item sl 1 = Ok x ->
  11 <= length sl ->
  exists w',
    literal_branch sl st w = (Ok ((st.1 ++ [x])%list, st.2), w')
    /\ logged w w'.
Proof.
  intros Hx Hlen.
  destruct (lookup_lt_is_Some_2 sl 0) as [c0 H0]; [lia |].
  destruct (lookup_lt_is_Some_2 sl 2) as [c2 H2]; [lia |].
  destruct (lookup_lt_is_Some_2 sl 10) as [c10 H10]; [lia |].
  unfold literal_branch. rewrite Hx. unfold list_item, bind, lift, logging, emit.
  rewrite H0, H2, H10. eexists. split; [reflexivity |]. by eexists [_].
Qed.

(** The loop body when the first entry is neither an activation state nor
    of length three. *)
Lemma process_line_literal (t0 : pyval) (rest : list pyval)
    (tu : list string) (line : string) (st : selection) (w : world) :
  pyval_in_strs t0 activation_states = false ->
  pyval_len t0 <> 3 ->
  full_row line ->
  exists pdb w',
    target line = Ok pdb
    /\ process_line server float_of_str repr (t0 :: rest) tu line st w
       = (Ok ((st.1 ++ (if bool_decide (PStr pdb ∈ t0 :: rest)
                        then [pdb] else []))%list, st.2), w')
    /\ logged w w'.
Proof.
  intros Hstr Hlen Hrow.
  destruct (full_row_target line Hrow) as [pdb Hpdb]. exists pdb.
  unfold process_line.
  change (list_item (PyStr.split_ws (PyStr.rstrip line)) 1) with (target line).
  rewrite Hpdb. step. rewrite Hstr. cbn [andb]. step.
  apply Nat.eqb_neq in Hlen. rewrite Hlen. cbn [andb].
  destruct (bool_decide (PStr pdb ∈ t0 :: rest)).
  - destruct (literal_branch_run _ pdb st w Hpdb Hrow) as (w' & Hrun & Hlog).
    by exists w'.
  - exists w. split; [done |]. split; [| apply logged_refl].
    rewrite app_nil_r. by destruct st.
Qed.

(** X11.  When the first entry of the caller's list is neither an activation
    state nor of length three, the loop selects exactly the targets of the
    table that the list names verbatim, in the order of the table and as
    often as they occur there; it asks no service and changes nothing but
    the log. *)
Theorem literal_selection (t0 : pyval) (rest : list pyval) (tu : list string)
    (lines : list string) (st : selection) (w : world) :
  pyval_in_strs t0 activation_states = false ->
  pyval_len t0 <> 3 ->
  Forall full_row lines ->
  exists w',
    process_lines server float_of_str repr (t0 :: rest) tu lines st w
    = (Ok ((st.1 ++ filter (fun pdb => PStr pdb ∈ t0 :: rest)
                      (targets lines))%list, st.2), w')
    /\ logged w w'.
Proof.
  intros Hstr Hlen Hrows. revert st w.
  induction Hrows as [|line lines Hrow _ IH]; intros st w.
  - exists w. split; [| apply logged_refl].
    cbn. rewrite app_nil_r. by destruct st.
  - destruct (process_line_literal t0 rest tu line st w)
      as (pdb & w1 & Hpdb & Hrun & Hlog1); try done.
    destruct (IH ((st.1 ++ (if bool_decide (PStr pdb ∈ t0 :: rest)
                            then [pdb] else []))%list, st.2) w1)
      as (w' & Hrest & Hlog2).
    exists w'. split; [| by eapply logged_trans].
    cbn [process_lines]. rewrite (bind_ok _ _ _ _ _ Hrun), Hrest.
    rewrite (targets_cons _ _ _ Hpdb). cbn [fst snd].
    case_bool_decide.
    + rewrite filter_cons_True by done. by rewrite <- app_assoc.
    + rewrite filter_cons_False by done. by rewrite app_nil_r.
Qed.

(** *** An activation state *)

Lemma activation_state_length (state : string) :
  state ∈ activation_states -> (String.length state =? 3)%nat = false.
Proof.
  unfold activation_states. intros H.
  repeat (apply elem_of_cons in H as [-> | H]; [reflexivity |]).
  by apply elem_of_nil in H.
Qed.

Lemma getitem_dict (rj : json) (k : string) (v : json) :
  Json.getitem rj k = Ok v ->
  Json.is_dict rj = true /\ Json.has_key k rj = Ok true.
Proof.
  destruct rj; try done. cbn. destruct (Json.dict_get k d) eqn:Hk; [| done].
  intros _. split; [done |]. by rewrite bool_decide_eq_true_2.
Qed.

Lemma activation_branch_eq (state pdb pdbid : string) (st : selection)
    (w : world) (rj s : json) (ty : option json) :
  json_body (server (http_count (trace w))
               (GET ("http://gpcrdb.org/services/structure/" ++ pdbid)))
  = Some rj ->
  Json.getitem rj "state" = Ok s ->
  signalling rj ty ->
  activation_branch server state pdb pdbid st w
  = (Ok (if state_match state s ty then accept pdb pdbid st else st),
     set_trace
       (trace w
        ++ [EvHttp (GET ("http://gpcrdb.org/services/structure/" ++ pdbid))])
       w).
Proof.
  intros Hbody Hs Hsig.
  destruct (getitem_dict _ _ _ Hs) as [Hdict _].
  unfold activation_branch, state_match.
  step. unfold res_json at 1. rewrite Hbody. step. rewrite Hdict.
  step_by ltac:(unfold and_then, bind, lift, ret; rewrite Hs; reflexivity).
  destruct (Json.eq_str s state); [reflexivity |].
  cbn [orb].
  destruct ty as [t|]; cbn [signalling] in Hsig.
  - destruct Hsig as (sp & Hsp & Ht).
    destruct (getitem_dict _ _ _ Hsp) as [_ Hkey].
    step_by ltac:(unfold and_then, bind, lift, ret; rewrite Hkey; reflexivity).
    rewrite Hsp. step. rewrite Ht. step.
    by destruct (Json.eq_str t state).
  - by step_by ltac:(unfold and_then, bind, lift, ret; rewrite Hsig;
                     reflexivity).
Qed.

(** X12.  An activation state as the first entry, and a row that is asked
    about (its PDB id neither accepted already nor among the caller's
    entries in any letter case, its target not among them verbatim): GPCRdb
    is asked once, and the row is accepted exactly when the record's state,
    or the type of its signalling protein, is the state asked for. *)
Theorem activation_accept_rule (state : string) (rest : list pyval)
    (line pdb : string) (st : selection) (w : world) (rj s : json)
    (ty : option json) :
  let templates := PStr state :: rest in
  state ∈ activation_states ->
  target line = Ok pdb ->
  pdb_id pdb ∉ st.2 ->
  pdb_id pdb ∉ upper_strs templates ->
  PStr pdb ∉ templates ->
  json_body (server (http_count (trace w))
               (GET ("http://gpcrdb.org/services/structure/" ++ pdb_id pdb)))
  = Some rj ->
  Json.getitem rj "state" = Ok s ->
  signalling rj ty ->
  exists w',
    process_line server float_of_str repr templates (upper_strs templates)
      line st w
    = (Ok (if state_match state s ty then accept pdb (pdb_id pdb) st else st),
       w')
    /\ http_count (trace w') = S (http_count (trace w))
    /\ files w' = files w.
Proof.
  intros templates Hstate Hpdb Hdup Hexcl Hlit Hbody Hs Hsig.
  subst templates. unfold process_line.
  change (list_item (PyStr.split_ws (PyStr.rstrip line)) 1) with (target line).
  rewrite Hpdb. step.
  cbn [pyval_in_strs pyval_len pyval_str].
  rewrite (bool_decide_eq_true_2 _ Hstate), (bool_decide_eq_false_2 _ Hdup),
    (bool_decide_eq_false_2 _ Hexcl).
  cbn [andb negb].
  rewrite (bind_ok _ _ _ _ _
             (activation_branch_eq state pdb (pdb_id pdb) st w rj s ty
                Hbody Hs Hsig)).
  rewrite (activation_state_length _ Hstate). cbn [andb].
  rewrite (bool_decide_eq_false_2 _ Hlit).
  eexists. split; [reflexivity |]. split; [| done].
  cbn [trace set_trace]. apply http_count_request.
Qed.

(** X13.  With an activation state as the first entry, the other entries
    exclude: as long as no row has its target among them verbatim, no
    selected code has a PDB id that is, in any letter case, an entry of the
    list. *)
Theorem activation_excludes_listed (state : string) (rest : list pyval)
    (lines : list string) (st st' : selection) (w w' : world) :
  let templates := PStr state :: rest in
  state ∈ activation_states ->
  Forall (unlisted templates) lines ->
  Forall (fun pdb => pdb_id pdb ∉ upper_strs templates) st.1 ->
  process_lines server float_of_str repr templates (upper_strs templates)
    lines st w = (Ok st', w') ->
  Forall (fun pdb => pdb_id pdb ∉ upper_strs templates) st'.1.
Proof.
  intros templates Hstate Hlines. revert st w.
  induction Hlines as [|line lines Hline _ IH]; intros st w Hinv H.
  - by injection H as <- _.
  - cbn [process_lines] in H. inv_bind H. rename a into st2.
    eapply IH; [| exact H]. clear H IH.
    unfold process_line in Hrun. inv_bind Hrun. rename a into pdb.
    apply lift_inv_ok in Hrun0 as [Hpdb ->]. fold (target line) in Hpdb.
    subst templates. inv_bind Hrun. rename a into st1.
    assert (Hinv1 : Forall (fun pdb => pdb_id pdb ∉ upper_strs (PStr state :: rest))
                      st1.1).
    { destruct (pyval_in_strs (PStr state) activation_states
                && negb (bool_decide (pdb_id pdb ∈ st.2))
                && negb (bool_decide
                           (pdb_id pdb ∈ upper_strs (PStr state :: rest))))
        eqn:Hc.
      - apply andb_true_iff in Hc as [_ Hc].
        apply negb_true_iff, bool_decide_eq_false in Hc.
        apply activation_branch_outcome in Hrun0 as [-> | ->]; [done |].
        cbn [accept fst]. apply Forall_app. split; [done |].
        by repeat constructor.
      - by injection Hrun0 as <- _. }
    cbn [pyval_len] in Hrun. rewrite (activation_state_length _ Hstate) in Hrun.
    cbn [andb] in Hrun.
    rewrite bool_decide_eq_false_2 in Hrun by (by apply Hline).
    by injection Hrun as <- _.
Qed.

(** *** A conformation that KLIFS does not know *)

(** X16.  A PDB id that KLIFS does not know, its answer starting with 400,
    costs one request and leaves the selection as it is. *)
Theorem klifs_unknown_skipped (dfg ac_helix salt_bridge : string)
    (rest : list pyval) (tu : list string) (line pdb : string)
    (st : selection) (w : world) (rj rj0 : json) :
  let templates := PTuple [dfg; ac_helix; salt_bridge] :: rest in
  criteria_error dfg ac_helix salt_bridge = None ->
  target line = Ok pdb ->
  pdb_id pdb ∉ st.2 ->
  PStr (pdb_id pdb) ∉ templates ->
  json_body (server (http_count (trace w))
               (GET ("https://klifs.net/api_v2/structures_pdb_list?pdb-codes="
                     ++ pdb_id pdb))) = Some rj ->
  Json.first rj = Ok rj0 ->
  Json.ne_400 rj0 = false ->
  exists w',
    process_line server float_of_str repr templates tu line st w = (Ok st, w')
    /\ http_count (trace w') = S (http_count (trace w))
    /\ files w' = files w.
Proof.
  intros templates Hvalid Hpdb Hdup Hlit Hbody Hfirst H400. subst templates.
  rewrite (process_line_conformation _ _ _ _ _ _ _ pdb) by done.
  unfold conformation_branch.
  step_by ltac:(rewrite check_criteria_eq, Hvalid; reflexivity).
  cbv beta iota.
  step. unfold res_json at 1. cbn [trace set_trace]. rewrite Hbody.
  step. rewrite Hfirst. step. rewrite H400.
  eexists. split; [reflexivity |]. split; [| done].
  cbn [trace set_trace]. apply http_count_request.
Qed.

End Choice.

(** *** Tables to select from *)

(** The G-protein filter with one excluded id, on a table of five rows. *)
Lemma selection_from_table_witness :
  exists new,
    ["1abc_A"; "3def_C"] = ([] ++ new)%list
    /\ Forall (fun pdb =>
                 pdb ∈ targets (file_lines
                                  (m8_table ["1abc_A"; "1abc_B"; "2xyz_A";
                                             "3def_C"; "4ghi_A"]))) new.
Proof.
  pose (templates := [PStr "G protein"; PStr "4GHI"]).
  pose (lines := file_lines
                   (m8_table ["1abc_A"; "1abc_B"; "2xyz_A"; "3def_C"; "4ghi_A"])).
  pose (run := process_lines gpcrdb_demo_server no_float no_repr templates
                 (upper_strs templates) lines ([], [])
                 (table_world EmptyString)).
  refine (selection_from_table gpcrdb_demo_server no_float no_repr
            templates (upper_strs templates) lines ([], [])
            (["1abc_A"; "3def_C"], ["1ABC"; "3DEF"])
            (table_world EmptyString) run.2 _).
  vm_compute. reflexivity.
Defined.

(** Two codes listed, on a table of three rows. *)
Lemma literal_selection_witness :
  exists w',
    process_lines silent_server no_float no_repr
      [PStr "1abc_A"; PStr "3def_C"] []
      (file_lines (m8_table ["1abc_A"; "2xyz_B"; "3def_C"])) ([], [])
      (table_world EmptyString)
    = (Ok (["1abc_A"; "3def_C"], []), w')
    /\ logged (table_world EmptyString) w'.
Proof.
  destruct (literal_selection silent_server no_float no_repr
              (PStr "1abc_A") [PStr "3def_C"] []
              (file_lines (m8_table ["1abc_A"; "2xyz_B"; "3def_C"])) ([], [])
              (table_world EmptyString))
    as (w' & Hrun & Hlog).
  - reflexivity.
  - vm_compute. lia.
  - apply (bool_decide_unpack _). vm_compute. exact I.
  - exists w'. split; [exact Hrun | exact Hlog].
Defined.

(** The coupled structure of [gpcrdb_demo_server], asked for by the type
    of its signalling protein. *)
Lemma activation_accept_rule_witness :
  exists w',
    process_line gpcrdb_demo_server no_float no_repr [PStr "G protein"]
      (upper_strs [PStr "G protein"]) (m8_row "1abc_A") ([], [])
      (table_world EmptyString)
    = (Ok (["1abc_A"], ["1ABC"]), w')
    /\ http_count (trace w') = 1
    /\ files w' = files (table_world EmptyString).
Proof.
  refine (activation_accept_rule gpcrdb_demo_server no_float no_repr
            "G protein" [] (m8_row "1abc_A") "1abc_A" ([], [])
            (table_world EmptyString)
            (JDict [("state", JStr "Active");
                    ("signalling_protein", JDict [("type", JStr "G protein")])])
            (JStr "Active") (Some (JStr "G protein")) _ _ _ _ _ _ _ _).
  - apply (bool_decide_unpack _). vm_compute. exact I.
  - vm_compute. reflexivity.
  - apply (bool_decide_unpack _). vm_compute. exact I.
  - apply (bool_decide_unpack _). vm_compute. exact I.
  - apply (bool_decide_unpack _). vm_compute. exact I.
  - vm_compute. reflexivity.
  - reflexivity.
  - eexists. split; reflexivity.
Defined.

Lemma activation_excludes_listed_witness :
  Forall (fun pdb => pdb_id pdb ∉ upper_strs [PStr "G protein"; PStr "4GHI"])
    ["1abc_A"; "3def_C"].
Proof.
  pose (templates := [PStr "G protein"; PStr "4GHI"]).
  pose (lines := file_lines
                   (m8_table ["1abc_A"; "1abc_B"; "2xyz_A"; "3def_C"; "4ghi_A"])).
  pose (run := process_lines gpcrdb_demo_server no_float no_repr templates
                 (upper_strs templates) lines ([], [])
                 (table_world EmptyString)).
  refine (activation_excludes_listed gpcrdb_demo_server no_float no_repr
            "G protein" [PStr "4GHI"] lines ([], [])
            (["1abc_A"; "3def_C"], ["1ABC"; "3DEF"])
            (table_world EmptyString) run.2 _ _ _ _).
  - apply (bool_decide_unpack _). vm_compute. exact I.
  - repeat constructor; intros pdb Ht; vm_compute in Ht;
      injection Ht as <-; apply (bool_decide_unpack _); vm_compute; exact I.
  - constructor.
  - vm_compute. reflexivity.
Defined.

(** A structure that [klifs_demo_server] does not know. *)
Lemma klifs_unknown_skipped_witness :
  exists w',
    process_line klifs_demo_server demo_float demo_repr
      [PTuple ["in"; "all"; "all"]] [] (m8_row "2xyz_B") ([], [])
      (table_world EmptyString)
    = (Ok ([], []), w')
    /\ http_count (trace w') = 1
    /\ files w' = files (table_world EmptyString).
Proof.
  refine (klifs_unknown_skipped klifs_demo_server demo_float demo_repr
            "in" "all" "all" [] [] (m8_row "2xyz_B") "2xyz_B" ([], [])
            (table_world EmptyString) (JList [JNum 400]) (JNum 400)
            _ _ _ _ _ _ _).
  - reflexivity.
  - vm_compute. reflexivity.
  - apply (bool_decide_unpack _). vm_compute. exact I.
  - apply (bool_decide_unpack _). vm_compute. exact I.
  - vm_compute. reflexivity.
  - reflexivity.
  - vm_compute. reflexivity.
Defined.

(** ** The alignment *)

Lemma string_of_snoc (l : list ascii) (c : ascii) (s : string) :
  string_of_list_ascii (l ++ [c]) ++ s
  = string_of_list_ascii l ++ String c s.
Proof.
  induction l as [|a l IH]; [done |].
  cbn [app string_of_list_ascii]. by rewrite !PyStrFacts.append_cons, IH.
Qed.

Lemma length_string_of (l : list ascii) :
  String.length (string_of_list_ascii l) = length l.
Proof. induction l as [|a l IH]; [done |]. cbn. by rewrite IH. Qed.

Lemma remove_nul_app (a b : string) :
  remove_nul (a ++ b) = remove_nul a ++ remove_nul b.
Proof.
  unfold remove_nul. induction a as [|c a IH]; [done |].
  rewrite PyStrFacts.append_cons. cbn [PyStr.re_sub_class].
  destruct (Ascii.eqb c Ascii.zero); [done |].
  by rewrite PyStrFacts.append_cons, IH.
Qed.

Lemma append_empty_r (a : string) : a ++ EmptyString = a.
Proof.
  induction a as [|c a IH]; [done |].
  by rewrite PyStrFacts.append_cons, IH.
Qed.

Lemma append_lines_cons (acc line : string) (lines : list string) :
  line <> EmptyString ->
  append_lines acc (line :: lines)
  = append_lines (acc ++ remove_nul line) lines.
Proof. by destruct line. Qed.

Lemma string_of_nonempty (l : list ascii) :
  l <> [] -> string_of_list_ascii l <> EmptyString.
Proof. by destruct l. Qed.

(** The lines of a text, appended one by one, give the text back. *)
Lemma append_lines_aux (s : string) :
  forall (cur : list ascii) (acc : string),
  append_lines acc (readlines_aux cur s)
  = acc ++ remove_nul (string_of_list_ascii (rev cur) ++ s).
Proof.
  induction s as [|c s IH]; intros cur acc; cbn [readlines_aux].
  - rewrite append_empty_r. destruct cur as [|a cur].
    + cbn. by rewrite append_empty_r.
    + rewrite append_lines_cons; [done |].
      apply string_of_nonempty. intros H%(f_equal length).
      rewrite length_rev in H. done.
  - destruct (Ascii.eqb c (ascii_of_nat 10)).
    + rewrite append_lines_cons.
      2:{ apply string_of_nonempty. intros H%(f_equal length).
          rewrite length_rev in H. done. }
      rewrite IH. cbn [rev]. rewrite PyStrFacts.append_nil.
      rewrite PyStrFacts.append_assoc, <- remove_nul_app.
      by rewrite string_of_snoc.
    + rewrite IH. cbn [rev]. by rewrite string_of_snoc.
Qed.

Section AlignmentFacts.

Variable server : nat -> request -> response.
Variable float_of_str : string -> option float.
Variable repr : json -> string.
Variable tarfile_members : string -> res (list (string * string)).

Lemma read_a3m_files_eq (self : runner) (names cs : list string) (w : world) :
  Forall2 (fun name c => files w !! os_path_join (path self) name = Some c)
    names cs ->
  forall acc,
  read_a3m_files self names acc w = (Ok (acc ++ remove_nul (text_of cs)), w).
Proof.
  induction 1 as [|name c names cs Hc _ IH]; intros acc.
  - cbn. by rewrite append_empty_r.
  - cbn [read_a3m_files].
    step_by ltac:(unfold read_file; rewrite Hc; reflexivity).
    rewrite IH. unfold readlines. rewrite append_lines_aux.
    cbn [rev string_of_list_ascii]. rewrite PyStrFacts.append_nil.
    unfold text_of. cbn [map foldr].
    by rewrite remove_nul_app, PyStrFacts.append_assoc.
Qed.

(** X22.  The alignment is the text of the files, in the order given, with
    the line ends as text mode reads them and every NUL removed, and nothing
    else changed; the templates are processed after the files are read. *)
Theorem process_alignment_text (self : runner) (names cs : list string)
    (templates : list pyval) (w : world) :
  Forall2 (fun name c => files w !! os_path_join (path self) name = Some c)
    names cs ->
  _process_alignment server float_of_str repr self names templates w
  = (let* dir := process_templates server float_of_str repr self templates in
     ret (remove_nul (text_of cs), dir)) w.
Proof.
  intros Hfiles. unfold _process_alignment.
  rewrite (bind_ok _ _ _ _ _ (read_a3m_files_eq self names cs w Hfiles _)).
  by rewrite PyStrFacts.append_nil.
Qed.

(** X23.  A job whose archive and first alignment file are in the job
    directory is not run again: no request, no sleep, no extraction; the
    call is the processing of the alignments that are there. *)
Theorem run_job_cached (fuel : nat) (self : runner) (templates : list pyval)
    (w : world) (archive a3m : string) :
  files w !! tarfile self = Some archive ->
  files w !! os_path_join (path self) "uniref.a3m" = Some a3m ->
  run_job server float_of_str repr tarfile_members fuel self templates w
  = Some (_process_alignment server float_of_str repr self a3m_files
            templates w).
Proof.
  intros Harchive Ha3m.
  assert (Hskip : _search_mmseqs2 server repr fuel self w = Some (Ok tt, w)).
  { unfold _search_mmseqs2, pbind, total, os_path_isfile.
    by rewrite bool_decide_eq_true_2 by (by rewrite Harchive). }
  unfold run_job. rewrite (pbind_ok _ _ _ _ _ Hskip). unfold total. f_equal.
  step.
  step_by ltac:(unfold os_path_isfile;
                rewrite bool_decide_eq_true_2 by (by rewrite Ha3m);
                reflexivity).
  cbn [negb]. by step.
Qed.

End AlignmentFacts.

(** ** The bundle *)

Lemma cleanup_trace_eq (self : runner) (w : world) :
  trace (cleanup (templates_path self) w)
  = (trace w ++ cleanup_events self w)%list.
Proof.
  unfold cleanup, cleanup_events. case_bool_decide; [done |].
  by rewrite app_nil_r.
Qed.

Lemma cleanup_absent (p : string) (w : world) :
  p ∉ dirs w -> cleanup p w = w.
Proof. intros Hp. unfold cleanup. by rewrite bool_decide_eq_false_2. Qed.

Lemma cleanup_files_eq (p : string) (w w' : world) :
  dirs w' = dirs w -> files w' = files w ->
  files (cleanup p w') = files (cleanup p w).
Proof.
  intros Hd Hf. unfold cleanup. rewrite Hd. case_bool_decide; [| done].
  cbn. by rewrite Hf.
Qed.


(** *** Reading the stored selection *)

Lemma read_sidecar_eq (self : runner) (pdbs : list string) (w : world) :
  files w !! sidecar self = Some (sidecar_text pdbs) ->
  Forall storable pdbs ->
  read_sidecar self w = (Ok pdbs, w).
Proof.
  intros Hfile Hpdbs. unfold read_sidecar, read_file, bind, ret.
  fold (sidecar self). rewrite Hfile, split_sidecar_text by done.
  by rewrite last_snoc, removelast_last.
Qed.

Lemma alloc_run (xs : list string) (w : world) :
  exists l, alloc xs w = (Ok l, set_heap (<[ l := xs ]> (heap w)) w).
Proof. by eexists. Qed.

Lemma shuffle_templates_run (self : runner) (pdbs : list string)
    (w : world) :
  files w !! sidecar self = Some (sidecar_text pdbs) ->
  Forall storable pdbs ->
  exists p w' ys,
    shuffle_templates self w = (Ok (reshuffling self pdbs, p), w')
    /\ p = (if (length pdbs =? 0)%nat then EmptyString
            else templates_path self)
    /\ ys ≡ₚ pdbs
    /\ trace w' = (trace w ++ shuffle_events self w pdbs ys)%list
    /\ files w' = files (cleanup (templates_path self) w).
Proof.
  intros Hfile Hpdbs. unfold shuffle_templates, shuffle_events.
  rewrite (bind_ok _ _ _ _ _ (read_sidecar_eq self pdbs w Hfile Hpdbs)).
  step.
  set (self' := reshuffling self pdbs).
  set (warn := if (1 <? length pdbs)%nat then []
               else [EvLog WARNING
                       "Impossible to shuffle with 1 template only."]).
  set (w1 := set_trace (trace w ++ [EvPrint "READ_LIST: " pdbs] ++ warn) w).
  assert (Hstep : forall {A} (k : runner -> M A),
            (let* self0 :=
               (if (1 <? length pdbs)%nat
                then ret (set_shuffling_templates true self)
                else
                  let* _ := logging WARNING
                              "Impossible to shuffle with 1 template only." in
                  ret self) in k self0)
              (set_trace (trace w ++ [EvPrint "READ_LIST: " pdbs]) w)
            = k self' w1).
  { intros A k. subst self' warn w1. unfold reshuffling.
    destruct (1 <? length pdbs)%nat.
    - unfold bind, ret. by rewrite app_nil_r.
    - unfold bind, ret, logging, emit. cbn [trace set_trace].
      by rewrite <- app_assoc. }
  rewrite Hstep. clear Hstep.
  destruct (alloc_run pdbs w1) as [l Hl].
  rewrite (bind_ok _ _ _ _ _ Hl).
  set (w2 := set_heap _ w1).
  assert (Hl2 : heap w2 !! l = Some pdbs) by apply lookup_insert_eq.
  assert (Htp : templates_path self' = templates_path self)
    by (subst self'; unfold reshuffling; by destruct (1 <? length pdbs)%nat).
  destruct pdbs as [|x0 xs0].
  - rewrite (bind_ok _ _ _ _ _ (download_templates_empty_eq self' l w2 Hl2)).
    exists EmptyString. eexists. exists [].
    split; [reflexivity |]. do 2 (split; [done |]).
    cbn [trace files set_trace]. rewrite ?Htp, cleanup_trace_eq.
    change (cleanup_events self w2) with (cleanup_events self w).
    split; [| by apply cleanup_files_eq].
    subst w2 w1. cbn [trace set_trace set_heap length Nat.eqb].
    by rewrite <- !app_assoc.
  - destruct (download_templates_nonempty_eq self' l (x0 :: xs0) w2 Hl2)
      as (ys & g & Hperm & _ & Hrun); [done |].
    rewrite (bind_ok _ _ _ _ _ Hrun).
    exists (templates_path self). eexists. exists ys.
    split; [by rewrite Htp |]. do 2 (split; [done |]).
    cbn [trace files]. rewrite ?Htp, cleanup_trace_eq.
    change (cleanup_events self w2) with (cleanup_events self w).
    split; [| by apply cleanup_files_eq].
    subst w2 w1. cbn [trace set_trace set_heap length Nat.eqb].
    by rewrite <- !app_assoc.
Qed.


(** A runner without a stored selection cannot shuffle: the call raises
    [FileNotFoundError] and does nothing else. *)
Lemma shuffle_templates_missing (self : runner) (w : world) :
  files w !! sidecar self = None ->
  shuffle_templates self w = (Raise (FileNotFoundError (sidecar self)), w).
Proof.
  intros Hfile. unfold shuffle_templates, read_sidecar, read_file, bind.
  fold (sidecar self). by rewrite Hfile.
Qed.

Section Bundle.

Variable server : nat -> request -> response.
Variable float_of_str : string -> option float.
Variable repr : json -> string.

Lemma process_lines_nil (tu lines : list string) (st : selection) (w : world) :
  Forall (fun line => exists pdb, target line = Ok pdb) lines ->
  process_lines server float_of_str repr [] tu lines st w = (Ok st, w).
Proof.
  induction 1 as [|line lines [pdb Hpdb] _ IH]; [done |].
  assert (Hline : process_line server float_of_str repr [] tu line st w
                  = (Ok st, w)).
  { unfold process_line.
    change (list_item (PyStr.split_ws (PyStr.rstrip line)) 1)
      with (target line).
    rewrite Hpdb. by step. }
  cbn [process_lines]. by rewrite (bind_ok _ _ _ _ _ Hline).
Qed.

(** X17.  Without criteria nothing is selected, whatever the table holds, as
    long as each of its rows has a target: no service is asked, the stored
    selection is empty, the warning is logged and the empty string returned. *)
Theorem process_templates_no_criteria (self : runner) (table : string)
    (w : world) :
  files w !! (path self ++ "/pdb70.m8") = Some table ->
  under (templates_path self) (path self ++ "/pdb70.m8") = false ->
  Forall (fun line => exists pdb, target line = Ok pdb) (file_lines table) ->
  exists w',
    process_templates server float_of_str repr self [] w
    = (Ok EmptyString, w')
    /\ files w' = <[ sidecar self := EmptyString ]>
                    (files (cleanup (templates_path self) w))
    /\ trace w'
       = (trace w ++ cleanup_events self w
          ++ [EvLog INFO (PyStr.join PyStr.tab ["seq"; "pdb"; "cid"; "evalue"]);
              EvLog WARNING "No templates found."])%list.
Proof.
  intros Hfile Hout Hrows.
  rewrite (process_templates_selection _ _ _ _ _ table) by done.
  rewrite (bind_ok _ _ _ _ _ (process_lines_nil _ _ _ _ Hrows)).
  cbn [fst]. step.
  set (w1 := set_files _ _).
  destruct (alloc_run [] w1) as [l Hl]. rewrite (bind_ok _ _ _ _ _ Hl).
  rewrite download_templates_empty_eq by apply lookup_insert_eq.
  assert (Habs : templates_path self ∉ dirs (set_heap (<[ l := [] ]> (heap w1)) w1)).
  { subst w1. cbn [dirs set_heap set_files selection_start set_trace].
    apply cleanup_removes. }
  rewrite (cleanup_absent _ _ Habs).
  eexists. split; [reflexivity |].
  subst w1. cbn [files trace set_trace set_heap set_files selection_start].
  split; [done |].
  by rewrite cleanup_trace_eq, <- !app_assoc.
Qed.

(** X21.  What [process_templates] selects is what [shuffle_templates] reads
    back afterwards, the codes holding no comma: the call that follows
    prints that selection and, with two or more codes, turns shuffling on. *)
Theorem process_then_shuffle (self : runner) (templates : list pyval)
    (table : string) (w w' : world) (p : string) :
  files w !! (path self ++ "/pdb70.m8") = Some table ->
  under (templates_path self) (path self ++ "/pdb70.m8") = false ->
  under (templates_path self) (sidecar self) = false ->
  process_templates server float_of_str repr self templates w = (Ok p, w') ->
  exists pdbs dups w1,
    process_lines server float_of_str repr templates (upper_strs templates)
      (file_lines table) ([], []) (selection_start self w)
    = (Ok (pdbs, dups), w1)
    /\ (Forall storable pdbs ->
        exists p' w'',
          shuffle_templates self w' = (Ok (reshuffling self pdbs, p'), w'')
          /\ EvPrint "READ_LIST: " pdbs ∈ trace w''
          /\ shuffling_templates (reshuffling self pdbs)
             = (1 <? length pdbs)%nat || shuffling_templates self).
Proof.
  intros Hfile Hout Hside Hrun.
  destruct (process_templates_sidecar _ _ _ _ _ _ _ _ _ Hfile Hout Hside Hrun)
    as (pdbs & dups & w1 & Hsel & Hstored).
  exists pdbs, dups, w1. split; [done |]. intros Hpdbs.
  destruct (shuffle_templates_run self pdbs w' Hstored Hpdbs)
    as (p' & w'' & ys & Hshuffle & _ & _ & Ht & _).
  exists p', w''. split; [done |]. split.
  - rewrite Ht. unfold shuffle_events.
    apply elem_of_app. right. apply list_elem_of_here.
  - unfold reshuffling. by destruct (1 <? length pdbs)%nat.
Qed.

End Bundle.

(** ** A whole run *)

Section Run.

Variable server : nat -> request -> response.
Variable float_of_str : string -> option float.
Variable repr : json -> string.
Variable tarfile_members : string -> res (list (string * string)).

(** X24.  A first run whose job completes: after the requests of the job and
    the download, the archive is unpacked into the job directory, and the
    alignments are processed in the world that results; nothing is unpacked
    before the archive is there. *)
Theorem run_job_fresh (fuel : nat) (self : runner) (templates : list pyval)
    (w : world) (posts polls : list response) (idx fin idx' : json)
    (members : list (string * string)) :
  let archive :=
    content (server (http_count (trace w) + length posts + length polls)
               (download_request repr self idx')) in
  files w !! tarfile self = None ->
  files w !! os_path_join (path self) "uniref.a3m" = None ->
  tarfile self <> os_path_join (path self) "uniref.a3m" ->
  job_script server repr self (http_count (trace w)) posts polls idx fin ->
  length posts <= S fuel ->
  length polls <= fuel ->
  Json.getitem fin "status" = Ok (JStr "COMPLETE") ->
  Json.getitem fin "id" = Ok idx' ->
  tarfile_members archive = Ok members ->
  exists w1,
    run_job server float_of_str repr tarfile_members fuel self templates w
    = Some (_process_alignment server float_of_str repr self a3m_files
              templates w1)
    /\ files w1
       = fold_left (fun fs m => <[ os_path_join (path self) m.1 := m.2 ]> fs)
           members (<[ tarfile self := archive ]> (files w))
    /\ dirs w1 = dirs w
    /\ filter is_http (trace w1)
       = (filter is_http (trace w)
          ++ job_requests repr self posts polls idx
          ++ [EvHttp (download_request repr self idx')])%list.
Proof.
  intros archive Hfile Ha3m Hne Hscript Hposts Hpolls Hstatus Hid Htar.
  destruct (search_run server repr fuel self w posts polls idx fin)
    as (w0 & Hsearch & (Hd & Hf & _) & Hh); try done.
  assert (Hfinish :
    finish server repr self fin w0
    = (Ok tt,
       set_files (<[ tarfile self := archive ]> (files w))
         (set_trace (trace w0 ++ [EvHttp (download_request repr self idx')])
            w0))).
  { unfold finish. unfold bind at 1, lift at 1. rewrite Hstatus.
    cbn [Json.eq_str String.eqb Ascii.eqb Bool.eqb].
    unfold bind at 1, lift at 1. rewrite Hid, download_eq.
    rewrite (http_count_filter _ _ _ Hh). unfold job_requests at 1.
    rewrite length_app, !repeat_length, Nat.add_assoc, Hf. done. }
  unfold run_job.
  erewrite pbind_ok; [| rewrite Hsearch, Hfinish; reflexivity].
  unfold total. step.
  step_by ltac:(unfold os_path_isfile; cbn [files set_files set_trace];
                rewrite bool_decide_eq_false_2;
                [reflexivity
                | rewrite lookup_insert_ne, Ha3m by done; by intros [? ?]]).
  cbn [negb]. set (w1 := set_files _ _).
  assert (Hextract :
    (let* archive := read_file (tarfile self) in
     let* members := lift (tarfile_members archive) in
     extractall (path self) members) w1
    = (Ok tt,
       set_files (fold_left
                    (fun fs m => <[ os_path_join (path self) m.1 := m.2 ]> fs)
                    members (files w1)) w1)).
  { step_by ltac:(unfold read_file; subst w1; cbn [files set_files set_trace];
                  rewrite lookup_insert_eq; reflexivity).
    rewrite Htar. by step. }
  rewrite (bind_ok _ _ _ _ _ Hextract). subst w1.
  eexists. split; [reflexivity |].
  cbn [files dirs trace set_files set_trace].
  split; [done |]. split; [done |].
  by rewrite filter_app, Hh, filter_cons_True, <- app_assoc.
Qed.

(** X25.  A first run whose job ends in a status that is none of the known
    ones: the search returns without an archive, and the run fails when it
    opens the archive, with [FileNotFoundError]; no file has changed. *)
Theorem run_job_unfinished (fuel : nat) (self : runner)
    (templates : list pyval) (w : world) (posts polls : list response)
    (idx fin s : json) :
  files w !! tarfile self = None ->
  files w !! os_path_join (path self) "uniref.a3m" = None ->
  job_script server repr self (http_count (trace w)) posts polls idx fin ->
  length posts <= S fuel ->
  length polls <= fuel ->
  Json.getitem fin "status" = Ok s ->
  Json.eq_str s "COMPLETE" = false ->
  Json.eq_str s "ERROR" = false ->
  exists w',
    run_job server float_of_str repr tarfile_members fuel self templates w
    = Some (Raise (FileNotFoundError (tarfile self)), w')
    /\ files w' = files w
    /\ filter is_http (trace w')
       = (filter is_http (trace w)
          ++ job_requests repr self posts polls idx)%list.
Proof.
  intros Hfile Ha3m Hscript Hposts Hpolls Hstatus Hc He.
  destruct (search_run server repr fuel self w posts polls idx fin)
    as (w0 & Hsearch & (Hd & Hf & _) & Hh); try done.
  assert (Hfinish : finish server repr self fin w0 = (Ok tt, w0)).
  { unfold finish, bind, lift, ret. by rewrite Hstatus, Hc, He. }
  unfold run_job.
  erewrite pbind_ok; [| rewrite Hsearch, Hfinish; reflexivity].
  unfold total. step.
  step_by ltac:(unfold os_path_isfile;
                rewrite bool_decide_eq_false_2;
                [reflexivity | rewrite Hf, Ha3m; by intros [? ?]]).
  cbn [negb]. exists w0. split; [| done].
  f_equal. apply bind_raise. apply bind_raise.
  unfold read_file. by rewrite Hf, Hfile.
Qed.

End Run.

(** *** Runs of the bundle and of the alignment *)



Lemma process_templates_no_criteria_witness :
  exists w',
    process_templates silent_server no_float no_repr (demo_runner 20 false)
      [] (table_world (m8_table ["1abc_A"; "2xyz_B"]))
    = (Ok EmptyString, w')
    /\ files w' !! "job_1a2b3_env/template_pdbs.txt" = Some EmptyString.
Proof.
  destruct (process_templates_no_criteria silent_server no_float no_repr
              (demo_runner 20 false) (m8_table ["1abc_A"; "2xyz_B"])
              (table_world (m8_table ["1abc_A"; "2xyz_B"])))
    as (w' & Hrun & Hfiles & _).
  - reflexivity.
  - vm_compute. reflexivity.
  - eapply Forall_impl; [| exact full_row_target].
    apply (bool_decide_unpack _). vm_compute. exact I.
  - exists w'. split; [exact Hrun |]. rewrite Hfiles.
    apply lookup_insert_eq.
Defined.

Lemma process_then_shuffle_witness :
  let self := demo_runner 20 false in
  let templates := [PStr "1abc_A"; PStr "2xyz_B"] in
  let w := table_world (m8_table ["1abc_A"; "2xyz_B"]) in
  exists p' w'',
    shuffle_templates self
      (process_templates silent_server no_float no_repr self templates w).2
    = (Ok (demo_runner 20 true, p'), w'')
    /\ EvPrint "READ_LIST: " ["1abc_A"; "2xyz_B"] ∈ trace w''.
Proof.
  intros self templates w.
  destruct (process_then_shuffle silent_server no_float no_repr self
              templates (m8_table ["1abc_A"; "2xyz_B"]) w
              (process_templates silent_server no_float no_repr self
                 templates w).2
              "job_1a2b3_env/templates_101")
    as (pdbs & dups & w1 & Hsel & Hshuffle).
  - reflexivity.
  - vm_compute. reflexivity.
  - vm_compute. reflexivity.
  - vm_compute. reflexivity.
  - assert (Hpdbs : pdbs = ["1abc_A"; "2xyz_B"]).
    { vm_compute in Hsel. by injection Hsel as <- _ _. }
    subst pdbs. destruct Hshuffle as (p' & w'' & Hrun & Hprint & _).
    + apply (bool_decide_unpack _). vm_compute. exact I.
    + exists p', w''. split; [exact Hrun | exact Hprint].
Defined.

Lemma process_alignment_text_witness :
  (_process_alignment silent_server no_float no_repr (demo_runner 20 false)
     a3m_files [] a3m_world).1
  = Ok (">101" ++ PyStr.newline ++ "MKV" ++ PyStr.newline
        ++ ">hit" ++ PyStr.newline ++ "MRV" ++ PyStr.newline,
        EmptyString).
Proof.
  rewrite (process_alignment_text silent_server no_float no_repr
             (demo_runner 20 false) a3m_files [uniref_text; bfd_text] []
             a3m_world).
  - vm_compute. reflexivity.
  - repeat constructor.
Defined.

Lemma run_job_cached_witness :
  run_job silent_server no_float no_repr demo_tar 0 (demo_runner 20 false)
    [] a3m_world
  = Some (_process_alignment silent_server no_float no_repr
            (demo_runner 20 false) a3m_files [] a3m_world).
Proof.
  apply (run_job_cached silent_server no_float no_repr demo_tar 0
           (demo_runner 20 false) [] a3m_world "archive" uniref_text).
  - reflexivity.
  - reflexivity.
Defined.

Lemma run_job_fresh_witness :
  exists w1,
    run_job (scripted_server complete_job) no_float no_repr demo_tar 2
      (demo_runner 20 false) [] (demo_world [] [])
    = Some (_process_alignment (scripted_server complete_job) no_float
              no_repr (demo_runner 20 false) a3m_files [] w1)
    /\ files w1 !! "job_1a2b3_env/uniref.a3m" = Some uniref_text
    /\ http_count (trace w1) = 5.
Proof.
  destruct (run_job_fresh (scripted_server complete_job) no_float no_repr
              demo_tar 2 (demo_runner 20 false) [] (demo_world [] [])
              [ticket_response "RATELIMIT"; ticket_response "PENDING"]
              [ticket_response "RUNNING"; ticket_response "COMPLETE"]
              (JStr "T1") (ticket (ticket_response "COMPLETE")) (JStr "T1")
              [ ("uniref.a3m", uniref_text);
                ("bfd.mgnify30.metaeuk30.smag30.a3m", bfd_text);
                ("pdb70.m8", m8_table ["1abc_A"]) ])
    as (w1 & Hrun & Hfiles & _ & Hhttp).
  - reflexivity.
  - reflexivity.
  - discriminate.
  - exists [ticket_response "RATELIMIT"], (ticket_response "PENDING").
    split; [reflexivity |].
    split; [repeat constructor; by eexists |].
    split; [by eexists |]. split; [reflexivity |].
    split; [repeat constructor; by eexists |].
    split; [reflexivity |]. split; [by eexists |]. by repeat split.
  - cbn. lia.
  - cbn. lia.
  - reflexivity.
  - reflexivity.
  - reflexivity.
  - exists w1. split; [exact Hrun |]. split.
    + rewrite Hfiles. vm_compute. reflexivity.
    + unfold http_count. rewrite Hhttp. reflexivity.
Defined.

(** ** What the loop leaves alone *)

Lemma prefix_app (a b c : string) :
  String.prefix a b = true -> String.prefix a (b ++ c) = true.
Proof.
  revert b. induction a as [|x a IH]; intros b; [by destruct (b ++ c) |].
  destruct b as [|y b]; [done |].
  rewrite PyStrFacts.append_cons. cbn.
  destruct (ascii_dec x y); [apply IH | done].
Qed.

Lemma asks_refl (w : world) : asks w w.
Proof. exists []. split; [| done]. destruct w. cbn. by rewrite app_nil_r. Qed.

Lemma asks_trans (w1 w2 w3 : world) : asks w1 w2 -> asks w2 w3 -> asks w1 w3.
Proof.
  intros (t1 & -> & H1) (t2 & -> & H2). exists (t1 ++ t2)%list. split.
  - cbn [trace set_trace]. by rewrite app_assoc.
  - by apply Forall_app.
Qed.

Lemma asking_ret {A} (a : A) : asking (ret a).
Proof. intros w r w' [= _ <-]. apply asks_refl. Qed.

Lemma asking_raise {A} (e : exn) : asking (@raise A e).
Proof. intros w r w' [= _ <-]. apply asks_refl. Qed.

Lemma asking_lift {A} (x : res A) : asking (lift x).
Proof. intros w r w' [= _ <-]. apply asks_refl. Qed.

Lemma asking_bind {A B} (m : M A) (k : A -> M B) :
  asking m -> (forall a, asking (k a)) -> asking (bind m k).
Proof.
  intros Hm Hk w r w'. unfold bind.
  destruct (m w) as [[a|e] w1] eqn:Hrun.
  - intros H. eapply asks_trans; [eapply Hm, Hrun | eapply Hk, H].
  - intros [= _ <-]. eapply Hm, Hrun.
Qed.

Lemma asking_and_then (a b : M bool) :
  asking a -> asking b -> asking (and_then a b).
Proof.
  intros Ha Hb. apply asking_bind; [done |].
  intros []; [done | apply asking_ret].
Qed.

Lemma asking_info (msg : string) : asking (logging INFO msg).
Proof.
  intros w r w' [= _ <-]. exists [EvLog INFO msg]. split; [done |].
  by constructor.
Qed.

Lemma asks_no_shell (t : list event) :
  Forall selection_event t -> filter is_shell t = [].
Proof.
  induction 1 as [|e t He _ IH]; [done |].
  rewrite filter_cons_False; [done |].
  destruct e; try done; simpl; exact id.
Qed.

Section Frame.

Variable server : nat -> request -> response.
Variable float_of_str : string -> option float.
Variable repr : json -> string.

Lemma asking_get (url : string) :
  String.prefix "http://gpcrdb.org/services/structure/" url = true
  \/ String.prefix "https://klifs.net/api_v2/" url = true ->
  asking (requests server (GET url)).
Proof.
  intros Hurl w r w' [= _ <-]. exists [EvHttp (GET url)]. split; [done |].
  by constructor.
Qed.

Lemma asking_res_json (r : response) : asking (res_json r).
Proof.
  unfold res_json. destruct (json_body r); [apply asking_ret | apply asking_raise].
Qed.

Ltac asking :=
  repeat first
    [ apply asking_ret | apply asking_raise | apply asking_lift
    | apply asking_info | apply asking_res_json
    | apply asking_get; (left + right); apply prefix_app; reflexivity
    | apply asking_and_then
    | apply asking_bind; [| intros ?]
    | match goal with
      | |- asking (if ?b then _ else _) => destruct b
      | |- asking (let (_, _) := ?x in _) => destruct x
      | |- asking (match ?x with _ => _ end) => destruct x
      end ].

Lemma asking_activation (state pdb pdbid : string) (st : selection) :
  asking (activation_branch server state pdb pdbid st).
Proof. unfold activation_branch. asking. Qed.

Lemma asking_conformation (t0 : pyval) (pdb pdbid : string) (st : selection) :
  asking (conformation_branch server float_of_str repr t0 pdb pdbid st).
Proof.
  unfold conformation_branch, check_criteria, salt_bridge_class,
    conformation_match, observed.
  asking.
Qed.

Lemma asking_literal (sl : list string) (st : selection) :
  asking (literal_branch sl st).
Proof. unfold literal_branch. asking. Qed.

Lemma asking_line (templates : list pyval) (tu : list string) (line : string)
    (st : selection) :
  asking (process_line server float_of_str repr templates tu line st).
Proof.
  unfold process_line. apply asking_bind; [apply asking_lift |]. intros pdb.
  destruct templates as [|t0 rest]; [apply asking_ret |].
  apply asking_bind.
  - destruct (_ && _ && _); [apply asking_activation | apply asking_ret].
  - intros st1. destruct (_ && _ && _); [apply asking_conformation |].
    destruct (bool_decide _); [apply asking_literal | apply asking_ret].
Qed.

(** X10.  However the loop ends, with a selection or with an exception, it
    has only asked the two services, with GET, and logged records of level
    INFO: it writes no file, runs no command and leaves the lists and the
    state of [random] alone. *)
Theorem selection_only_asks (templates : list pyval) (tu lines : list string)
    (st : selection) (w w' : world) (r : res selection) :
  process_lines server float_of_str repr templates tu lines st w = (r, w') ->
  asks w w'.
Proof.
  revert st w r w'. induction lines as [|line lines IH]; intros st.
  - apply asking_ret.
  - cbn [process_lines]. apply asking_bind; [apply asking_line |].
    intros st1 w1 r1 w1'. apply IH.
Qed.

Lemma process_lines_app (templates : list pyval) (tu l1 l2 : list string)
    (st : selection) (w : world) :
  process_lines server float_of_str repr templates tu (l1 ++ l2) st w
  = (let* st1 := process_lines server float_of_str repr templates tu l1 st in
     process_lines server float_of_str repr templates tu l2 st1) w.
Proof.
  revert st w. induction l1 as [|line l1 IH]; intros st w; [done |].
  cbn [app process_lines].
  destruct (process_line server float_of_str repr templates tu line st w)
    as [[st1|e] w1] eqn:Hline.
  - rewrite (bind_ok _ _ _ _ _ Hline), IH.
    unfold bind at 2. rewrite (bind_ok _ _ _ _ _ Hline). reflexivity.
  - rewrite (bind_raise _ _ _ _ _ Hline).
    unfold bind at 1. by rewrite (bind_raise _ _ _ _ _ Hline).
Qed.

(** X18.  A row with fewer than two fields, a blank line for one, ends
    [process_templates] with [IndexError], whatever the criteria, once the
    rows before it are done; nothing is stored and nothing fetched. *)
Theorem process_templates_short_row (self : runner) (templates : list pyval)
    (table : string) (w : world) (good rest : list string) (bad : string)
    (st1 : selection) (w1 : world) :
  files w !! (path self ++ "/pdb70.m8") = Some table ->
  under (templates_path self) (path self ++ "/pdb70.m8") = false ->
  file_lines table = (good ++ bad :: rest)%list ->
  process_lines server float_of_str repr templates (upper_strs templates)
    good ([], []) (selection_start self w) = (Ok st1, w1) ->
  length (PyStr.split_ws (PyStr.rstrip bad)) < 2 ->
  process_templates server float_of_str repr self templates w
  = (Raise IndexError, w1)
  /\ files w1 = files (cleanup (templates_path self) w)
  /\ filter is_shell (trace w1)
     = filter is_shell (trace w ++ cleanup_events self w)%list.
Proof.
  intros Hfile Hout Hlines Hgood Hbad.
  rewrite (process_templates_selection _ _ _ _ _ table) by done.
  rewrite Hlines, (bind_raise _ _ _ w1 IndexError).
  - split; [done |].
    apply selection_only_asks in Hgood as (t & -> & Ht).
    cbn [files trace set_trace selection_start]. split; [done |].
    rewrite cleanup_trace_eq, !filter_app.
    rewrite (filter_cons_False _ (EvLog _ _)) by (simpl; exact id).
    rewrite filter_nil, app_nil_r.
    by rewrite (asks_no_shell _ Ht), app_nil_r.
  - rewrite process_lines_app, (bind_ok _ _ _ _ _ Hgood).
    cbn [process_lines]. apply bind_raise.
    unfold process_line. apply bind_raise. unfold lift, list_item.
    rewrite lookup_ge_None_2; [done | lia].
Qed.

(** X14.  A structure that GPCRdb does not describe by a record, its answer
    being JSON of another kind, costs one request and is not selected. *)
Theorem gpcrdb_unknown_skipped (state : string) (rest : list pyval)
    (line pdb : string) (st : selection) (w : world) (rj : json) :
  let templates := PStr state :: rest in
  state ∈ activation_states ->
  target line = Ok pdb ->
  pdb_id pdb ∉ st.2 ->
  pdb_id pdb ∉ upper_strs templates ->
  PStr pdb ∉ templates ->
  json_body (server (http_count (trace w))
               (GET ("http://gpcrdb.org/services/structure/" ++ pdb_id pdb)))
  = Some rj ->
  Json.is_dict rj = false ->
  exists w',
    process_line server float_of_str repr templates (upper_strs templates)
      line st w = (Ok st, w')
    /\ http_count (trace w') = S (http_count (trace w))
    /\ files w' = files w.
Proof.
  intros templates Hstate Hpdb Hdup Hexcl Hlit Hbody Hdict.
  subst templates. unfold process_line.
  change (list_item (PyStr.split_ws (PyStr.rstrip line)) 1) with (target line).
  rewrite Hpdb. step.
  cbn [pyval_in_strs pyval_len pyval_str].
  rewrite (bool_decide_eq_true_2 _ Hstate), (bool_decide_eq_false_2 _ Hdup),
    (bool_decide_eq_false_2 _ Hexcl).
  cbn [andb negb].
  assert (Hbranch :
    activation_branch server state pdb (pdb_id pdb) st w
    = (Ok st,
       set_trace
         (trace w
          ++ [EvHttp (GET ("http://gpcrdb.org/services/structure/"
                           ++ pdb_id pdb))]) w)).
  { unfold activation_branch. step. unfold res_json at 1. rewrite Hbody.
    step. rewrite Hdict. step. cbv beta iota. by step. }
  rewrite (bind_ok _ _ _ _ _ Hbranch).
  rewrite (activation_state_length _ Hstate). cbn [andb].
  rewrite (bool_decide_eq_false_2 _ Hlit).
  eexists. split; [reflexivity |]. split; [| done].
  cbn [trace set_trace]. apply http_count_request.
Qed.

(** X15.  An answer of GPCRdb that is not JSON is not caught: the row ends
    the loop with [ValueError] after its one request. *)
Theorem gpcrdb_not_json_raises (state : string) (rest : list pyval)
    (line pdb : string) (lines : list string) (st : selection) (w : world) :
  let templates := PStr state :: rest in
  state ∈ activation_states ->
  target line = Ok pdb ->
  pdb_id pdb ∉ st.2 ->
  pdb_id pdb ∉ upper_strs templates ->
  json_body (server (http_count (trace w))
               (GET ("http://gpcrdb.org/services/structure/" ++ pdb_id pdb)))
  = None ->
  process_lines server float_of_str repr templates (upper_strs templates)
    (line :: lines) st w
  = (Raise ValueError,
     set_trace
       (trace w
        ++ [EvHttp (GET ("http://gpcrdb.org/services/structure/"
                         ++ pdb_id pdb))]) w).
Proof.
  intros templates Hstate Hpdb Hdup Hexcl Hbody.
  subst templates. cbn [process_lines]. apply bind_raise.
  unfold process_line.
  change (list_item (PyStr.split_ws (PyStr.rstrip line)) 1) with (target line).
  rewrite Hpdb. step.
  cbn [pyval_in_strs pyval_len pyval_str].
  rewrite (bool_decide_eq_true_2 _ Hstate), (bool_decide_eq_false_2 _ Hdup),
    (bool_decide_eq_false_2 _ Hexcl).
  cbn [andb negb]. apply bind_raise.
  unfold activation_branch. step. unfold res_json at 1. rewrite Hbody.
  reflexivity.
Qed.

End Frame.

(** *** Runs that end early *)

Lemma run_job_unfinished_witness :
  exists w',
    run_job (scripted_server maintenance) no_float no_repr demo_tar 0
      (demo_runner 20 false) [] (demo_world [] [])
    = Some (Raise (FileNotFoundError "job_1a2b3_env/out.tar.gz"), w')
    /\ files w' = files (demo_world [] []).
Proof.
  destruct (run_job_unfinished (scripted_server maintenance) no_float no_repr
              demo_tar 0 (demo_runner 20 false) [] (demo_world [] [])
              [ticket_response "MAINTENANCE"] []
              (JStr "T1") (ticket (ticket_response "MAINTENANCE"))
              (JStr "MAINTENANCE"))
    as (w' & Hrun & Hfiles & _).
  - reflexivity.
  - reflexivity.
  - exists [], (ticket_response "MAINTENANCE").
    split; [reflexivity |]. split; [constructor |].
    split; [by eexists |]. split; [reflexivity |].
    split; [constructor |].
    split; [reflexivity |]. split; [by eexists |]. by repeat split.
  - cbn. lia.
  - cbn. lia.
  - reflexivity.
  - reflexivity.
  - reflexivity.
  - by exists w'.
Defined.

Lemma selection_only_asks_witness :
  let templates := [PStr "G protein"; PStr "4GHI"] in
  let w := table_world EmptyString in
  asks w
    (process_lines gpcrdb_demo_server no_float no_repr templates
       (upper_strs templates)
       (file_lines (m8_table ["1abc_A"; "1abc_B"; "2xyz_A"; "3def_C"; "4ghi_A"]))
       ([], []) w).2.
Proof.
  intros templates w.
  apply (selection_only_asks gpcrdb_demo_server no_float no_repr templates
           (upper_strs templates)
           (file_lines (m8_table ["1abc_A"; "1abc_B"; "2xyz_A"; "3def_C";
                                  "4ghi_A"]))
           ([], []) w _ (Ok (["1abc_A"; "3def_C"], ["1ABC"; "3DEF"]))).
  vm_compute. reflexivity.
Defined.

(** A table with a blank line after its first row. *)
Lemma process_templates_short_row_witness :
  let table := m8_row "1abc_A" ++ PyStr.newline ++ PyStr.newline in
  exists w1,
    process_templates silent_server no_float no_repr (demo_runner 20 false)
      [PStr "1abc_A"] (table_world table)
    = (Raise IndexError, w1)
    /\ files w1 !! "job_1a2b3_env/template_pdbs.txt" = None.
Proof.
  intros table.
  pose (run := process_lines silent_server no_float no_repr [PStr "1abc_A"]
                 (upper_strs [PStr "1abc_A"]) [m8_row "1abc_A"] ([], [])
                 (selection_start (demo_runner 20 false) (table_world table))).
  destruct (process_templates_short_row silent_server no_float no_repr
              (demo_runner 20 false) [PStr "1abc_A"] table (table_world table)
              [m8_row "1abc_A"] [] EmptyString (["1abc_A"], []) run.2)
    as (Hrun & Hfiles & _).
  - reflexivity.
  - vm_compute. reflexivity.
  - vm_compute. reflexivity.
  - vm_compute. reflexivity.
  - vm_compute. lia.
  - exists run.2. split; [exact Hrun |]. rewrite Hfiles.
    vm_compute. reflexivity.
Defined.

(** A structure that [gpcrdb_demo_server] answers with an empty list. *)
Lemma gpcrdb_unknown_skipped_witness :
  exists w',
    process_line gpcrdb_demo_server no_float no_repr [PStr "Active"]
      (upper_strs [PStr "Active"]) (m8_row "9zzz_A") ([], [])
      (table_world EmptyString)
    = (Ok ([], []), w')
    /\ http_count (trace w') = 1
    /\ files w' = files (table_world EmptyString).
Proof.
  refine (gpcrdb_unknown_skipped gpcrdb_demo_server no_float no_repr
            "Active" [] (m8_row "9zzz_A") "9zzz_A" ([], [])
            (table_world EmptyString) (JList []) _ _ _ _ _ _ _).
  - apply (bool_decide_unpack _). vm_compute. exact I.
  - vm_compute. reflexivity.
  - apply (bool_decide_unpack _). vm_compute. exact I.
  - apply (bool_decide_unpack _). vm_compute. exact I.
  - apply (bool_decide_unpack _). vm_compute. exact I.
  - vm_compute. reflexivity.
  - reflexivity.
Defined.

(** A service that answers with a page that is not JSON. *)
Lemma gpcrdb_not_json_raises_witness :
  process_lines silent_server no_float no_repr [PStr "Active"]
    (upper_strs [PStr "Active"]) [m8_row "1abc_A"; m8_row "2xyz_B"] ([], [])
    (table_world EmptyString)
  = (Raise ValueError,
     set_trace [EvHttp (GET "http://gpcrdb.org/services/structure/1ABC")]
       (table_world EmptyString)).
Proof.
  refine (gpcrdb_not_json_raises silent_server no_float no_repr
            "Active" [] (m8_row "1abc_A") "1abc_A" [m8_row "2xyz_B"] ([], [])
            (table_world EmptyString) _ _ _ _ _).
  - apply (bool_decide_unpack _). vm_compute. exact I.
  - vm_compute. reflexivity.
  - apply (bool_decide_unpack _). vm_compute. exact I.
  - apply (bool_decide_unpack _). vm_compute. exact I.
  - reflexivity.
Defined.
